(** * review.py: the diff line locator and the review orchestrator

    A shallow embedding of [src/review.py].

    Modelling conventions.
    - A Python [str] is a [string]: a sequence of [ascii] characters, read as
      the code points 0..255.  On that range [\d] is the ten characters
      [0]..[9], [str.lower] shifts [A]..[Z] and the Latin-1 capitals, and
      [str.splitlines] breaks at the eight characters of [is_linebreak].
    - A Python [int] is a [Z], unbounded as in Python; [int(s)] is taken
      without the runtime's configurable limit on the length of [s].
    - The module body is run from the point where [parser.parse_args()] has
      returned the parsed arguments (line 29 on); runs that argparse itself
      ends (usage error, [--version]) are not part of the model.
    - The GitHub and model gateways are objects whose methods may raise; they
      are records of functions returning [result].  Every gateway call and
      every [print] is appended to a trace of events, and the two services
      whose answers are not a function of their arguments ([generate_review],
      [create_review_comment]) answer from the trace so far. *)

From Stdlib Require Import Bool Arith ZArith Lia List Ascii String.
From Stdlib Require Import Numbers.DecimalString.
Import ListNotations.

Local Open Scope list_scope.
Local Open Scope string_scope.

(** ** Python [str] operations used by the program *)

Module PyStr.

(** [s.startswith(p)] *)
Definition startswith (s p : string) : bool := String.prefix p s.

(** [sub in s] *)
Fixpoint contains (s sub : string) : bool :=
  startswith s sub ||
  match s with
  | EmptyString => false
  | String _ s' => contains s' sub
  end.

(** The line boundaries of [str.splitlines] among the code points 0..255:
    LF, VT, FF, CR, FS, GS, RS and NEL. *)
Definition is_linebreak (c : ascii) : bool :=
  match nat_of_ascii c with
  | 10 | 11 | 12 | 13 | 28 | 29 | 30 | 133 => true
  | _ => false
  end.

Definition CR : ascii := ascii_of_nat 13.
Definition LF : ascii := ascii_of_nat 10.

(** [s.splitlines()], as the scanning loop of the runtime: [cur] is the line
    read so far; a boundary ends it (CR LF counting as one boundary), and the
    end of the text ends it only when it is not empty. *)
Fixpoint splitlines_from (cur s : string) : list string :=
  match s with
  | EmptyString =>
      match cur with
      | EmptyString => []
      | _ => [cur]
      end
  | String c s' =>
      if is_linebreak c then
        cur :: match s' with
               | String c' s'' =>
                   if Ascii.eqb c CR && Ascii.eqb c' LF
                   then splitlines_from EmptyString s''
                   else splitlines_from EmptyString s'
               | EmptyString => []
               end
      else splitlines_from (cur ++ String c EmptyString) s'
  end.

Definition splitlines (s : string) : list string :=
  splitlines_from EmptyString s.

(** [\d] and the value [int] gives a digit. *)
Definition is_digit (c : ascii) : bool :=
  let n := nat_of_ascii c in ((48 <=? n) && (n <=? 57))%nat.

Definition digit_value (c : ascii) : Z := Z.of_nat (nat_of_ascii c - 48).

(** [int(s)] for a string of digits (most significant first). *)
Fixpoint int_from (acc : Z) (s : string) : Z :=
  match s with
  | EmptyString => acc
  | String c s' => int_from (10 * acc + digit_value c)%Z s'
  end.

Definition int (s : string) : Z := int_from 0%Z s.

(** [str(n)] for an [int]. *)
Definition str (n : Z) : string := NilZero.string_of_int (Z.to_int n).

(** [c.lower()] on the code points 0..255: the letters [A]..[Z] and the
    capitals 0xC0..0xDE other than the multiplication sign 0xD7. *)
Definition lower_char (c : ascii) : ascii :=
  let n := nat_of_ascii c in
  if (((65 <=? n) && (n <=? 90))
      || ((192 <=? n) && (n <=? 222) && negb (n =? 215)))%nat
  then ascii_of_nat (n + 32) else c.

Fixpoint lower (s : string) : string :=
  match s with
  | EmptyString => EmptyString
  | String c s' => String (lower_char c) (lower s')
  end.

(** [sep.join(items)] *)
Fixpoint join (sep : string) (items : list string) : string :=
  match items with
  | [] => EmptyString
  | [x] => x
  | x :: rest => x ++ sep ++ join sep rest
  end.

(** [c * n] for a one-character string [c]. *)
Fixpoint repeat_char (c : ascii) (n : nat) : string :=
  match n with
  | O => EmptyString
  | S k => String c (repeat_char c k)
  end.

(** Truthiness of a [str]: the empty string is false. *)
Definition truthy (s : string) : bool :=
  match s with
  | EmptyString => false
  | _ => true
  end.

(** Truthiness of an attribute that is a [str] or [None]. *)
Definition truthy_opt (o : option string) : bool :=
  match o with
  | Some s => truthy s
  | None => false
  end.

(** [o or default] for such an attribute. *)
Definition or_default (o : option string) (default : string) : string :=
  match o with
  | Some s => if truthy s then s else default
  | None => default
  end.

End PyStr.

(** ** The regular expression of the hunk header

    [re.match] tries the pattern at the start of the line and lets the line go
    on after it.  The pattern of line 53 is a sequence of literal characters
    and of capturing groups [(\d+)]; [\d+] is greedy and gives characters back
    when the rest of the pattern fails. *)

Module Re.

Inductive token : Type :=
| Lit (c : ascii)    (* one literal character *)
| Digits.            (* the capturing group (\d+) *)

Definition pattern := list token.

Fixpoint lits (s : string) : pattern :=
  match s with
  | EmptyString => []
  | String c s' => Lit c :: lits s'
  end.

(** [(\d+)] followed by the rest of the pattern [k]: one more digit is taken
    while there is one (greedy); where the longer run leads to no match, the
    run read so far is tried as the group. *)
Fixpoint greedy_digits (k : string -> string -> option (list string))
    (s taken : string) : option (list string) :=
  match s with
  | String c s' =>
      if PyStr.is_digit c then
        let taken' := taken ++ String c EmptyString in
        match greedy_digits k s' taken' with
        | Some r => Some r
        | None => k s' taken'
        end
      else None
  | EmptyString => None
  end.

(** The backtracking matcher: the groups captured by the first successful
    way of matching [p] at the start of [s]; [groups] are the groups captured
    so far. *)
Fixpoint match_from (p : pattern) (s : string) (groups : list string)
    : option (list string) :=
  match p with
  | [] => Some groups
  | Lit c :: p' =>
      match s with
      | String c' s' =>
          if Ascii.eqb c c' then match_from p' s' groups else None
      | EmptyString => None
      end
  | Digits :: p' =>
      greedy_digits
        (fun rest taken => match_from p' rest (groups ++ [taken])%list)
        s EmptyString
  end.

(** [re.match(p, s)]: [None], or the list of the groups. *)
Definition re_match (p : pattern) (s : string) : option (list string) :=
  match_from p s [].

(** [m.group(k)], for [k >= 1]. *)
Definition group (groups : list string) (k : nat) : string :=
  nth (k - 1) groups EmptyString.

(** What the pattern language means, without a matching strategy. *)

Fixpoint all_digits (s : string) : bool :=
  match s with
  | EmptyString => true
  | String c s' => PyStr.is_digit c && all_digits s'
  end.

(** A numeral: one digit or more. *)
Definition is_number (s : string) : bool := PyStr.truthy s && all_digits s.

(** [Matches p s groups tail]: [s] is a text that [p] describes, with the
    numerals [groups] where [p] has [(\d+)], followed by [tail]. *)
Inductive Matches : pattern -> string -> list string -> string -> Prop :=
| Matches_nil (s : string) : Matches [] s [] s
| Matches_lit (c : ascii) (p : pattern) (s : string) (gs : list string)
    (tail : string) :
    Matches p s gs tail -> Matches (Lit c :: p) (String c s) gs tail
| Matches_digits (p : pattern) (ds s : string) (gs : list string)
    (tail : string) :
    is_number ds = true -> Matches p s gs tail ->
    Matches (Digits :: p) (ds ++ s) (ds :: gs) tail.

(** Every [(\d+)] of the pattern is followed by a literal that is no digit. *)
Fixpoint delimited (p : pattern) : bool :=
  match p with
  | [] => true
  | Lit _ :: p' => delimited p'
  | Digits :: p' =>
      match p' with
      | Lit c :: _ => negb (PyStr.is_digit c) && delimited p'
      | _ => false
      end
  end.

Definition starts_with_digit (s : string) : bool :=
  match s with
  | String c _ => PyStr.is_digit c
  | EmptyString => false
  end.

End Re.

Definition NL : string := String PyStr.LF EmptyString.

(** ** The diff line locator (lines 49-59) *)

(** [r"@@ -(\d+),(\d+) \+(\d+),(\d+) @@"] *)
Definition HUNK_RE : Re.pattern :=
  (Re.lits "@@ -" ++ [Re.Digits] ++ Re.lits "," ++ [Re.Digits] ++
   Re.lits " +" ++ [Re.Digits] ++ Re.lits "," ++ [Re.Digits] ++
   Re.lits " @@")%list.

(** The test of line 57 on one line of the patch. *)
Definition is_added_line (diff_line : string) : bool :=
  PyStr.startswith diff_line "+" && negb (PyStr.startswith diff_line "+++").

(** The inner loop (lines 56-58) over [lines[i+1:]], [j] counting from 1:
    [Some] is the value returned, [None] is the loop running to its end. *)
Fixpoint first_added_from (new_start j : Z) (rest : list string) : option Z :=
  match rest with
  | [] => None
  | diff_line :: rest' =>
      if is_added_line diff_line
      then Some (new_start + j - 1)%Z
      else first_added_from new_start (j + 1)%Z rest'
  end.

(** Lines 52-55 on one line: the start line captured from it, if any. *)
Definition hunk_new_start (line : string) : option Z :=
  if PyStr.startswith line "@@" then
    match Re.re_match HUNK_RE line with
    | Some groups => Some (PyStr.int (Re.group groups 3))
    | None => None
    end
  else None.

(** The outer loop (lines 51-59) over the lines still to visit. *)
Fixpoint scan_lines (lines : list string) : Z :=
  match lines with
  | [] => 1%Z
  | line :: rest =>
      match hunk_new_start line with
      | Some new_start =>
          match first_added_from new_start 1%Z rest with
          | Some r => r
          | None => scan_lines rest
          end
      | None => scan_lines rest
      end
  end.

Definition get_file_line_from_diff (diff : string) : Z :=
  scan_lines (PyStr.splitlines diff).

(** *** The words of the specification about a patch *)

(** [line] begins with a hunk header [@@ -a,b +c,d @@] whose new-file start
    is the numeral [c]. *)
Definition HunkHeader (line c : string) : Prop :=
  exists a b d tail,
    Re.is_number a = true /\ Re.is_number b = true /\
    Re.is_number c = true /\ Re.is_number d = true /\
    line = "@@ -" ++ a ++ "," ++ b ++ " +" ++ c ++ "," ++ d ++ " @@" ++ tail.

Definition is_hunk_header (line : string) : Prop :=
  exists c, HunkHeader line c.

(** The lines of a hunk: those after its header, up to the next line that
    starts with [@@]. *)
Fixpoint hunk_body (after_header : list string) : list string :=
  match after_header with
  | [] => []
  | l :: rest =>
      if PyStr.startswith l "@@" then [] else l :: hunk_body rest
  end.

(** [hdr] is the first hunk header of [lines], [pre] the lines before it and
    [rest] the lines after it. *)
Definition first_header (lines pre : list string) (hdr : string)
    (rest : list string) : Prop :=
  lines = (pre ++ hdr :: rest)%list /\
  (forall l, In l pre -> ~ is_hunk_header l) /\
  is_hunk_header hdr.

(** The first hunk of [lines] has no line that starts with [+]. *)
Definition first_hunk_has_no_plus (lines : list string) : Prop :=
  exists pre hdr rest,
    first_header lines pre hdr rest /\
    forall l, In l (hunk_body rest) -> PyStr.startswith l "+" = false.

(** ** The command line, the gateways and the effects of a run *)

(** [--mode] and [--llm], restricted by [choices]. *)
Inductive Mode : Type := general | issues | comments.
Inductive LLMChoice : Type := chatgpt | gemini | grok.

(** The namespace [parse_args] returns. *)
Record Args : Type := {
  repository : string;
  pr_number : Z;
  mode : Mode;
  full_context : bool;
  llm : LLMChoice;
  deep : bool;
  debug : bool
}.

(** A raised exception: its class and [str(e)].  Every exception of the
    model is an instance of [Exception], which [except Exception] catches. *)
Record exception : Type := { exc_class : string; exc_str : string }.

Definition ValueError (msg : string) : exception :=
  {| exc_class := "ValueError"; exc_str := msg |}.

Inductive result (A : Type) : Type :=
| Ok (a : A)
| Raise (e : exception).
Arguments Ok {A} a.
Arguments Raise {A} e.

(** What a run does to the outside, in order.  The calls whose answer is the
    service's to choose carry that answer. *)
Inductive event : Type :=
| E_get_repo (full_name : string)
| E_get_pull (number : Z)
| E_llm_init (choice : LLMChoice) (debug deep : bool)
| E_get_files
| E_get_contents (path ref : string)
| E_get_commit (sha : string)
| E_generate_review (content : string) (m : Mode) (answer : result string)
| E_create_review_comment (body commit path : string) (line : Z)
    (side : string) (answer : result unit)
| E_print (text : string).

Definition trace := list event.

(** One changed file of the pull request; [patch] is [None] where GitHub
    gives none. *)
Record File : Type := {
  filename : string;
  patch : option string
}.

Record Commit : Type := { sha : string }.

(** The pull request object: its attributes as fetched, the files it lists,
    and the service that posts a review comment. *)
Record PullRequest : Type := {
  title : option string;
  body : option string;
  state : string;
  head : Commit;
  get_files : list File;
  create_review_comment :
    trace -> string -> Commit -> string -> Z -> string -> result unit
}.

(** The repository object; [get_contents path ref] stands for
    [repo.get_contents(path, ref=ref).decoded_content.decode("utf-8")]. *)
Record Repository : Type := {
  get_pull : Z -> result PullRequest;
  get_contents : string -> string -> result string;
  get_commit : string -> result Commit
}.

Record Github : Type := {
  get_repo : string -> result Repository
}.

(** A model gateway: its one operation. *)
Record LLM : Type := {
  generate_review : trace -> string -> Mode -> result string
}.

(** What the process finds around it: the environment variables, the GitHub
    client built from a token, and the three gateway classes of the modules
    [chatgpt_llm], [gemini_llm] and [grok_llm], each called with [debug] and
    [deep]. *)
Record World : Type := {
  getenv : string -> option string;
  mk_Github : string -> Github;
  ChatGPTLLM : bool -> bool -> result LLM;
  GeminiLLM : bool -> bool -> result LLM;
  GrokLLM : bool -> bool -> result LLM
}.

(** *** The monad of a run: a trace that grows, and a result or an exception *)

Definition M (A : Type) : Type := trace -> result A * trace.

Definition ret {A} (a : A) : M A := fun t => (Ok a, t).

Definition raise {A} (e : exception) : M A := fun t => (Raise e, t).

Definition bind {A B} (c : M A) (k : A -> M B) : M B :=
  fun t =>
    match c t with
    | (Ok a, t') => k a t'
    | (Raise e, t') => (Raise e, t')
    end.

Notation "x <- c ;; k" := (bind c (fun x => k))
  (at level 61, c at next level, right associativity).
Notation "c ;;; k" := (bind c (fun _ => k))
  (at level 61, right associativity).

(** A call whose answer does not depend on what happened before. *)
Definition call {A} (ev : event) (answer : result A) : M A :=
  fun t => (answer, t ++ [ev])%list.

(** [print(text)] *)
Definition print (text : string) : M unit :=
  fun t => (Ok tt, t ++ [E_print text])%list.

(** [try: c  except Exception as e: handler e] *)
Definition try_except {A} (c : M A) (handler : exception -> M A) : M A :=
  fun t =>
    match c t with
    | (Ok a, t') => (Ok a, t')
    | (Raise e, t') => handler e t'
    end.

(** [for x in xs: body x] *)
Fixpoint for_each {A} (xs : list A) (body : A -> M unit) : M unit :=
  match xs with
  | [] => ret tt
  | x :: xs' => body x ;;; for_each xs' body
  end.

Definition call_generate_review (gateway : LLM) (content : string) (m : Mode)
    : M string :=
  fun t =>
    let answer := generate_review gateway t content m in
    (answer, t ++ [E_generate_review content m answer])%list.

Definition call_create_review_comment (pr : PullRequest)
    (body : string) (commit : Commit) (path : string) (line : Z)
    (side : string) : M unit :=
  fun t =>
    let answer := create_review_comment pr t body commit path line side in
    (answer,
     t ++ [E_create_review_comment body commit.(sha) path line side answer])%list.

Definition call_get_contents (repo : Repository) (path ref : string)
    : M string :=
  call (E_get_contents path ref) (get_contents repo path ref).

Definition call_get_files (pr : PullRequest) : M (list File) :=
  call E_get_files (Ok (get_files pr)).

(** The status the process ends with: 0 at the end of the module, 1 after an
    exception nobody caught. *)
Definition exit_status {A} (r : result A) : Z :=
  match r with
  | Ok _ => 0%Z
  | Raise _ => 1%Z
  end.

(** ** The orchestrator (lines 29-46 and 61-120) *)

Definition SEPARATOR : string := PyStr.repeat_char "-" 16.

(** Lines 62-64. *)
Definition pr_title (pr : PullRequest) : string :=
  PyStr.or_default (title pr) "No title provided".

Definition pr_description (pr : PullRequest) : string :=
  PyStr.or_default (body pr) "No description provided".

Definition base_content (pr : PullRequest) : string :=
  "PR Title: " ++ pr_title pr ++ NL ++
  "PR Description:" ++ NL ++ pr_description pr ++ NL ++ NL.

(** Line 72: the block of one file with its full content. *)
Definition full_context_block (file_name file_content diff : string) : string :=
  "File: " ++ file_name ++ NL ++ file_content ++ NL ++ NL ++
  "Diff:" ++ NL ++ diff ++ NL ++ SEPARATOR.

(** Lines 69-72: the loop that fills [all_content]. *)
Fixpoint collect_all_content (repo : Repository) (pr : PullRequest)
    (files : list File) (all_content : list string) : M (list string) :=
  match files with
  | [] => ret all_content
  | file :: rest =>
      match patch file with
      | Some diff =>
          if PyStr.truthy diff then
            file_content <-
              call_get_contents repo (filename file) (sha (head pr)) ;;
            collect_all_content repo pr rest
              (all_content ++
               [full_context_block (filename file) file_content diff])%list
          else collect_all_content repo pr rest all_content
      | None => collect_all_content repo pr rest all_content
      end
  end.

(** Line 75: the list comprehension over the files with a patch. *)
Fixpoint patch_blocks (files : list File) : list string :=
  match files with
  | [] => []
  | file :: rest =>
      match patch file with
      | Some diff =>
          if PyStr.truthy diff
          then (diff ++ NL ++ SEPARATOR) :: patch_blocks rest
          else patch_blocks rest
      | None => patch_blocks rest
      end
  end.

(** Lines 67-75. *)
Definition build_diff_content (args : Args) (repo : Repository)
    (pr : PullRequest) : M string :=
  if full_context args then
    files <- call_get_files pr ;;
    all_content <- collect_all_content repo pr files [] ;;
    ret (PyStr.join (NL ++ NL) all_content)
  else
    files <- call_get_files pr ;;
    ret (PyStr.join NL (patch_blocks files)).

(** Lines 78-82. *)
Definition build_content (args : Args) (pr : PullRequest)
    (diff_content : string) : string :=
  let content := base_content pr in
  match mode args with
  | general => content ++ ("Diffs:" ++ NL ++ diff_content)
  | issues | comments => content ++ ("Diffs:" ++ NL ++ diff_content)
  end.

(** Line 102: what the per-file call sends. *)
Definition chunk_of (args : Args) (file_name file_content diff : string)
    : string :=
  if full_context args
  then "File: " ++ file_name ++ NL ++ file_content ++ NL ++ NL ++
       "Diff:" ++ NL ++ diff
  else diff.

(** Line 105. *)
Definition wants_comment (file_review : string) : bool :=
  PyStr.truthy file_review &&
  negb (PyStr.contains (PyStr.lower file_review) "no feedback").

(** Lines 106-118: the comment on one file. *)
Definition post_comment (pr : PullRequest) (head_commit : Commit)
    (file : File) (diff file_review : string) : M unit :=
  let line_num := get_file_line_from_diff diff in
  let comment := "AI Issue: " ++ file_review in
  try_except
    (call_create_review_comment pr comment head_commit (filename file)
       line_num "RIGHT" ;;;
     print ("Posted comment on " ++ filename file ++ " at line " ++
            PyStr.str line_num ++ ": " ++ comment))
    (fun e =>
       print ("Error posting comment on " ++ filename file ++ ": " ++
              exc_str e)).

(** Lines 99-118: the body of the loop over the changed files. *)
Definition review_file (args : Args) (repo : Repository) (pr : PullRequest)
    (gateway : LLM) (head_commit : Commit) (file : File) : M unit :=
  match patch file with
  | Some diff =>
      if PyStr.truthy diff then
        file_content <-
          (if full_context args
           then call_get_contents repo (filename file) (sha (head pr))
           else ret "") ;;
        let chunk := chunk_of args (filename file) file_content diff in
        file_review <- call_generate_review gateway chunk (mode args) ;;
        if wants_comment file_review
        then post_comment pr head_commit file diff file_review
        else ret tt
      else ret tt
  | None => ret tt
  end.

(** Lines 88-120. *)
Definition process (args : Args) (repo : Repository) (pr : PullRequest)
    (gateway : LLM) (review_text : string) : M unit :=
  match mode args with
  | general => print ("General PR Review:" ++ NL ++ review_text)
  | issues => print ("Code Issues:" ++ NL ++ review_text)
  | comments =>
      print ("Code Issues:" ++ NL ++ review_text) ;;;
      if String.eqb (state pr) "open" then
        head_commit <-
          call (E_get_commit (sha (head pr)))
               (get_commit repo (sha (head pr))) ;;
        files <- call_get_files pr ;;
        for_each files (review_file args repo pr gateway head_commit)
      else
        print "Comments mode: PR is closed, no comments posted."
  end.

(** Lines 61-120: the run once the repository, the pull request and the
    gateway are there. *)
Definition review (args : Args) (repo : Repository) (pr : PullRequest)
    (gateway : LLM) : M unit :=
  diff_content <- build_diff_content args repo pr ;;
  let content := build_content args pr diff_content in
  review_text <- call_generate_review gateway content (mode args) ;;
  process args repo pr gateway review_text.

(** Lines 40-44. *)
Definition llm_map (w : World) (choice : LLMChoice)
    : bool -> bool -> result LLM :=
  match choice with
  | chatgpt => ChatGPTLLM w
  | gemini => GeminiLLM w
  | grok => GrokLLM w
  end.

(** Lines 29-120: the module body after [parse_args]. *)
Definition main (args : Args) (w : World) : M unit :=
  match getenv w "GITHUB_TOKEN" with
  | Some GITHUB_TOKEN =>
      if PyStr.truthy GITHUB_TOKEN then
        let g := mk_Github w GITHUB_TOKEN in
        repo <- call (E_get_repo (repository args))
                     (get_repo g (repository args)) ;;
        pr <- call (E_get_pull (pr_number args))
                   (get_pull repo (pr_number args)) ;;
        gateway <- call (E_llm_init (llm args) (debug args) (deep args))
                        (llm_map w (llm args) (debug args) (deep args)) ;;
        review args repo pr gateway
      else raise (ValueError "GITHUB_TOKEN environment variable is required")
  | None => raise (ValueError "GITHUB_TOKEN environment variable is required")
  end.

(** A run starts with nothing done yet. *)
Definition run (args : Args) (w : World) : result unit * trace :=
  main args w [].

(** ** Reading a trace *)

(** The model calls of a trace, in order: what each one was sent. *)
Fixpoint llm_calls (t : trace) : list (string * Mode) :=
  match t with
  | [] => []
  | E_generate_review content m _ :: t' => (content, m) :: llm_calls t'
  | _ :: t' => llm_calls t'
  end.

Definition is_comment_creation (e : event) : bool :=
  match e with
  | E_create_review_comment _ _ _ _ _ _ => true
  | _ => false
  end.

(** Reading the changed files or a file's content. *)
Definition is_fetch (e : event) : bool :=
  match e with
  | E_get_files | E_get_contents _ _ => true
  | _ => false
  end.

(** A property of each event and the one before it ([None] before the
    first). *)
Fixpoint chained (R : option event -> event -> Prop) (prev : option event)
    (t : trace) : Prop :=
  match t with
  | [] => True
  | e :: t' => R prev e /\ chained R (Some e) t'
  end.

(** A property of each event and the events after it. *)
Fixpoint followed (F : event -> trace -> Prop) (t : trace) : Prop :=
  match t with
  | [] => True
  | e :: t' => F e t' /\ followed F t'
  end.

(** The last event of [t], or [prev] when [t] is empty. *)
Fixpoint last_event (prev : option event) (t : trace) : option event :=
  match t with
  | [] => prev
  | e :: t' => last_event (Some e) t'
  end.

(** ** A run that got its repository, pull request and gateway *)

(** Lines 30-46 went through: the token is there and not empty, and the
    three set-up calls returned [repo], [pr] and [gateway]. *)
Definition setup_ok (args : Args) (w : World) (repo : Repository)
    (pr : PullRequest) (gateway : LLM) : Prop :=
  exists token,
    getenv w "GITHUB_TOKEN" = Some token /\
    PyStr.truthy token = true /\
    get_repo (mk_Github w token) (repository args) = Ok repo /\
    get_pull repo (pr_number args) = Ok pr /\
    llm_map w (llm args) (debug args) (deep args) = Ok gateway.

(** The events of lines 35-46. *)
Definition setup_trace (args : Args) : trace :=
  [E_get_repo (repository args); E_get_pull (pr_number args);
   E_llm_init (llm args) (debug args) (deep args)].

(** The value of [diff_content] after lines 67-75, or the exception they
    raise. *)
Definition diff_content_of (args : Args) (repo : Repository)
    (pr : PullRequest) : result string :=
  fst (build_diff_content args repo pr []).

(** The changed files the loops keep: those whose patch is there and not
    empty, each with its patch. *)
Fixpoint patched (files : list File) : list (File * string) :=
  match files with
  | [] => []
  | file :: rest =>
      match patch file with
      | Some diff =>
          if PyStr.truthy diff then (file, diff) :: patched rest
          else patched rest
      | None => patched rest
      end
  end.

(** The content of a file at the head commit as line 100 has it. *)
Definition file_content_of (args : Args) (repo : Repository)
    (pr : PullRequest) (file : File) : string :=
  if full_context args then
    match get_contents repo (filename file) (sha (head pr)) with
    | Ok file_content => file_content
    | Raise _ => ""
    end
  else "".

(** What the per-file call of a kept file is sent. *)
Definition file_call (args : Args) (repo : Repository) (pr : PullRequest)
    (fd : File * string) : string * Mode :=
  (chunk_of args (filename (fst fd))
     (file_content_of args repo pr (fst fd)) (snd fd),
   mode args).

(** Nothing but the posting of a comment fails: the gateway answers every
    call, the head commit is found, and with [--full-context] so is the
    content of every kept file. *)
Definition only_posting_may_fail (args : Args) (repo : Repository)
    (pr : PullRequest) (gateway : LLM) : Prop :=
  (forall t content m, exists text,
      generate_review gateway t content m = Ok text) /\
  (exists head_commit, get_commit repo (sha (head pr)) = Ok head_commit) /\
  (full_context args = true ->
   forall file diff, In (file, diff) (patched (get_files pr)) ->
     exists file_content,
       get_contents repo (filename file) (sha (head pr)) = Ok file_content).

(** *** The words of the specification about the content *)

(** The title and the description as the content shows them: the
    placeholder where the attribute is missing or empty. *)
Definition shown_title (pr : PullRequest) : string :=
  match title pr with
  | None | Some EmptyString => "No title provided"
  | Some t => t
  end.

Definition shown_description (pr : PullRequest) : string :=
  match body pr with
  | None | Some EmptyString => "No description provided"
  | Some d => d
  end.

(** [PR Title + PR Description + Diffs]. *)
Definition pr_level_content (pr : PullRequest) (diffs : string) : string :=
  "PR Title: " ++ shown_title pr ++ NL ++
  "PR Description:" ++ NL ++ shown_description pr ++ NL ++ NL ++
  "Diffs:" ++ NL ++ diffs.

(** [v] is [no feedback] in some letter case. *)
Definition says_no_feedback (v : string) : Prop :=
  PyStr.lower v = "no feedback".

(** ** The shape of the traces *)

Section Shapes.

Variables (args : Args) (repo : Repository) (pr : PullRequest)
          (gateway : LLM).

Section PerFile.

Variable head_commit : Commit.

(** Lines 103-118 for one kept file: the model call and what follows it. *)
Inductive comment_trace (file : File) (diff chunk : string)
    : trace -> result unit -> Prop :=
| CT_review_raises (t : trace) (e : exception) :
    generate_review gateway t chunk (mode args) = Raise e ->
    comment_trace file diff chunk
      [E_generate_review chunk (mode args) (Raise e)] (Raise e)
| CT_no_comment (file_review : string) :
    wants_comment file_review = false ->
    comment_trace file diff chunk
      [E_generate_review chunk (mode args) (Ok file_review)] (Ok tt)
| CT_posted (file_review : string) :
    wants_comment file_review = true ->
    comment_trace file diff chunk
      [E_generate_review chunk (mode args) (Ok file_review);
       E_create_review_comment ("AI Issue: " ++ file_review)
         (sha head_commit) (filename file) (get_file_line_from_diff diff)
         "RIGHT" (Ok tt);
       E_print ("Posted comment on " ++ filename file ++ " at line " ++
                PyStr.str (get_file_line_from_diff diff) ++ ": " ++
                "AI Issue: " ++ file_review)]
      (Ok tt)
| CT_post_raises (file_review : string) (e : exception) :
    wants_comment file_review = true ->
    comment_trace file diff chunk
      [E_generate_review chunk (mode args) (Ok file_review);
       E_create_review_comment ("AI Issue: " ++ file_review)
         (sha head_commit) (filename file) (get_file_line_from_diff diff)
         "RIGHT" (Raise e);
       E_print ("Error posting comment on " ++ filename file ++ ": " ++
                exc_str e)]
      (Ok tt).

(** Lines 99-118 for one changed file. *)
Inductive file_trace (file : File) : trace -> result unit -> Prop :=
| FT_skipped :
    PyStr.truthy_opt (patch file) = false ->
    file_trace file [] (Ok tt)
| FT_contents_raise (diff : string) (e : exception) :
    patch file = Some diff -> PyStr.truthy diff = true ->
    full_context args = true ->
    get_contents repo (filename file) (sha (head pr)) = Raise e ->
    file_trace file [E_get_contents (filename file) (sha (head pr))]
      (Raise e)
| FT_with_content (diff file_content : string) (es : trace)
    (r : result unit) :
    patch file = Some diff -> PyStr.truthy diff = true ->
    full_context args = true ->
    get_contents repo (filename file) (sha (head pr)) = Ok file_content ->
    comment_trace file diff
      (chunk_of args (filename file) file_content diff) es r ->
    file_trace file
      (E_get_contents (filename file) (sha (head pr)) :: es) r
| FT_diff_only (diff : string) (es : trace) (r : result unit) :
    patch file = Some diff -> PyStr.truthy diff = true ->
    full_context args = false ->
    comment_trace file diff (chunk_of args (filename file) "" diff) es r ->
    file_trace file es r.

(** Line 98: the loop, which an exception ends. *)
Inductive loop_trace : list File -> trace -> result unit -> Prop :=
| LT_done : loop_trace [] [] (Ok tt)
| LT_next (file : File) (files : list File) (es1 es2 : trace)
    (r : result unit) :
    file_trace file es1 (Ok tt) -> loop_trace files es2 r ->
    loop_trace (file :: files) (es1 ++ es2)%list r
| LT_raise (file : File) (files : list File) (es : trace) (e : exception) :
    file_trace file es (Raise e) ->
    loop_trace (file :: files) es (Raise e).

End PerFile.

(** Lines 88-120, [review_text] being the answer to the first model call. *)
Inductive process_trace (review_text : string)
    : trace -> result unit -> Prop :=
| PT_general :
    mode args = general ->
    process_trace review_text
      [E_print ("General PR Review:" ++ NL ++ review_text)] (Ok tt)
| PT_issues :
    mode args = issues ->
    process_trace review_text
      [E_print ("Code Issues:" ++ NL ++ review_text)] (Ok tt)
| PT_closed :
    mode args = comments -> state pr <> "open" ->
    process_trace review_text
      [E_print ("Code Issues:" ++ NL ++ review_text);
       E_print "Comments mode: PR is closed, no comments posted."] (Ok tt)
| PT_commit_raises (e : exception) :
    mode args = comments -> state pr = "open" ->
    get_commit repo (sha (head pr)) = Raise e ->
    process_trace review_text
      [E_print ("Code Issues:" ++ NL ++ review_text);
       E_get_commit (sha (head pr))] (Raise e)
| PT_files (head_commit : Commit) (es : trace) (r : result unit) :
    mode args = comments -> state pr = "open" ->
    get_commit repo (sha (head pr)) = Ok head_commit ->
    loop_trace head_commit (get_files pr) es r ->
    process_trace review_text
      (E_print ("Code Issues:" ++ NL ++ review_text) ::
       E_get_commit (sha (head pr)) :: E_get_files :: es) r.

(** Lines 61-120: the events after those of [t]. *)
Inductive review_trace (t : trace) : trace -> result unit -> Prop :=
| RT_diff_raises (es : trace) (e : exception) :
    Forall (fun ev => is_fetch ev = true) es ->
    diff_content_of args repo pr = Raise e ->
    review_trace t es (Raise e)
| RT_review_raises (es : trace) (diff_content : string) (e : exception) :
    Forall (fun ev => is_fetch ev = true) es ->
    diff_content_of args repo pr = Ok diff_content ->
    generate_review gateway (t ++ es)%list
      (build_content args pr diff_content) (mode args) = Raise e ->
    review_trace t
      (es ++ [E_generate_review (build_content args pr diff_content)
                (mode args) (Raise e)])%list
      (Raise e)
| RT_reviewed (es : trace) (diff_content review_text : string)
    (es' : trace) (r : result unit) :
    Forall (fun ev => is_fetch ev = true) es ->
    diff_content_of args repo pr = Ok diff_content ->
    generate_review gateway (t ++ es)%list
      (build_content args pr diff_content) (mode args) = Ok review_text ->
    process_trace review_text es' r ->
    review_trace t
      (es ++ E_generate_review (build_content args pr diff_content)
               (mode args) (Ok review_text) :: es')%list
      r.

End Shapes.

(** ** What the claims say of an event and its neighbours *)

(** A comment creation comes right after the model call of a kept file, sent
    that file's chunk, whose answer asked for the comment; it is built from
    that answer and that file. *)
Definition comment_justified (args : Args) (repo : Repository)
    (pr : PullRequest) (prev : option event) (e : event) : Prop :=
  match e with
  | E_create_review_comment body commit path line side _ =>
      mode args = comments /\ state pr = "open" /\
      exists chunk file_review file diff,
        prev = Some (E_generate_review chunk comments (Ok file_review)) /\
        wants_comment file_review = true /\
        In (file, diff) (patched (get_files pr)) /\
        chunk = fst (file_call args repo pr (file, diff)) /\
        body = "AI Issue: " ++ file_review /\
        path = filename file /\
        line = get_file_line_from_diff diff /\
        side = "RIGHT"
  | _ => True
  end.

(** A comment creation that raised is followed at once by the error line,
    with the path and [str(e)]. *)
Definition posting_reported (e : event) (after : trace) : Prop :=
  match e with
  | E_create_review_comment _ _ path _ _ (Raise ex) =>
      exists after',
        after = E_print ("Error posting comment on " ++ path ++ ": " ++
                         exc_str ex) :: after'
  | _ => True
  end.

(** ** A sample pull request, for the examples *)

Module Sample.

Definition args : Args :=
  {| repository := "octo/demo"; pr_number := 7; mode := comments;
     full_context := false; llm := chatgpt; deep := false; debug := false |}.

Definition patch_a : string := "@@ -1,2 +1,3 @@" ++ NL ++ " x" ++ NL ++ "+y".
Definition patch_b : string := "@@ -4,2 +4,2 @@" ++ NL ++ "-u" ++ NL ++ "+v".
Definition patch_c : string := "@@ -9,1 +9,2 @@" ++ NL ++ " p" ++ NL ++ "+q".

Definition files : list File :=
  [ {| filename := "a.py"; patch := Some patch_a |};
    {| filename := "logo.png"; patch := None |};
    {| filename := "b.py"; patch := Some patch_b |};
    {| filename := "c.py"; patch := Some patch_c |} ].

(** GitHub refuses the comment on [a.py] and takes the others. *)
Definition pr (pr_state : string) : PullRequest :=
  {| title := None;
     body := Some "";
     state := pr_state;
     head := {| sha := "c0ffee" |};
     get_files := files;
     create_review_comment := fun _ _ _ path _ _ =>
       if String.eqb path "a.py"
       then Raise {| exc_class := "GithubException";
                     exc_str := "422 line must be part of the diff" |}
       else Ok tt |}.

Definition repo (pr_state : string) : Repository :=
  {| get_pull := fun _ => Ok (pr pr_state);
     get_contents := fun path _ => Ok ("# " ++ path);
     get_commit := fun s => Ok {| sha := s |} |}.

(** A gateway that finds something in [a.py] and [c.py] and nothing in
    [b.py]. *)
Definition gateway : LLM :=
  {| generate_review := fun _ content _ =>
       if PyStr.startswith content "PR Title: " then Ok "2 issues."
       else if PyStr.contains content "+v" then Ok "No Feedback."
       else if PyStr.contains content "+y" then Ok "y is never read."
       else Ok "q shadows a builtin." |}.

Definition world (pr_state : string) : World :=
  {| getenv := fun name =>
       if String.eqb name "GITHUB_TOKEN" then Some "ghp_0123" else None;
     mk_Github := fun _ => {| get_repo := fun _ => Ok (repo pr_state) |};
     ChatGPTLLM := fun _ _ => Ok gateway;
     GeminiLLM := fun _ _ => Ok gateway;
     GrokLLM := fun _ _ => Ok gateway |}.

(** The same surroundings without the token. *)
Definition world_without_token : World :=
  {| getenv := fun _ => None;
     mk_Github := mk_Github (world "open");
     ChatGPTLLM := ChatGPTLLM (world "open");
     GeminiLLM := GeminiLLM (world "open");
     GrokLLM := GrokLLM (world "open") |}.

(** The same surroundings with an empty token. *)
Definition world_with_empty_token : World :=
  {| getenv := fun _ => Some "";
     mk_Github := mk_Github (world "open");
     ChatGPTLLM := ChatGPTLLM (world "open");
     GeminiLLM := GeminiLLM (world "open");
     GrokLLM := GrokLLM (world "open") |}.

(** A gateway that is out of quota, and the surroundings that give it. *)
Definition rate_limited : exception :=
  {| exc_class := "RateLimitError"; exc_str := "429 too many requests" |}.

Definition failing_gateway : LLM :=
  {| generate_review := fun _ _ _ => Raise rate_limited |}.

Definition world_with_failing_gateway : World :=
  {| getenv := getenv (world "open");
     mk_Github := mk_Github (world "open");
     ChatGPTLLM := fun _ _ => Ok failing_gateway;
     GeminiLLM := fun _ _ => Ok failing_gateway;
     GrokLLM := fun _ _ => Ok failing_gateway |}.

(** A patch of two hunks: the first removes a line, the second adds one. *)
Definition two_hunks : string :=
  "@@ -1,2 +1,1 @@" ++ NL ++ " a" ++ NL ++ "-b" ++ NL ++
  "@@ -10,1 +9,2 @@" ++ NL ++ " c" ++ NL ++ "+d".

(** A general review with the full files. *)
Definition args_general : Args :=
  {| repository := "octo/demo"; pr_number := 7; mode := general;
     full_context := true; llm := grok; deep := true; debug := false |}.

End Sample.

(** ** Vocabulary of the further properties *)

(** [l] holds no line boundary: it is one line for [splitlines]. *)
Fixpoint no_boundary (l : string) : bool :=
  match l with
  | EmptyString => true
  | String c l' => negb (PyStr.is_linebreak c) && no_boundary l'
  end.

Definition CRLF : string := String PyStr.CR NL.

(** [lines] without its last line when that line is empty. *)
Fixpoint drop_last_empty (lines : list string) : list string :=
  match lines with
  | [] => []
  | [l] => if PyStr.truthy l then [l] else []
  | l :: rest => l :: drop_last_empty rest
  end.

(** The heading under which a mode prints the review of the pull request. *)
Definition heading (m : Mode) : string :=
  match m with
  | general => "General PR Review:"
  | issues | comments => "Code Issues:"
  end.

Definition is_print (e : event) : bool :=
  match e with
  | E_print _ => true
  | _ => false
  end.

(** The comments a trace tried to create, in order: path and line. *)
Fixpoint comment_targets (t : trace) : list (string * Z) :=
  match t with
  | [] => []
  | E_create_review_comment _ _ path line _ _ :: t' =>
      (path, line) :: comment_targets t'
  | _ :: t' => comment_targets t'
  end.

(** Where the comment on a kept file goes. *)
Definition target_of (fd : File * string) : string * Z :=
  (filename (fst fd), get_file_line_from_diff (snd fd)).

(** How many times a trace read a commit. *)
Fixpoint commit_reads (t : trace) : nat :=
  match t with
  | [] => 0
  | E_get_commit _ :: t' => S (commit_reads t')
  | _ :: t' => commit_reads t'
  end.

(** [Subseq l1 l2]: [l1] is [l2] with some elements left out. *)
Inductive Subseq {A : Type} : list A -> list A -> Prop :=
| Subseq_nil (l : list A) : Subseq [] l
| Subseq_skip (x : A) (l1 l2 : list A) : Subseq l1 l2 -> Subseq l1 (x :: l2)
| Subseq_take (x : A) (l1 l2 : list A) :
    Subseq l1 l2 -> Subseq (x :: l1) (x :: l2).

(** The events of lines 67-75. *)
Definition diff_events (args : Args) (repo : Repository) (pr : PullRequest)
    : trace :=
  snd (build_diff_content args repo pr []).

(** A comment creation that returned is followed at once by the line that
    says so, with the path, the line and the body. *)
Definition posting_announced (e : event) (after : trace) : Prop :=
  match e with
  | E_create_review_comment body _ path line _ (Ok _) =>
      exists after',
        after = E_print ("Posted comment on " ++ path ++ " at line " ++
                         PyStr.str line ++ ": " ++ body) :: after'
  | _ => True
  end.

(** A content is fetched with [--full-context] only, at the head commit, for
    a kept file. *)
Definition contents_fetch_ok (args : Args) (pr : PullRequest) (e : event)
    : Prop :=
  match e with
  | E_get_contents path ref =>
      full_context args = true /\ ref = sha (head pr) /\
      exists file diff,
        In (file, diff) (patched (get_files pr)) /\ path = filename file
  | _ => True
  end.

(** In the loop of line 98 no commit is read, and a comment goes to
    [head_commit]. *)
Definition loop_event_ok (head_commit : Commit) (e : event) : Prop :=
  match e with
  | E_get_commit _ => False
  | E_create_review_comment _ commit _ _ _ _ => commit = sha head_commit
  | _ => True
  end.

(** Where a run that ended with [e] may have stopped: not on a [print], not
    on the creation of a comment, and on a model call only if it raised
    [e]. *)
Definition stops_at (e : exception) (last : option event) : Prop :=
  match last with
  | Some (E_print _) => False
  | Some (E_create_review_comment _ _ _ _ _ _) => False
  | Some (E_generate_review _ _ answer) => answer = Raise e
  | _ => True
  end.

(** The block of a kept file in [diff_content], and what joins the blocks
    (lines 72-75). *)
Definition block_of (args : Args) (repo : Repository) (pr : PullRequest)
    (fd : File * string) : string :=
  if full_context args
  then full_context_block (filename (fst fd))
         (file_content_of args repo pr (fst fd)) (snd fd)
  else snd fd ++ NL ++ SEPARATOR.

Definition block_separator (args : Args) : string :=
  if full_context args then NL ++ NL else NL.

(** Lines 85-120 after the events of lines 67-75: [t1] is the trace when
    the model is called for the pull request. *)
Inductive tail_trace (args : Args) (repo : Repository) (pr : PullRequest)
    (gateway : LLM) (t1 : trace) : trace -> result unit -> Prop :=
| TT_diff_raises (e : exception) :
    diff_content_of args repo pr = Raise e ->
    tail_trace args repo pr gateway t1 [] (Raise e)
| TT_review_raises (diff_content : string) (e : exception) :
    diff_content_of args repo pr = Ok diff_content ->
    generate_review gateway t1 (build_content args pr diff_content)
      (mode args) = Raise e ->
    tail_trace args repo pr gateway t1
      [E_generate_review (build_content args pr diff_content) (mode args)
         (Raise e)]
      (Raise e)
| TT_reviewed (diff_content review_text : string) (es : trace)
    (r : result unit) :
    diff_content_of args repo pr = Ok diff_content ->
    generate_review gateway t1 (build_content args pr diff_content)
      (mode args) = Ok review_text ->
    process_trace args repo pr gateway review_text es r ->
    tail_trace args repo pr gateway t1
      (E_generate_review (build_content args pr diff_content) (mode args)
         (Ok review_text) :: es)
      r.

(** A model call whose answer asks for a comment is followed at once by
    the creation of the comment made of that answer. *)
Definition feedback_is_posted (e : event) (after : trace) : Prop :=
  match e with
  | E_generate_review _ _ (Ok file_review) =>
      wants_comment file_review = true ->
      exists commit path line answer after',
        after
        = E_create_review_comment ("AI Issue: " ++ file_review) commit path
            line "RIGHT" answer :: after'
  | _ => True
  end.

(** *** The same surroundings without the files that have no patch *)

Definition keep_patched (pr : PullRequest) : PullRequest :=
  {| title := title pr;
     body := body pr;
     state := state pr;
     head := head pr;
     get_files := map fst (patched (get_files pr));
     create_review_comment := create_review_comment pr |}.

Definition keep_patched_repo (repo : Repository) : Repository :=
  {| get_pull := fun number =>
       match get_pull repo number with
       | Ok pr => Ok (keep_patched pr)
       | Raise e => Raise e
       end;
     get_contents := get_contents repo;
     get_commit := get_commit repo |}.

Definition keep_patched_world (w : World) : World :=
  {| getenv := getenv w;
     mk_Github := fun token =>
       {| get_repo := fun full_name =>
            match get_repo (mk_Github w token) full_name with
            | Ok repo => Ok (keep_patched_repo repo)
            | Raise e => Raise e
            end |};
     ChatGPTLLM := ChatGPTLLM w;
     GeminiLLM := GeminiLLM w;
     GrokLLM := GrokLLM w |}.

(** *** More samples *)

Module Sample2.

(** Surroundings around a given repository object. *)
Definition world_of (r : result Repository) : World :=
  {| getenv := getenv (Sample.world "open");
     mk_Github := fun _ => {| get_repo := fun _ => r |};
     ChatGPTLLM := fun _ _ => Ok Sample.gateway;
     GeminiLLM := fun _ _ => Ok Sample.gateway;
     GrokLLM := fun _ _ => Ok Sample.gateway |}.

Definition not_found : exception :=
  {| exc_class := "UnknownObjectException"; exc_str := "404 Not Found" |}.


(** Comments mode with the full files. *)
Definition args_full : Args :=
  {| repository := "octo/demo"; pr_number := 7; mode := comments;
     full_context := true; llm := gemini; deep := false; debug := true |}.

(** A repository in which [b.py] is gone at the head commit. *)
Definition repo_without_b : Repository :=
  {| get_pull := fun _ => Ok (Sample.pr "open");
     get_contents := fun path _ =>
       if String.eqb path "b.py" then Raise not_found
       else Ok ("# " ++ path);
     get_commit := fun s => Ok {| sha := s |} |}.

(** A pull request that changes pictures only. *)
Definition pictures : PullRequest :=
  {| title := Some "New logo";
     body := None;
     state := "open";
     head := {| sha := "c0ffee" |};
     get_files := [ {| filename := "logo.png"; patch := None |};
                    {| filename := "icon.png"; patch := Some "" |} ];
     create_review_comment := fun _ _ _ _ _ _ => Ok tt |}.

Definition repo_of_pictures : Repository :=
  {| get_pull := fun _ => Ok pictures;
     get_contents := fun path _ => Ok ("# " ++ path);
     get_commit := fun s => Ok {| sha := s |} |}.

End Sample2.

(** * Properties *)

(** ** Strings *)

Lemma append_assoc (a b c : string) : (a ++ b) ++ c = a ++ (b ++ c).
Proof. induction a as [|x a IH]; simpl; [reflexivity | now rewrite IH]. Qed.

(** The model of the runtime on a few texts. *)

Example splitlines_boundaries :
  PyStr.splitlines
    ("a" ++ NL ++ NL ++ "b" ++ String PyStr.CR NL ++ "c" ++
     String PyStr.CR "" ++ "d" ++ NL)
  = ["a"; ""; "b"; "c"; "d"].
Proof. reflexivity. Qed.

Example splitlines_no_boundary : PyStr.splitlines "a b" = ["a b"].
Proof. reflexivity. Qed.

Example splitlines_empty : PyStr.splitlines "" = [].
Proof. reflexivity. Qed.

Example lower_letters : PyStr.lower "No FEEDBACK, 1 @" = "no feedback, 1 @".
Proof. reflexivity. Qed.

Example re_match_header :
  Re.re_match HUNK_RE "@@ -10,5 +20,6 @@ def f():"
  = Some ["10"; "5"; "20"; "6"].
Proof. reflexivity. Qed.

Example re_match_needs_counts : Re.re_match HUNK_RE "@@ -3 +3 @@" = None.
Proof. reflexivity. Qed.

Example str_of_line : PyStr.str 21 = "21".
Proof. reflexivity. Qed.

(** ** The matcher against the meaning of the pattern *)

Module ReFacts.
Import Re.

Lemma lit_not_digit (c d : ascii) :
  PyStr.is_digit c = false -> PyStr.is_digit d = true -> Ascii.eqb c d = false.
Proof.
  intros Hc Hd. destruct (Ascii.eqb c d) eqn:E; [|reflexivity].
  apply Ascii.eqb_eq in E. congruence.
Qed.

Lemma is_number_cons (c : ascii) (s : string) :
  is_number (String c s) = true <->
  PyStr.is_digit c = true /\ all_digits s = true.
Proof.
  unfold is_number; simpl. now rewrite andb_true_iff.
Qed.

(** Whatever the matcher returns is a match: the run it took is a numeral
    and the rest of the pattern matched what follows. *)
Lemma greedy_digits_sound k s taken r :
  greedy_digits k s taken = Some r ->
  exists ds rest,
    is_number ds = true /\ s = ds ++ rest /\ k rest (taken ++ ds) = Some r.
Proof.
  revert taken. induction s as [|c s IH]; intros taken H; simpl in H.
  - discriminate.
  - destruct (PyStr.is_digit c) eqn:Hc; [|discriminate].
    destruct (greedy_digits k s (taken ++ String c "")) eqn:G.
    + injection H as <-.
      destruct (IH _ G) as (ds & rest & Hn & -> & Hk).
      exists (String c ds), rest. split; [|split].
      * apply is_number_cons. split; [assumption|].
        unfold is_number in Hn. now apply andb_true_iff in Hn.
      * reflexivity.
      * now rewrite append_assoc in Hk.
    + exists (String c ""), s. split; [|split].
      * apply is_number_cons. now split.
      * reflexivity.
      * assumption.
Qed.

(** Where the rest of the pattern cannot start on a digit, giving digits
    back never helps: the group is the whole run. *)
Lemma greedy_digits_run k c ds rest taken :
  (forall s g, starts_with_digit s = true -> k s g = None) ->
  PyStr.is_digit c = true -> all_digits ds = true ->
  starts_with_digit rest = false ->
  greedy_digits k (String c ds ++ rest) taken = k rest (taken ++ String c ds).
Proof.
  intros Hk. revert c taken.
  induction ds as [|d ds IH]; intros c taken Hc Hds Hrest; simpl.
  - rewrite Hc.
    assert (G : greedy_digits k rest (taken ++ String c "") = None).
    { destruct rest as [|x rest]; [reflexivity|].
      simpl in *. now rewrite Hrest. }
    now rewrite G.
  - rewrite Hc. simpl in Hds. apply andb_true_iff in Hds as [Hd Hds].
    specialize (IH d (taken ++ String c "") Hd Hds Hrest).
    simpl in IH. simpl. rewrite IH, append_assoc. simpl.
    destruct (k rest (taken ++ String c (String d ds))) eqn:E;
      [reflexivity|].
    apply Hk. exact Hd.
Qed.

Lemma match_from_sound p : forall s g0 r,
  match_from p s g0 = Some r ->
  exists gs tail, r = (g0 ++ gs)%list /\ Matches p s gs tail.
Proof.
  induction p as [|[c|] p IH]; intros s g0 r H; simpl in H.
  - injection H as <-. exists [], s. rewrite app_nil_r.
    split; [reflexivity | constructor].
  - destruct s as [|c' s]; [discriminate|].
    destruct (Ascii.eqb c c') eqn:E; [|discriminate].
    apply Ascii.eqb_eq in E as <-.
    destruct (IH _ _ _ H) as (gs & tail & -> & HM).
    exists gs, tail. split; [reflexivity | now constructor].
  - apply greedy_digits_sound in H as (ds & rest & Hn & -> & Hk).
    destruct (IH _ _ _ Hk) as (gs & tail & -> & HM).
    exists (ds :: gs), tail. split.
    + now rewrite <- app_assoc.
    + now constructor.
Qed.

Lemma match_from_digit_fails c p s g :
  PyStr.is_digit c = false -> starts_with_digit s = true ->
  match_from (Lit c :: p) s g = None.
Proof.
  intros Hc Hs. destruct s as [|d s]; simpl in *; [discriminate|].
  now rewrite (lit_not_digit c d Hc Hs).
Qed.

Lemma Matches_lit_start c p s gs tail :
  PyStr.is_digit c = false -> Matches (Lit c :: p) s gs tail ->
  starts_with_digit s = false.
Proof. intros Hc HM. inversion HM; subst. exact Hc. Qed.

Lemma match_from_complete p s gs tail :
  Matches p s gs tail -> delimited p = true ->
  forall g0, match_from p s g0 = Some (g0 ++ gs)%list.
Proof.
  induction 1 as [s | c p s gs tail HM IH | p ds s gs tail Hn HM IH];
    intros Hd g0.
  - simpl. now rewrite app_nil_r.
  - simpl. rewrite Ascii.eqb_refl. apply IH. exact Hd.
  - simpl in Hd. destruct p as [|[c|] p]; try discriminate.
    apply andb_true_iff in Hd as [Hc Hd]. apply negb_true_iff in Hc.
    destruct ds as [|d ds]; [discriminate|].
    apply is_number_cons in Hn as [Hd1 Hds].
    change (match_from (Digits :: Lit c :: p) (String d ds ++ s) g0)
      with (greedy_digits
              (fun rest taken =>
                 match_from (Lit c :: p) rest (g0 ++ [taken])%list)
              (String d ds ++ s) "").
    rewrite greedy_digits_run; try assumption.
    + simpl append. rewrite (IH Hd). now rewrite <- app_assoc.
    + intros s0 g Hs0. now apply match_from_digit_fails.
    + eapply Matches_lit_start; eassumption.
Qed.

End ReFacts.

(** ** The hunk header *)

Lemma HunkHeader_Matches line c :
  HunkHeader line c <->
  exists a b d tail, Re.Matches HUNK_RE line [a; b; c; d] tail.
Proof.
  split.
  - intros (a & b & d & tail & Ha & Hb & Hc & Hd & ->).
    exists a, b, d, tail. unfold HUNK_RE. simpl.
    repeat (first [ apply Re.Matches_lit
                  | apply Re.Matches_digits; [assumption|]
                  | apply Re.Matches_nil ]).
  - intros (a & b & d & tail & HM). unfold HUNK_RE in HM. simpl in HM.
    repeat match goal with
           | H : Re.Matches (_ :: _) _ _ _ |- _ => inversion H; clear H; subst
           | H : Re.Matches [] _ _ _ |- _ => inversion H; clear H; subst
           end.
    exists a, b, d, tail. repeat split; assumption.
Qed.

Lemma HUNK_RE_groups line gs tail :
  Re.Matches HUNK_RE line gs tail -> exists a b c d, gs = [a; b; c; d].
Proof.
  intros HM. unfold HUNK_RE in HM. simpl in HM.
  repeat match goal with
         | H : Re.Matches (_ :: _) _ _ _ |- _ => inversion H; clear H; subst
         | H : Re.Matches [] _ _ _ |- _ => inversion H; clear H; subst
         end.
  eauto.
Qed.

(** The code's reading of a line agrees with the header form. *)
Lemma hunk_new_start_complete line c :
  HunkHeader line c -> hunk_new_start line = Some (PyStr.int c).
Proof.
  intros H. unfold hunk_new_start.
  assert (Hs : PyStr.startswith line "@@" = true).
  { destruct H as (a & b & d & tail & _ & _ & _ & _ & ->). reflexivity. }
  rewrite Hs.
  apply HunkHeader_Matches in H as (a & b & d & tail & HM).
  unfold Re.re_match.
  rewrite (ReFacts.match_from_complete _ _ _ _ HM eq_refl []).
  reflexivity.
Qed.

Lemma hunk_new_start_sound line n :
  hunk_new_start line = Some n ->
  exists c, HunkHeader line c /\ n = PyStr.int c.
Proof.
  unfold hunk_new_start. intros H.
  destruct (PyStr.startswith line "@@"); [|discriminate].
  destruct (Re.re_match HUNK_RE line) as [groups|] eqn:E; [|discriminate].
  injection H as <-.
  apply ReFacts.match_from_sound in E as (gs & tail & -> & HM).
  destruct (HUNK_RE_groups _ _ _ HM) as (a & b & c & d & ->).
  exists c. split; [|reflexivity].
  apply HunkHeader_Matches. eauto.
Qed.

Lemma hunk_new_start_none line :
  ~ is_hunk_header line -> hunk_new_start line = None.
Proof.
  intros H. destruct (hunk_new_start line) as [n|] eqn:E; [|reflexivity].
  apply hunk_new_start_sound in E as (c & Hc & _).
  exfalso. apply H. now exists c.
Qed.

(** ** The two loops of the locator *)

Lemma first_added_from_none new_start rest : forall j,
  (forall l, In l rest -> is_added_line l = false) ->
  first_added_from new_start j rest = None.
Proof.
  induction rest as [|l rest IH]; intros j H; simpl; [reflexivity|].
  rewrite (H l (or_introl eq_refl)). apply IH.
  intros l' Hl'. apply H. now right.
Qed.

Lemma first_added_from_found new_start mid added post : forall j,
  (forall l, In l mid -> is_added_line l = false) ->
  is_added_line added = true ->
  first_added_from new_start j (mid ++ added :: post)
  = Some (new_start + (j + Z.of_nat (List.length mid)) - 1)%Z.
Proof.
  induction mid as [|l mid IH]; intros j Hmid Hadd; simpl app.
  - simpl. rewrite Hadd. f_equal. lia.
  - cbn [first_added_from]. rewrite (Hmid l (or_introl eq_refl)).
    rewrite IH; [|intros l' Hl'; apply Hmid; now right|assumption].
    f_equal. cbn [List.length]. lia.
Qed.

Lemma scan_lines_skip pre rest :
  (forall l, In l pre -> hunk_new_start l = None) ->
  scan_lines (pre ++ rest) = scan_lines rest.
Proof.
  induction pre as [|l pre IH]; intros H; simpl; [reflexivity|].
  rewrite (H l (or_introl eq_refl)). apply IH.
  intros l' Hl'. apply H. now right.
Qed.

Lemma scan_lines_skip_non_headers pre rest :
  (forall l, In l pre -> ~ is_hunk_header l) ->
  scan_lines (pre ++ rest) = scan_lines rest.
Proof.
  intros H. apply scan_lines_skip.
  intros l Hl. apply hunk_new_start_none. now apply H.
Qed.

(** With no added line after any header, both loops run to their end. *)
Lemma scan_lines_default lines :
  (forall pre hdr rest, lines = (pre ++ hdr :: rest)%list ->
     is_hunk_header hdr -> forall l, In l rest -> is_added_line l = false) ->
  scan_lines lines = 1%Z.
Proof.
  induction lines as [|line rest IH]; intros H; simpl; [reflexivity|].
  assert (IH' : scan_lines rest = 1%Z).
  { apply IH. intros pre hdr rest' E. apply (H (line :: pre) hdr rest').
    simpl. now rewrite E. }
  destruct (hunk_new_start line) as [n|] eqn:E; [|exact IH'].
  apply hunk_new_start_sound in E as (c & Hc & _).
  rewrite first_added_from_none; [exact IH'|].
  apply (H [] line rest eq_refl). now exists c.
Qed.

(** ** The claims about the locator *)

(** C1: when some line of the patch has the header form [@@ -a,b +c,d @@]
    and, after the first such line, some line starts with [+] and not with
    [+++], [get_file_line_from_diff] returns [c + j - 1]: [c] is the start
    line captured from that first header and [j] the 1-based position, among
    the lines after the header, of the first such added line ([mid] are the
    lines between the two).  The witness is the patch of the specification:
    header [@@ -10,5 +20,6 @@], one context line, then [+foo], with 21 as
    the value. *)
Theorem get_file_line_first_added :
  forall (diff : string) (pre : list string) (hdr c : string)
         (mid : list string) (added : string) (post : list string),
    PyStr.splitlines diff = (pre ++ hdr :: mid ++ added :: post)%list ->
    (forall l, In l pre -> ~ is_hunk_header l) ->
    HunkHeader hdr c ->
    (forall l, In l mid -> is_added_line l = false) ->
    is_added_line added = true ->
    get_file_line_from_diff diff
    = (PyStr.int c + Z.of_nat (S (List.length mid)) - 1)%Z.
Proof.
  intros diff pre hdr c mid added post Hsplit Hpre Hhdr Hmid Hadd.
  unfold get_file_line_from_diff. rewrite Hsplit.
  rewrite scan_lines_skip_non_headers by assumption.
  cbn [scan_lines]. rewrite (hunk_new_start_complete _ _ Hhdr).
  rewrite first_added_from_found by assumption.
  f_equal. lia.
Qed.

Lemma get_file_line_first_added_example :
  get_file_line_from_diff
    ("@@ -10,5 +20,6 @@" ++ NL ++ " context" ++ NL ++ "+foo") = 21%Z.
Proof.
  apply (get_file_line_first_added
           ("@@ -10,5 +20,6 @@" ++ NL ++ " context" ++ NL ++ "+foo")
           [] "@@ -10,5 +20,6 @@" "20" [" context"] "+foo" []).
  - reflexivity.
  - intros l [].
  - exists "10", "5", "6", "". repeat split; reflexivity.
  - intros l [<-|[]]. reflexivity.
  - reflexivity.
Defined.

(** C2, as the specification words it: a first hunk without a line that
    starts with [+] gives 1, whatever the later hunks hold.  The inner loop
    does not stop at the next header: here the first hunk only removes a
    line, the second hunk adds one, and the value is 1 + 5 - 1. *)
Lemma first_hunk_without_added_line_not_1 :
  first_hunk_has_no_plus (PyStr.splitlines Sample.two_hunks) /\
  get_file_line_from_diff Sample.two_hunks = 5%Z /\
  get_file_line_from_diff Sample.two_hunks <> 1%Z.
Proof.
  split; [|split].
  - exists [], "@@ -1,2 +1,1 @@", [" a"; "-b"; "@@ -10,1 +9,2 @@"; " c"; "+d"].
    split; [split; [reflexivity | split]|].
    + intros l [].
    + exists "1", "1", "2", "1", "". repeat split; reflexivity.
    + intros l [<-|[<-|[]]]; reflexivity.
  - reflexivity.
  - discriminate.
Qed.

(** C2, amended: when no line after the first hunk header, in its hunk or in
    a later one, starts with [+] without starting with [+++],
    [get_file_line_from_diff] returns 1. *)
Theorem get_file_line_no_added_after_first_header :
  forall (diff : string) (pre : list string) (hdr : string)
         (rest : list string),
    first_header (PyStr.splitlines diff) pre hdr rest ->
    (forall l, In l rest -> is_added_line l = false) ->
    get_file_line_from_diff diff = 1%Z.
Proof.
  intros diff pre hdr rest (Hsplit & Hpre & c & Hhdr) Hrest.
  unfold get_file_line_from_diff. rewrite Hsplit.
  rewrite scan_lines_skip_non_headers by assumption.
  cbn [scan_lines]. rewrite (hunk_new_start_complete _ _ Hhdr).
  rewrite first_added_from_none by assumption.
  apply scan_lines_default.
  intros pre' hdr' rest' E _ l Hl. apply Hrest.
  rewrite E. apply in_or_app. right. now right.
Qed.

Lemma get_file_line_no_added_after_first_header_example :
  get_file_line_from_diff
    ("--- a/f" ++ NL ++ "+++ b/f" ++ NL ++
     "@@ -1,2 +1,1 @@" ++ NL ++ " a" ++ NL ++ "-b" ++ NL ++
     "@@ -10,2 +9,1 @@" ++ NL ++ " c" ++ NL ++ "-d") = 1%Z.
Proof.
  apply (get_file_line_no_added_after_first_header _
           ["--- a/f"; "+++ b/f"] "@@ -1,2 +1,1 @@"
           [" a"; "-b"; "@@ -10,2 +9,1 @@"; " c"; "-d"]).
  - split; [reflexivity | split].
    + intros l [<-|[<-|[]]] (c & H);
        apply hunk_new_start_complete in H; discriminate H.
    + exists "1", "1", "2", "1", "". repeat split; reflexivity.
  - intros l [<-|[<-|[<-|[<-|[<-|[]]]]]]; reflexivity.
Defined.

(** C4: a patch with no line of the header form [@@ -a,b +c,d @@], and a
    patch in which no header is followed by a line that starts with [+] and
    not with [+++], both give the default 1. *)
Theorem get_file_line_default :
  forall diff : string,
    (forall l, In l (PyStr.splitlines diff) -> ~ is_hunk_header l) \/
    (forall pre hdr rest,
        PyStr.splitlines diff = (pre ++ hdr :: rest)%list ->
        is_hunk_header hdr ->
        forall l, In l rest -> is_added_line l = false) ->
    get_file_line_from_diff diff = 1%Z.
Proof.
  intros diff [Hnone | Hnoadd]; unfold get_file_line_from_diff.
  - rewrite <- (app_nil_r (PyStr.splitlines diff)).
    now rewrite scan_lines_skip_non_headers.
  - now apply scan_lines_default.
Qed.

Lemma get_file_line_default_examples :
  get_file_line_from_diff ("Binary files differ" ++ NL ++ "+x") = 1%Z /\
  get_file_line_from_diff
    ("@@ -4,2 +4,1 @@" ++ NL ++ " a" ++ NL ++ "-b") = 1%Z.
Proof.
  split.
  - apply get_file_line_default. left.
    intros l [<-|[<-|[]]] (c & H);
      apply hunk_new_start_complete in H; discriminate H.
  - apply get_file_line_default. right.
    intros pre hdr rest E _ l Hl.
    assert (Hin : In l ["@@ -4,2 +4,1 @@"; " a"; "-b"]).
    { change (PyStr.splitlines
                ("@@ -4,2 +4,1 @@" ++ NL ++ " a" ++ NL ++ "-b"))
        with ["@@ -4,2 +4,1 @@"; " a"; "-b"] in E.
      rewrite E. apply in_or_app. right. now right. }
    destruct Hin as [<-|[<-|[<-|[]]]]; reflexivity.
Defined.

(** C9: a line that starts with [@@] without having the four-number form
    (for one, [@@ -3 +3 @@], the witness) captures no start line; the scan
    goes on with the lines after it, and when none of them has the form
    either the function returns 1. *)
Theorem malformed_header_is_skipped :
  forall (diff : string) (pre : list string) (bad : string)
         (post : list string),
    PyStr.splitlines diff = (pre ++ bad :: post)%list ->
    (forall l, In l pre -> ~ is_hunk_header l) ->
    PyStr.startswith bad "@@" = true ->
    ~ is_hunk_header bad ->
    hunk_new_start bad = None /\
    get_file_line_from_diff diff = scan_lines post /\
    ((forall l, In l post -> ~ is_hunk_header l) ->
     get_file_line_from_diff diff = 1%Z).
Proof.
  intros diff pre bad post Hsplit Hpre _ Hbad.
  assert (Hnone : hunk_new_start bad = None)
    by now apply hunk_new_start_none.
  assert (Hscan : get_file_line_from_diff diff = scan_lines post).
  { unfold get_file_line_from_diff. rewrite Hsplit.
    rewrite scan_lines_skip_non_headers by assumption.
    cbn [scan_lines]. now rewrite Hnone. }
  split; [exact Hnone | split; [exact Hscan|]].
  intros Hpost. rewrite Hscan, <- (app_nil_r post).
  now rewrite scan_lines_skip_non_headers.
Qed.

Lemma malformed_header_is_skipped_example :
  hunk_new_start "@@ -3 +3 @@" = None /\
  get_file_line_from_diff
    ("@@ -3 +3 @@" ++ NL ++ "+x" ++ NL ++
     "@@ -1,1 +7,2 @@" ++ NL ++ " y" ++ NL ++ "+z") = 8%Z.
Proof.
  destruct (malformed_header_is_skipped
              ("@@ -3 +3 @@" ++ NL ++ "+x" ++ NL ++
               "@@ -1,1 +7,2 @@" ++ NL ++ " y" ++ NL ++ "+z")
              [] "@@ -3 +3 @@" ["+x"; "@@ -1,1 +7,2 @@"; " y"; "+z"])
    as (Hnone & Hscan & _).
  - reflexivity.
  - intros l [].
  - reflexivity.
  - intros (c & H). apply hunk_new_start_complete in H. discriminate H.
  - split; [exact Hnone | exact Hscan].
Defined.

(** ** The run follows the shapes *)

Ltac regroup := repeat rewrite <- app_assoc; cbn [app].

Section ShapeFacts.

Variables (args : Args) (repo : Repository) (pr : PullRequest)
          (gateway : LLM).

Lemma collect_all_content_trace files : forall all_content,
  exists r es,
    Forall (fun ev => is_fetch ev = true) es /\
    forall t,
      collect_all_content repo pr files all_content t = (r, (t ++ es)%list).
Proof.
  induction files as [|file rest IH]; intros all_content; simpl.
  - exists (Ok all_content), []. split; [constructor|].
    intros t. unfold ret. now rewrite app_nil_r.
  - destruct (patch file) as [diff|]; [|apply IH].
    destruct (PyStr.truthy diff); [|apply IH].
    unfold bind, call_get_contents, call.
    destruct (get_contents repo (filename file) (sha (head pr)))
      as [file_content|e].
    + destruct (IH (all_content ++
                    [full_context_block (filename file) file_content diff])%list)
        as (r & es & Hes & Hrun).
      exists r, (E_get_contents (filename file) (sha (head pr)) :: es).
      split; [now constructor|].
      intros t. rewrite Hrun. now regroup.
    + exists (Raise e), [E_get_contents (filename file) (sha (head pr))].
      split; [now repeat constructor | reflexivity].
Qed.

Lemma build_diff_content_trace :
  exists es,
    Forall (fun ev => is_fetch ev = true) es /\
    forall t,
      build_diff_content args repo pr t
      = (diff_content_of args repo pr, (t ++ es)%list).
Proof.
  assert (H : exists r es,
             Forall (fun ev => is_fetch ev = true) es /\
             forall t, build_diff_content args repo pr t
                       = (r, (t ++ es)%list)).
  { unfold build_diff_content.
    destruct (full_context args).
    - destruct (collect_all_content_trace (get_files pr) [])
        as (r & es & Hes & Hrun).
      destruct r as [all_content|e].
      + exists (Ok (PyStr.join (NL ++ NL) all_content)), (E_get_files :: es).
        split; [now constructor|].
        intros t. unfold bind, call_get_files, call, ret.
        rewrite Hrun. now regroup.
      + exists (Raise e), (E_get_files :: es).
        split; [now constructor|].
        intros t. unfold bind, call_get_files, call.
        rewrite Hrun. now regroup.
    - exists (Ok (PyStr.join NL (patch_blocks (get_files pr)))), [E_get_files].
      split; [now repeat constructor | reflexivity]. }
  destruct H as (r & es & Hes & Hrun).
  exists es. split; [assumption|].
  intros t. unfold diff_content_of. rewrite (Hrun []). apply Hrun.
Qed.

Lemma post_comment_trace head_commit file diff chunk file_review t :
  wants_comment file_review = true ->
  exists es,
    post_comment pr head_commit file diff file_review
      (t ++ [E_generate_review chunk (mode args) (Ok file_review)])%list
    = (Ok tt, (t ++ es)%list) /\
    comment_trace args gateway head_commit file diff chunk es (Ok tt).
Proof.
  intros Hw.
  unfold post_comment, try_except, bind, call_create_review_comment, print.
  match goal with
  | |- context [create_review_comment ?p ?t0 ?b ?c ?f ?l ?s] =>
      destruct (create_review_comment p t0 b c f l s) as [[]|e]
  end.
  - eexists. split; [regroup; reflexivity|]. now apply CT_posted.
  - eexists. split; [regroup; reflexivity|]. now apply CT_post_raises.
Qed.

Lemma comment_step_trace head_commit file diff chunk t :
  exists es r,
    (file_review <- call_generate_review gateway chunk (mode args) ;;
     if wants_comment file_review
     then post_comment pr head_commit file diff file_review
     else ret tt) t
    = (r, (t ++ es)%list) /\
    comment_trace args gateway head_commit file diff chunk es r.
Proof.
  unfold bind, call_generate_review.
  destruct (generate_review gateway t chunk (mode args))
    as [file_review|e] eqn:G.
  - destruct (wants_comment file_review) eqn:Hw.
    + destruct (post_comment_trace head_commit file diff chunk file_review
                  t Hw) as (es & Hrun & Hshape).
      exists es, (Ok tt). now split.
    + eexists _, _. split; [reflexivity|]. now apply CT_no_comment.
  - eexists _, _. split; [reflexivity|]. eapply CT_review_raises; eassumption.
Qed.

Lemma review_file_trace head_commit file t :
  exists es r,
    review_file args repo pr gateway head_commit file t = (r, (t ++ es)%list) /\
    file_trace args repo pr gateway head_commit file es r.
Proof.
  unfold review_file.
  destruct (patch file) as [diff|] eqn:Hp.
  2:{ exists [], (Ok tt). unfold ret. rewrite app_nil_r.
      split; [reflexivity|]. apply FT_skipped. now rewrite Hp. }
  destruct (PyStr.truthy diff) eqn:Ht.
  2:{ exists [], (Ok tt). unfold ret. rewrite app_nil_r.
      split; [reflexivity|]. apply FT_skipped. now rewrite Hp. }
  destruct (full_context args) eqn:Hf.
  - unfold bind at 1. unfold call_get_contents, call.
    destruct (get_contents repo (filename file) (sha (head pr)))
      as [file_content|e] eqn:Hc.
    + destruct (comment_step_trace head_commit file diff
                  (chunk_of args (filename file) file_content diff)
                  (t ++ [E_get_contents (filename file) (sha (head pr))])%list)
        as (es & r & Hrun & Hshape).
      exists (E_get_contents (filename file) (sha (head pr)) :: es), r.
      split.
      * rewrite Hrun. now regroup.
      * eapply FT_with_content; eassumption.
    + eexists _, _. split; [reflexivity|].
      eapply FT_contents_raise; eassumption.
  - unfold bind at 1. unfold ret at 1.
    destruct (comment_step_trace head_commit file diff
                (chunk_of args (filename file) "" diff) t)
      as (es & r & Hrun & Hshape).
    exists es, r. split; [exact Hrun|].
    eapply FT_diff_only; eassumption.
Qed.

Lemma for_each_loop_trace head_commit files : forall t,
  exists es r,
    for_each files (review_file args repo pr gateway head_commit) t
    = (r, (t ++ es)%list) /\
    loop_trace args repo pr gateway head_commit files es r.
Proof.
  induction files as [|file rest IH]; intros t; simpl.
  - exists [], (Ok tt). unfold ret. rewrite app_nil_r.
    split; [reflexivity | constructor].
  - unfold bind.
    destruct (review_file_trace head_commit file t) as (es1 & r1 & -> & H1).
    destruct r1 as [[]|e].
    + destruct (IH (t ++ es1)%list) as (es2 & r & -> & H2).
      exists (es1 ++ es2)%list, r. split; [now regroup|].
      now apply LT_next.
    + exists es1, (Raise e). split; [reflexivity|]. now apply LT_raise.
Qed.

Lemma process_shape review_text t :
  exists es r,
    process args repo pr gateway review_text t = (r, (t ++ es)%list) /\
    process_trace args repo pr gateway review_text es r.
Proof.
  unfold process.
  destruct (mode args) eqn:Hm.
  - eexists _, _. split; [reflexivity|]. now apply PT_general.
  - eexists _, _. split; [reflexivity|]. now apply PT_issues.
  - unfold bind at 1. unfold print at 1.
    destruct (String.eqb (state pr) "open") eqn:Hs.
    + apply String.eqb_eq in Hs.
      unfold bind at 1. unfold call at 1.
      destruct (get_commit repo (sha (head pr))) as [head_commit|e] eqn:Hc.
      * unfold bind, call_get_files, call.
        destruct (for_each_loop_trace head_commit (get_files pr)
                    (((t ++ [E_print ("Code Issues:" ++ NL ++ review_text)])
                      ++ [E_get_commit (sha (head pr))]) ++ [E_get_files])%list)
          as (es & r & -> & Hloop).
        eexists _, r. split; [regroup; reflexivity|].
        eapply PT_files; eassumption.
      * eexists _, _. split; [regroup; reflexivity|].
        now apply PT_commit_raises.
    + apply String.eqb_neq in Hs.
      eexists _, _. split; [unfold print; regroup; reflexivity|].
      now apply PT_closed.
Qed.

Lemma review_shape t :
  exists es r,
    review args repo pr gateway t = (r, (t ++ es)%list) /\
    review_trace args repo pr gateway t es r.
Proof.
  unfold review.
  destruct build_diff_content_trace as (es0 & Hfetch & Hbuild).
  unfold bind at 1. rewrite Hbuild.
  destruct (diff_content_of args repo pr) as [diff_content|e] eqn:Hd.
  - unfold bind, call_generate_review.
    destruct (generate_review gateway (t ++ es0)%list
                (build_content args pr diff_content) (mode args))
      as [review_text|e] eqn:G.
    + destruct (process_shape review_text
                  ((t ++ es0) ++
                   [E_generate_review (build_content args pr diff_content)
                      (mode args) (Ok review_text)])%list)
        as (es & r & -> & Hp).
      eexists _, r. split; [regroup; reflexivity|].
      now apply RT_reviewed.
    + eexists _, _. split; [regroup; reflexivity|].
      now apply RT_review_raises.
  - exists es0, (Raise e). split; [reflexivity|].
    now apply RT_diff_raises.
Qed.

End ShapeFacts.

Lemma run_after_setup args w repo pr gateway :
  setup_ok args w repo pr gateway ->
  run args w = review args repo pr gateway (setup_trace args).
Proof.
  intros (token & Henv & Htok & Hrepo & Hpull & Hllm).
  unfold run, main. rewrite Henv, Htok.
  unfold bind, call. cbn [app]. rewrite Hrepo, Hpull, Hllm.
  reflexivity.
Qed.

(** The trace of such a run: the set-up events, then a shape of lines
    61-120. *)
Lemma run_shape args w repo pr gateway :
  setup_ok args w repo pr gateway ->
  exists es r,
    run args w = (r, (setup_trace args ++ es)%list) /\
    review_trace args repo pr gateway (setup_trace args) es r.
Proof.
  intros H. rewrite (run_after_setup _ _ _ _ _ H). apply review_shape.
Qed.

(** ** Events and their neighbours *)

Section Neighbours.

Variable R : option event -> event -> Prop.
Variable F : event -> trace -> Prop.
Hypothesis F_extends : forall e t t', F e t -> F e (t ++ t')%list.

Lemma chained_app a : forall prev b,
  chained R prev a -> chained R (last_event prev a) b ->
  chained R prev (a ++ b)%list.
Proof.
  induction a as [|e a IH]; intros prev b Ha Hb; simpl in *.
  - exact Hb.
  - destruct Ha as [He Ha]. split; [exact He | now apply IH].
Qed.

Lemma chained_split before : forall prev e after,
  chained R prev (before ++ e :: after)%list -> R (last_event prev before) e.
Proof.
  induction before as [|x before IH]; intros prev e after H; simpl in *.
  - apply H.
  - apply (IH (Some x) e after). apply H.
Qed.

Lemma followed_app a b :
  followed F a -> followed F b -> followed F (a ++ b)%list.
Proof.
  induction a as [|e a IH]; intros Ha Hb; simpl in *.
  - exact Hb.
  - destruct Ha as [He Ha]. split; [now apply F_extends | now apply IH].
Qed.

Lemma followed_split before : forall e after,
  followed F (before ++ e :: after)%list -> F e after.
Proof.
  induction before as [|x before IH]; intros e after H; simpl in *.
  - apply H.
  - apply IH. apply H.
Qed.

End Neighbours.

Lemma last_event_some before : forall prev p,
  last_event prev before = Some p ->
  (before = [] /\ prev = Some p) \/ exists earlier, before = (earlier ++ [p])%list.
Proof.
  induction before as [|x before IH]; intros prev p H; simpl in H.
  - now left.
  - right. destruct (IH _ _ H) as [[-> Hx] | [earlier ->]].
    + injection Hx as ->. now exists [].
    + now exists (x :: earlier).
Qed.

Lemma last_event_snoc t : forall prev e,
  last_event prev (t ++ [e])%list = Some e.
Proof.
  induction t as [|x t IH]; intros prev e; simpl; [reflexivity | apply IH].
Qed.

Lemma llm_calls_app a b : llm_calls (a ++ b)%list = (llm_calls a ++ llm_calls b)%list.
Proof.
  induction a as [|e a IH]; simpl; [reflexivity|].
  destruct e; simpl; now rewrite ?IH.
Qed.

Lemma llm_calls_fetch es :
  Forall (fun ev => is_fetch ev = true) es -> llm_calls es = [].
Proof.
  induction 1 as [|e es He _ IH]; [reflexivity|].
  destruct e; simpl in *; try discriminate; exact IH.
Qed.

Lemma fetch_no_creation es :
  Forall (fun ev => is_fetch ev = true) es ->
  Forall (fun ev => is_comment_creation ev = false) es.
Proof.
  induction 1 as [|e es He _ IH]; constructor; [|exact IH].
  destruct e; simpl in *; try discriminate; reflexivity.
Qed.

Lemma quiet_chained R es :
  (forall prev e, is_comment_creation e = false -> R prev e) ->
  Forall (fun ev => is_comment_creation ev = false) es ->
  forall prev, chained R prev es.
Proof.
  intros HR. induction 1 as [|e es He _ IH]; intros prev; simpl.
  - exact I.
  - split; [now apply HR | apply IH].
Qed.

Lemma quiet_followed F es :
  (forall e t, is_comment_creation e = false -> F e t) ->
  Forall (fun ev => is_comment_creation ev = false) es ->
  followed F es.
Proof.
  intros HF. induction 1 as [|e es He _ IH]; simpl.
  - exact I.
  - split; [now apply HF | exact IH].
Qed.

Lemma comment_justified_quiet args repo pr prev e :
  is_comment_creation e = false -> comment_justified args repo pr prev e.
Proof. destruct e; simpl; try discriminate; intros; exact I. Qed.

Lemma posting_reported_quiet e t :
  is_comment_creation e = false -> posting_reported e t.
Proof. destruct e; simpl; try discriminate; intros; exact I. Qed.

Lemma posting_reported_extends e t t' :
  posting_reported e t -> posting_reported e (t ++ t')%list.
Proof.
  destruct e as [| | | | | | |body commit path line side [[]|ex]|]; simpl;
    try (intros; exact I).
  intros (after' & ->). now exists (after' ++ t')%list.
Qed.

Lemma patched_In files : forall file diff,
  In file files -> patch file = Some diff -> PyStr.truthy diff = true ->
  In (file, diff) (patched files).
Proof.
  induction files as [|f rest IH]; intros file diff Hin Hp Ht; simpl in *.
  - contradiction.
  - destruct Hin as [-> | Hin].
    + rewrite Hp, Ht. now left.
    + specialize (IH _ _ Hin Hp Ht).
      destruct (patch f) as [d|]; [|exact IH].
      destruct (PyStr.truthy d); [now right | exact IH].
Qed.

Lemma patched_elim files : forall file diff,
  In (file, diff) (patched files) ->
  In file files /\ patch file = Some diff /\ PyStr.truthy diff = true.
Proof.
  induction files as [|f rest IH]; intros file diff Hin; simpl in *.
  - contradiction.
  - destruct (patch f) as [d|] eqn:Hp.
    2:{ destruct (IH _ _ Hin) as (H1 & H2 & H3). auto. }
    destruct (PyStr.truthy d) eqn:Ht.
    2:{ destruct (IH _ _ Hin) as (H1 & H2 & H3). auto. }
    destruct Hin as [E | Hin].
    + injection E as <- <-. auto.
    + destruct (IH _ _ Hin) as (H1 & H2 & H3). auto.
Qed.

(** ** What the shapes give *)

Section ShapeProperties.

Variables (args : Args) (repo : Repository) (pr : PullRequest)
          (gateway : LLM).

Let R := comment_justified args repo pr.

Lemma comment_trace_neighbours head_commit file diff chunk es r :
  mode args = comments -> state pr = "open" ->
  In (file, diff) (patched (get_files pr)) ->
  chunk = fst (file_call args repo pr (file, diff)) ->
  comment_trace args gateway head_commit file diff chunk es r ->
  (forall prev, chained R prev es) /\ followed posting_reported es.
Proof.
  intros Hm Hs Hin Hchunk H.
  destruct H; (split; [intros prev|]); simpl; repeat split;
    rewrite ?Hm; eauto 12.
Qed.

Lemma file_trace_neighbours head_commit file es r :
  mode args = comments -> state pr = "open" ->
  In file (get_files pr) ->
  file_trace args repo pr gateway head_commit file es r ->
  (forall prev, chained R prev es) /\ followed posting_reported es.
Proof.
  intros Hm Hs Hin H.
  destruct H as [Hskip | diff e Hp Ht Hf Hc
                 | diff file_content es r Hp Ht Hf Hc Hct
                 | diff es r Hp Ht Hf Hct].
  - split; [intros prev|]; exact I.
  - split; [intros prev|]; simpl; auto.
  - assert (Hchunk : chunk_of args (filename file) file_content diff
                     = fst (file_call args repo pr (file, diff))).
    { unfold file_call, file_content_of. cbn [fst snd]. now rewrite Hf, Hc. }
    destruct (comment_trace_neighbours _ _ _ _ _ _ Hm Hs
                (patched_In _ _ _ Hin Hp Ht) Hchunk Hct) as [H1 H2].
    split; [intros prev|]; simpl; split; try exact I; auto.
  - assert (Hchunk : chunk_of args (filename file) "" diff
                     = fst (file_call args repo pr (file, diff))).
    { unfold file_call, file_content_of. cbn [fst snd]. now rewrite Hf. }
    exact (comment_trace_neighbours _ _ _ _ _ _ Hm Hs
             (patched_In _ _ _ Hin Hp Ht) Hchunk Hct).
Qed.

Lemma loop_trace_neighbours head_commit files es r :
  mode args = comments -> state pr = "open" ->
  (forall file, In file files -> In file (get_files pr)) ->
  loop_trace args repo pr gateway head_commit files es r ->
  (forall prev, chained R prev es) /\ followed posting_reported es.
Proof.
  intros Hm Hs Hsub H.
  induction H as [| file files es1 es2 r H1 H2 IH | file files es e H1].
  - split; [intros prev|]; exact I.
  - destruct (file_trace_neighbours _ _ _ _ Hm Hs
                (Hsub file (or_introl eq_refl)) H1) as [C1 F1].
    destruct IH as [C2 F2].
    { intros f Hf. apply Hsub. now right. }
    split.
    + intros prev. apply chained_app; [apply C1 | apply C2].
    + apply followed_app;
        [exact posting_reported_extends | exact F1 | exact F2].
  - exact (file_trace_neighbours _ _ _ _ Hm Hs
             (Hsub file (or_introl eq_refl)) H1).
Qed.

Lemma process_trace_neighbours review_text es r :
  process_trace args repo pr gateway review_text es r ->
  (forall prev, chained R prev es) /\ followed posting_reported es.
Proof.
  intros H.
  destruct H as [Hm | Hm | Hm Hs | e Hm Hs Hc | head_commit es r Hm Hs Hc Hl];
    try (split; [intros prev|]; simpl; auto; fail).
  destruct (loop_trace_neighbours _ _ _ _ Hm Hs (fun f Hf => Hf) Hl)
    as [C F].
  split; [intros prev|]; simpl; auto.
Qed.

Lemma review_trace_neighbours t es r :
  review_trace args repo pr gateway t es r ->
  (forall prev, chained R prev es) /\ followed posting_reported es.
Proof.
  intros H.
  destruct H as [es e Hf Hd | es dc e Hf Hd Hg | es dc rt es' r Hf Hd Hg Hp].
  - apply fetch_no_creation in Hf. split.
    + apply quiet_chained; [apply comment_justified_quiet | exact Hf].
    + apply quiet_followed; [apply posting_reported_quiet | exact Hf].
  - apply fetch_no_creation in Hf. split.
    + intros prev. apply chained_app.
      * apply quiet_chained; [apply comment_justified_quiet | exact Hf].
      * simpl. auto.
    + apply followed_app; [exact posting_reported_extends | | simpl; auto].
      apply quiet_followed; [apply posting_reported_quiet | exact Hf].
  - apply fetch_no_creation in Hf.
    destruct (process_trace_neighbours _ _ _ Hp) as [C F].
    split.
    + intros prev. apply chained_app.
      * apply quiet_chained; [apply comment_justified_quiet | exact Hf].
      * simpl. auto.
    + apply followed_app; [exact posting_reported_extends | | simpl; auto].
      apply quiet_followed; [apply posting_reported_quiet | exact Hf].
Qed.

End ShapeProperties.

(** In the trace of a run, every event stands to its neighbours as
    [comment_justified] and [posting_reported] say. *)
Lemma run_neighbours args w repo pr gateway :
  setup_ok args w repo pr gateway ->
  chained (comment_justified args repo pr) None (snd (run args w)) /\
  followed posting_reported (snd (run args w)).
Proof.
  intros H.
  destruct (run_shape _ _ _ _ _ H) as (es & r & -> & Hshape).
  destruct (review_trace_neighbours _ _ _ _ _ _ _ Hshape) as [C F].
  cbn [snd]. split.
  - apply chained_app; [simpl; auto | apply C].
  - apply followed_app; [exact posting_reported_extends | simpl; auto | exact F].
Qed.

(** ** The model calls of a run *)

Section Calls.

Variables (args : Args) (repo : Repository) (pr : PullRequest)
          (gateway : LLM).

Let expected (files : list File) : list (string * Mode) :=
  map (file_call args repo pr) (patched files).

Lemma comment_trace_calls head_commit file diff chunk es r :
  comment_trace args gateway head_commit file diff chunk es r ->
  llm_calls es = [(chunk, mode args)].
Proof. intros H. destruct H; reflexivity. Qed.

Lemma file_trace_calls head_commit file es r rest :
  file_trace args repo pr gateway head_commit file es r ->
  (r = Ok tt ->
   expected (file :: rest) = (llm_calls es ++ expected rest)%list) /\
  exists n, llm_calls es = firstn n (expected (file :: rest)).
Proof.
  intros H. unfold expected.
  destruct H as [Hskip | diff e Hp Ht Hf Hc
                 | diff file_content es r Hp Ht Hf Hc Hct
                 | diff es r Hp Ht Hf Hct].
  - split; [|now exists 0].
    intros _. cbn [patched]. unfold PyStr.truthy_opt in Hskip.
    destruct (patch file) as [d|]; [|reflexivity]. now rewrite Hskip.
  - split; [discriminate | now exists 0].
  - apply comment_trace_calls in Hct.
    cbn [patched llm_calls]. rewrite Hp, Ht, Hct. cbn [map].
    assert (E : file_call args repo pr (file, diff)
                = (chunk_of args (filename file) file_content diff,
                   mode args)).
    { unfold file_call, file_content_of. cbn [fst snd]. now rewrite Hf, Hc. }
    rewrite E. split; [reflexivity | now exists 1].
  - apply comment_trace_calls in Hct.
    cbn [patched]. rewrite Hp, Ht, Hct. cbn [map].
    assert (E : file_call args repo pr (file, diff)
                = (chunk_of args (filename file) "" diff, mode args)).
    { unfold file_call, file_content_of. cbn [fst snd]. now rewrite Hf. }
    rewrite E. split; [reflexivity | now exists 1].
Qed.

Lemma loop_trace_calls head_commit files es r :
  loop_trace args repo pr gateway head_commit files es r ->
  (r = Ok tt -> llm_calls es = expected files) /\
  exists n, llm_calls es = firstn n (expected files).
Proof.
  intros H.
  induction H as [| file files es1 es2 r H1 H2 IH | file files es e H1].
  - split; [reflexivity | now exists 0].
  - destruct (file_trace_calls _ _ _ _ files H1) as [E1 _].
    specialize (E1 eq_refl). destruct IH as [IHok [n IHn]].
    rewrite llm_calls_app, E1. split.
    + intros Hr. now rewrite (IHok Hr).
    + exists (List.length (llm_calls es1) + n). rewrite IHn.
      now rewrite firstn_app_2.
  - destruct (file_trace_calls _ _ _ _ files H1) as [_ Hn].
    split; [discriminate | exact Hn].
Qed.

Lemma process_trace_calls review_text es r :
  process_trace args repo pr gateway review_text es r ->
  (exists n, llm_calls es = firstn n (expected (get_files pr))) /\
  (mode args <> comments -> llm_calls es = []) /\
  (state pr <> "open" -> llm_calls es = []) /\
  (r = Ok tt -> mode args = comments -> state pr = "open" ->
   llm_calls es = expected (get_files pr)).
Proof.
  intros H.
  destruct H as [Hm | Hm | Hm Hs | e Hm Hs Hc | head_commit es r Hm Hs Hc Hl];
    try (repeat split; try (now exists 0); congruence).
  destruct (loop_trace_calls _ _ _ _ Hl) as [Hok Hn].
  cbn [llm_calls]. repeat split; try congruence; auto.
Qed.

Lemma review_trace_calls t es r diff_content :
  review_trace args repo pr gateway t es r ->
  diff_content_of args repo pr = Ok diff_content ->
  exists per_file,
    llm_calls es
    = (build_content args pr diff_content, mode args) :: per_file /\
    (exists n, per_file = firstn n (expected (get_files pr))) /\
    (mode args <> comments -> per_file = []) /\
    (state pr <> "open" -> per_file = []) /\
    (r = Ok tt -> mode args = comments -> state pr = "open" ->
     per_file = expected (get_files pr)).
Proof.
  intros H Hd.
  destruct H as [es e Hf Hd' | es dc e Hf Hd' Hg
                 | es dc rt es' r Hf Hd' Hg Hp]; rewrite Hd in Hd'.
  - discriminate.
  - injection Hd' as <-. exists [].
    rewrite llm_calls_app, (llm_calls_fetch _ Hf).
    repeat split; try (now exists 0). discriminate.
  - injection Hd' as <-. exists (llm_calls es').
    rewrite llm_calls_app, (llm_calls_fetch _ Hf).
    split; [reflexivity|]. now apply process_trace_calls in Hp.
Qed.

(** *** When only the posting can fail *)

Hypothesis Hfail : only_posting_may_fail args repo pr gateway.

Lemma collect_all_content_ok files :
  (forall file diff, In (file, diff) (patched files) ->
     In (file, diff) (patched (get_files pr))) ->
  full_context args = true ->
  forall all_content t,
    exists l, fst (collect_all_content repo pr files all_content t) = Ok l.
Proof.
  intros Hsub Hf. destruct Hfail as (_ & _ & Hcontents).
  induction files as [|file rest IH]; intros all_content t; simpl.
  - now exists all_content.
  - destruct (patch file) as [diff|] eqn:Hp.
    2:{ apply IH. intros f d Hin. apply Hsub. simpl. now rewrite Hp. }
    destruct (PyStr.truthy diff) eqn:Ht.
    2:{ apply IH. intros f d Hin. apply Hsub. simpl. now rewrite Hp, Ht. }
    assert (Hin : In (file, diff) (patched (get_files pr))).
    { apply Hsub. simpl. rewrite Hp, Ht. now left. }
    destruct (Hcontents Hf _ _ Hin) as [file_content Hc].
    unfold bind, call_get_contents, call. rewrite Hc.
    apply IH. intros f d Hin'. apply Hsub. simpl. rewrite Hp, Ht. now right.
Qed.

Lemma diff_content_ok : exists diff_content,
  diff_content_of args repo pr = Ok diff_content.
Proof.
  unfold diff_content_of, build_diff_content.
  destruct (full_context args) eqn:Hf.
  - unfold bind, call_get_files, call, ret.
    destruct (collect_all_content_ok (get_files pr) (fun _ _ H => H) Hf
                [] ([] ++ [E_get_files])%list) as [l Hl].
    destruct (collect_all_content repo pr (get_files pr) []
                ([] ++ [E_get_files])%list) as [[l'|e] t'];
      simpl in Hl; [|discriminate].
    eexists. reflexivity.
  - eexists. reflexivity.
Qed.

Lemma comment_trace_ok head_commit file diff chunk es r :
  comment_trace args gateway head_commit file diff chunk es r -> r = Ok tt.
Proof.
  destruct Hfail as (Hgen & _ & _).
  intros H. destruct H as [t e Hg| | |]; try reflexivity.
  destruct (Hgen t chunk (mode args)) as [text Htext]. congruence.
Qed.

Lemma file_trace_ok head_commit file es r :
  In file (get_files pr) ->
  file_trace args repo pr gateway head_commit file es r -> r = Ok tt.
Proof.
  intros Hin H.
  destruct H as [Hskip | diff e Hp Ht Hf Hc
                 | diff file_content es r Hp Ht Hf Hc Hct
                 | diff es r Hp Ht Hf Hct].
  - reflexivity.
  - destruct Hfail as (_ & _ & Hcontents).
    destruct (Hcontents Hf _ _ (patched_In _ _ _ Hin Hp Ht)) as [fc Hfc].
    congruence.
  - eapply comment_trace_ok; eassumption.
  - eapply comment_trace_ok; eassumption.
Qed.

Lemma loop_trace_ok head_commit files es r :
  (forall file, In file files -> In file (get_files pr)) ->
  loop_trace args repo pr gateway head_commit files es r -> r = Ok tt.
Proof.
  intros Hsub H.
  induction H as [| file files es1 es2 r H1 H2 IH | file files es e H1].
  - reflexivity.
  - apply IH. intros f Hf. apply Hsub. now right.
  - eapply file_trace_ok; [|eassumption]. apply Hsub. now left.
Qed.

Lemma review_trace_ok t es r :
  review_trace args repo pr gateway t es r -> r = Ok tt.
Proof.
  intros H.
  destruct H as [es e Hf Hd | es dc e Hf Hd Hg | es dc rt es' r Hf Hd Hg Hp].
  - destruct diff_content_ok as [dc Hdc]. congruence.
  - destruct Hfail as (Hgen & _ & _).
    destruct (Hgen (t ++ es)%list (build_content args pr dc) (mode args))
      as [text Htext]. congruence.
  - destruct Hp as [Hm | Hm | Hm Hs | e Hm Hs Hc
                    | head_commit es' r Hm Hs Hc Hl]; try reflexivity.
    + destruct Hfail as (_ & [hc Hhc] & _). congruence.
    + eapply loop_trace_ok; [|eassumption]. auto.
Qed.

End Calls.

Lemma build_content_eq args pr diff_content :
  build_content args pr diff_content
  = base_content pr ++ "Diffs:" ++ NL ++ diff_content.
Proof. unfold build_content. now destruct (mode args). Qed.

Lemma pr_title_shown pr : pr_title pr = shown_title pr.
Proof.
  unfold pr_title, shown_title, PyStr.or_default.
  destruct (title pr) as [[|c t]|]; reflexivity.
Qed.

Lemma pr_description_shown pr : pr_description pr = shown_description pr.
Proof.
  unfold pr_description, shown_description, PyStr.or_default.
  destruct (body pr) as [[|c t]|]; reflexivity.
Qed.

(** The content the code builds is the content of the specification. *)
Lemma build_content_pr_level args pr diff_content :
  build_content args pr diff_content = pr_level_content pr diff_content.
Proof.
  rewrite build_content_eq. unfold base_content, pr_level_content.
  rewrite pr_title_shown, pr_description_shown.
  repeat rewrite append_assoc. reflexivity.
Qed.

Lemma review_trace_calls_closed args repo pr gateway t es r :
  review_trace args repo pr gateway t es r ->
  state pr <> "open" ->
  (List.length (llm_calls es) <= 1)%nat.
Proof.
  intros H Hs.
  destruct H as [es e Hf Hd | es dc e Hf Hd Hg | es dc rt es' r Hf Hd Hg Hp];
    rewrite ?llm_calls_app, ?(llm_calls_fetch _ Hf); cbn [app llm_calls].
  - auto.
  - auto.
  - apply process_trace_calls in Hp as (_ & _ & Hclosed & _).
    now rewrite (Hclosed Hs).
Qed.

(** The model calls of a run: the call for the whole pull request, then
    calls for kept files, in their order, as far as the run got. *)
Lemma run_calls args w repo pr gateway diff_content :
  setup_ok args w repo pr gateway ->
  diff_content_of args repo pr = Ok diff_content ->
  exists per_file,
    llm_calls (snd (run args w))
    = (build_content args pr diff_content, mode args) :: per_file /\
    (exists n,
        per_file
        = firstn n (map (file_call args repo pr) (patched (get_files pr)))) /\
    (mode args <> comments -> per_file = []) /\
    (state pr <> "open" -> per_file = []) /\
    (fst (run args w) = Ok tt -> mode args = comments -> state pr = "open" ->
     per_file = map (file_call args repo pr) (patched (get_files pr))).
Proof.
  intros Hsetup Hd.
  destruct (run_shape _ _ _ _ _ Hsetup) as (es & r & -> & Hshape).
  cbn [fst snd]. rewrite llm_calls_app. cbn [app].
  change (llm_calls (setup_trace args)) with (@nil (string * Mode)).
  exact (review_trace_calls _ _ _ _ _ _ _ _ Hshape Hd).
Qed.

(** ** The test of line 105 *)

Lemma startswith_lower v : forall s,
  PyStr.startswith s v = true ->
  PyStr.startswith (PyStr.lower s) (PyStr.lower v) = true.
Proof.
  unfold PyStr.startswith.
  induction v as [|c v IH]; intros s H; simpl in *;
    [now destruct s|].
  destruct s as [|d s]; [discriminate|]. simpl in H |- *.
  destruct (ascii_dec c d) as [<-|]; [|discriminate].
  destruct (ascii_dec (PyStr.lower_char c) (PyStr.lower_char c));
    [now apply IH | congruence].
Qed.

Lemma contains_lower s : forall v,
  PyStr.contains s v = true ->
  PyStr.contains (PyStr.lower s) (PyStr.lower v) = true.
Proof.
  induction s as [|c s IH]; intros v H; simpl in *.
  - rewrite orb_false_r in *. now apply (startswith_lower v "").
  - apply orb_true_iff in H as [H | H]; apply orb_true_iff.
    + left. now apply (startswith_lower v (String c s)).
    + right. now apply IH.
Qed.

(** A review that asks for a comment is not empty and holds [no feedback]
    in no letter case. *)
Lemma wants_comment_true file_review :
  wants_comment file_review = true ->
  file_review <> "" /\
  PyStr.contains (PyStr.lower file_review) "no feedback" = false /\
  forall v, says_no_feedback v -> PyStr.contains file_review v = false.
Proof.
  unfold wants_comment. intros H.
  apply andb_true_iff in H as [Ht Hc]. apply negb_true_iff in Hc.
  split; [|split].
  - intros ->. discriminate.
  - exact Hc.
  - intros v Hv. destruct (PyStr.contains file_review v) eqn:E;
      [|reflexivity].
    apply contains_lower in E. rewrite Hv in E. congruence.
Qed.

Lemma truthy_not_empty s : PyStr.truthy s = true -> s <> "".
Proof. intros H ->. discriminate. Qed.

Lemma sample_setup_ok pr_state :
  setup_ok Sample.args (Sample.world pr_state) (Sample.repo pr_state)
    (Sample.pr pr_state) Sample.gateway.
Proof. exists "ghp_0123". repeat split. Qed.

(** ** The claims about the orchestrator *)

(** C5: in comments mode with an open pull request, a comment creation is
    attempted only right after the model call of a changed file with a
    non-empty patch, sent that file's chunk, and only when the answer is not
    empty and does not hold [no feedback] once lowered; the attempt carries
    that answer, the file's path, the line the locator gives for its patch,
    and the right side.  In particular no comment creation follows a model
    call whose answer holds [No Feedback] in some letter case. *)
Theorem comment_only_after_feedback :
  forall (args : Args) (w : World) (repo : Repository) (pr : PullRequest)
         (gateway : LLM),
    setup_ok args w repo pr gateway ->
    (forall (before : trace) (body commit path : string) (line : Z)
            (side : string) (answer : result unit) (after : trace),
        snd (run args w)
        = (before ++
           E_create_review_comment body commit path line side answer
           :: after)%list ->
        mode args = comments /\ state pr = "open" /\
        exists earlier file_review file diff,
          before
          = (earlier ++
             [E_generate_review (fst (file_call args repo pr (file, diff)))
                comments (Ok file_review)])%list /\
          file_review <> "" /\
          PyStr.contains (PyStr.lower file_review) "no feedback" = false /\
          In file (get_files pr) /\ patch file = Some diff /\ diff <> "" /\
          body = "AI Issue: " ++ file_review /\
          path = filename file /\
          line = get_file_line_from_diff diff /\
          side = "RIGHT") /\
    (forall (before : trace) (content : string) (m : Mode)
            (file_review v : string) (next : event) (after : trace),
        snd (run args w)
        = (before ++
           E_generate_review content m (Ok file_review) :: next :: after)%list ->
        says_no_feedback v ->
        PyStr.contains file_review v = true ->
        is_comment_creation next = false).
Proof.
  intros args w repo pr gateway Hsetup.
  destruct (run_neighbours _ _ _ _ _ Hsetup) as [Hchain _].
  split.
  - intros before body commit path line side answer after Htrace.
    rewrite Htrace in Hchain. apply chained_split in Hchain.
    destruct Hchain as (Hm & Hs & chunk & file_review & file & diff &
                        Hprev & Hw & Hin & -> & -> & -> & -> & ->).
    split; [exact Hm | split; [exact Hs|]].
    apply last_event_some in Hprev as [[_ Hnone] | [earlier ->]];
      [discriminate|].
    destruct (wants_comment_true _ Hw) as (Hne & Hlow & _).
    destruct (patched_elim _ _ _ Hin) as (Hfile & Hpatch & Htruthy).
    exists earlier, file_review, file, diff.
    repeat split; auto using truthy_not_empty.
  - intros before content m file_review v next after Htrace Hv Hcontains.
    destruct (is_comment_creation next) eqn:Hnext; [|reflexivity].
    replace (before ++ E_generate_review content m (Ok file_review)
                    :: next :: after)%list
      with ((before ++ [E_generate_review content m (Ok file_review)])
              ++ next :: after)%list in Htrace
      by now rewrite <- app_assoc.
    rewrite Htrace in Hchain. apply chained_split in Hchain.
    rewrite last_event_snoc in Hchain.
    destruct next; try discriminate Hnext.
    destruct Hchain as (_ & _ & chunk & file_review' & file & diff &
                        Hprev & Hw & _).
    injection Hprev as _ _ <-.
    destruct (wants_comment_true _ Hw) as (_ & _ & Hany).
    rewrite (Hany v Hv) in Hcontains. discriminate.
Qed.

Lemma comment_only_after_feedback_example :
  (exists earlier file_review,
      firstn 13 (snd (run Sample.args (Sample.world "open")))
      = (earlier ++
         [E_generate_review Sample.patch_c comments (Ok file_review)])%list /\
      file_review <> "" /\
      PyStr.contains (PyStr.lower file_review) "no feedback" = false) /\
  is_comment_creation
    (nth 12 (snd (run Sample.args (Sample.world "open"))) E_get_files)
  = false.
Proof.
  destruct (comment_only_after_feedback
              Sample.args (Sample.world "open") (Sample.repo "open")
              (Sample.pr "open") Sample.gateway (sample_setup_ok "open"))
    as [Honly Hnone].
  split.
  - assert (Htrace :
              snd (run Sample.args (Sample.world "open"))
              = (firstn 13 (snd (run Sample.args (Sample.world "open"))) ++
                 E_create_review_comment "AI Issue: q shadows a builtin."
                   "c0ffee" "c.py" 10 "RIGHT" (Ok tt)
                 :: skipn 14 (snd (run Sample.args (Sample.world "open"))))%list)
      by (vm_compute; reflexivity).
    destruct (Honly _ _ _ _ _ _ _ _ Htrace)
      as (_ & _ & earlier & file_review & file & diff &
          Hbefore & Hne & Hlow & _).
    assert (Hlast :
              firstn 13 (snd (run Sample.args (Sample.world "open")))
              = (firstn 12 (snd (run Sample.args (Sample.world "open"))) ++
                 [E_generate_review Sample.patch_c comments
                    (Ok "q shadows a builtin.")])%list)
      by (vm_compute; reflexivity).
    exists earlier, file_review. split; [|split; assumption].
    rewrite Hlast in Hbefore |- *.
    apply app_inj_tail in Hbefore as [<- Hev].
    injection Hev as _ <-. reflexivity.
  - assert (Htrace :
              snd (run Sample.args (Sample.world "open"))
              = (firstn 11 (snd (run Sample.args (Sample.world "open"))) ++
                 E_generate_review Sample.patch_b comments (Ok "No Feedback.")
                 :: nth 12 (snd (run Sample.args (Sample.world "open")))
                      E_get_files
                 :: skipn 13 (snd (run Sample.args (Sample.world "open"))))%list)
      by (vm_compute; reflexivity).
    exact (Hnone _ _ _ _ "No Feedback" _ _ Htrace eq_refl eq_refl).
Defined.

(** C7: when the creation of a comment raises for a file, the very next
    thing the run does is print the error line with that file's name and
    the message of the exception; the exception goes no further, and the
    loop goes on: where nothing but the posting fails, the run ends normally
    and every changed file with a non-empty patch has had its model call. *)
Theorem posting_error_is_reported_and_skipped :
  forall (args : Args) (w : World) (repo : Repository) (pr : PullRequest)
         (gateway : LLM),
    setup_ok args w repo pr gateway ->
    mode args = comments ->
    state pr = "open" ->
    (forall (before : trace) (body commit path : string) (line : Z)
            (side : string) (e : exception) (after : trace),
        snd (run args w)
        = (before ++
           E_create_review_comment body commit path line side (Raise e)
           :: after)%list ->
        (exists file, In file (get_files pr) /\ path = filename file) /\
        exists after',
          after = E_print ("Error posting comment on " ++ path ++ ": " ++
                           exc_str e) :: after') /\
    (only_posting_may_fail args repo pr gateway ->
     fst (run args w) = Ok tt /\
     exit_status (fst (run args w)) = 0%Z /\
     exists first_call,
       llm_calls (snd (run args w))
       = first_call :: map (file_call args repo pr) (patched (get_files pr))).
Proof.
  intros args w repo pr gateway Hsetup Hm Hs. split.
  - intros before body commit path line side e after Htrace.
    destruct (run_neighbours _ _ _ _ _ Hsetup) as [Hchain Hfollow].
    rewrite Htrace in Hchain, Hfollow.
    apply chained_split in Hchain.
    apply followed_split in Hfollow.
    destruct Hchain as (_ & _ & chunk & file_review & file & diff &
                        _ & _ & Hin & _ & _ & -> & _).
    split; [|exact Hfollow].
    exists file. split; [|reflexivity].
    now apply patched_elim in Hin.
  - intros Hfail.
    assert (Hok : fst (run args w) = Ok tt).
    { destruct (run_shape _ _ _ _ _ Hsetup) as (es & r & -> & Hshape).
      cbn [fst]. eapply review_trace_ok; eassumption. }
    split; [exact Hok | split; [now rewrite Hok|]].
    destruct (diff_content_ok _ _ _ _ Hfail) as [dc Hdc].
    destruct (run_calls _ _ _ _ _ _ Hsetup Hdc)
      as (per_file & Hcalls & _ & _ & _ & Hall).
    exists (build_content args pr dc, mode args).
    now rewrite Hcalls, (Hall Hok Hm Hs).
Qed.

Lemma sample_only_posting_may_fail :
  only_posting_may_fail Sample.args (Sample.repo "open") (Sample.pr "open")
    Sample.gateway.
Proof.
  split; [|split].
  - intros t content m. unfold Sample.gateway. cbn [generate_review].
    destruct (PyStr.startswith content "PR Title: "); [eauto|].
    destruct (PyStr.contains content "+v"); [eauto|].
    destruct (PyStr.contains content "+y"); eauto.
  - eexists. reflexivity.
  - discriminate.
Qed.

Lemma posting_error_is_reported_and_skipped_example :
  (exists after',
      skipn 10 (snd (run Sample.args (Sample.world "open")))
      = E_print "Error posting comment on a.py: 422 line must be part of the diff"
        :: after') /\
  fst (run Sample.args (Sample.world "open")) = Ok tt /\
  exists first_call,
    llm_calls (snd (run Sample.args (Sample.world "open")))
    = [first_call; (Sample.patch_a, comments); (Sample.patch_b, comments);
       (Sample.patch_c, comments)].
Proof.
  destruct (posting_error_is_reported_and_skipped
              Sample.args (Sample.world "open") (Sample.repo "open")
              (Sample.pr "open") Sample.gateway
              (sample_setup_ok "open") eq_refl eq_refl)
    as [Hreport Hgoes_on].
  split; [|split].
  - assert (Htrace :
              snd (run Sample.args (Sample.world "open"))
              = (firstn 9 (snd (run Sample.args (Sample.world "open"))) ++
                 E_create_review_comment "AI Issue: y is never read."
                   "c0ffee" "a.py" 2 "RIGHT"
                   (Raise {| exc_class := "GithubException";
                             exc_str := "422 line must be part of the diff" |})
                 :: skipn 10 (snd (run Sample.args (Sample.world "open"))))%list)
      by (vm_compute; reflexivity).
    exact (proj2 (Hreport _ _ _ _ _ _ _ _ Htrace)).
  - exact (proj1 (Hgoes_on sample_only_posting_may_fail)).
  - exact (proj2 (proj2 (Hgoes_on sample_only_posting_may_fail))).
Defined.

(** C6: in comments mode, when the state of the pull request is not [open],
    the run creates no comment and makes no per-file model call; once the
    diffs are built and the model has answered the one call, it prints the
    answer and then the line
    [Comments mode: PR is closed, no comments posted.], and ends. *)
Theorem closed_pr_gets_no_comment :
  forall (args : Args) (w : World) (repo : Repository) (pr : PullRequest)
         (gateway : LLM),
    setup_ok args w repo pr gateway ->
    mode args = comments ->
    state pr <> "open" ->
    (forall e, In e (snd (run args w)) -> is_comment_creation e = false) /\
    (List.length (llm_calls (snd (run args w))) <= 1)%nat /\
    (forall (diff_content : string) (t1 : trace) (review_text : string),
        build_diff_content args repo pr (setup_trace args)
        = (Ok diff_content, t1) ->
        generate_review gateway t1 (build_content args pr diff_content)
          comments = Ok review_text ->
        run args w
        = (Ok tt,
           (t1 ++
            [E_generate_review (build_content args pr diff_content)
               comments (Ok review_text);
             E_print ("Code Issues:" ++ NL ++ review_text);
             E_print "Comments mode: PR is closed, no comments posted."])%list)).
Proof.
  intros args w repo pr gateway Hsetup Hm Hs. split; [|split].
  - intros e Hin.
    destruct (is_comment_creation e) eqn:He; [|reflexivity].
    destruct (run_neighbours _ _ _ _ _ Hsetup) as [Hchain _].
    apply in_split in Hin as (before & after & Htrace).
    rewrite Htrace in Hchain. apply chained_split in Hchain.
    destruct e; try discriminate He.
    destruct Hchain as (_ & Hopen & _). contradiction.
  - destruct (run_shape _ _ _ _ _ Hsetup) as (es & r & -> & Hshape).
    cbn [snd]. rewrite llm_calls_app.
    change (llm_calls (setup_trace args)) with (@nil (string * Mode)).
    eapply review_trace_calls_closed; eassumption.
  - intros diff_content t1 review_text Hbuild Hgen.
    rewrite (run_after_setup _ _ _ _ _ Hsetup).
    unfold review, bind. rewrite Hbuild.
    unfold call_generate_review. rewrite Hm, Hgen.
    unfold process. rewrite Hm. unfold bind, print.
    apply String.eqb_neq in Hs. rewrite Hs.
    now regroup.
Qed.

Lemma closed_pr_gets_no_comment_example :
  run Sample.args (Sample.world "closed")
  = (Ok tt,
     [E_get_repo "octo/demo"; E_get_pull 7; E_llm_init chatgpt false false;
      E_get_files;
      E_generate_review
        (build_content Sample.args (Sample.pr "closed")
           (PyStr.join NL (patch_blocks Sample.files)))
        comments (Ok "2 issues.");
      E_print ("Code Issues:" ++ NL ++ "2 issues.");
      E_print "Comments mode: PR is closed, no comments posted."]).
Proof.
  apply (proj2 (proj2 (closed_pr_gets_no_comment
                         Sample.args (Sample.world "closed")
                         (Sample.repo "closed") (Sample.pr "closed")
                         Sample.gateway (sample_setup_ok "closed") eq_refl
                         ltac:(discriminate)))
           (PyStr.join NL (patch_blocks Sample.files))
           [E_get_repo "octo/demo"; E_get_pull 7;
            E_llm_init chatgpt false false; E_get_files]
           "2 issues.");
    reflexivity.
Defined.

(** C3, as the specification words it: every content passed to
    [generate_review] is [PR Title + PR Description + Diffs].  In comments
    mode the call for a file is sent the patch of that file and nothing of
    the title or the description. *)
Lemma per_file_call_is_not_pr_level :
  In (E_generate_review Sample.patch_a comments (Ok "y is never read."))
     (snd (run Sample.args (Sample.world "open"))) /\
  forall diffs, Sample.patch_a <> pr_level_content (Sample.pr "open") diffs.
Proof.
  split.
  - vm_compute. tauto.
  - intros diffs H.
    apply (f_equal (fun s => PyStr.startswith s "PR Title: ")) in H.
    discriminate H.
Qed.

(** C3, amended: in every mode the first model call of a run is sent
    [PR Title + PR Description + Diffs], with the mode; a run makes further
    model calls in comments mode only, and each of them is sent the chunk of
    one changed file with a non-empty patch, in the order of the files. *)
Theorem model_call_contents :
  forall (args : Args) (w : World) (repo : Repository) (pr : PullRequest)
         (gateway : LLM) (diff_content : string),
    setup_ok args w repo pr gateway ->
    diff_content_of args repo pr = Ok diff_content ->
    exists per_file,
      llm_calls (snd (run args w))
      = (pr_level_content pr diff_content, mode args) :: per_file /\
      (mode args <> comments -> per_file = []) /\
      exists n,
        per_file
        = firstn n (map (file_call args repo pr) (patched (get_files pr))).
Proof.
  intros args w repo pr gateway diff_content Hsetup Hd.
  destruct (run_calls _ _ _ _ _ _ Hsetup Hd)
    as (per_file & Hcalls & Hn & Hmode & _).
  exists per_file. rewrite Hcalls, build_content_pr_level. auto.
Qed.

Lemma model_call_contents_example :
  exists per_file,
    llm_calls (snd (run Sample.args (Sample.world "open")))
    = (pr_level_content (Sample.pr "open")
         (PyStr.join NL (patch_blocks Sample.files)), comments) :: per_file.
Proof.
  destruct (model_call_contents
              Sample.args (Sample.world "open") (Sample.repo "open")
              (Sample.pr "open") Sample.gateway
              (PyStr.join NL (patch_blocks Sample.files))
              (sample_setup_ok "open") eq_refl)
    as (per_file & Hcalls & _).
  exists per_file. exact Hcalls.
Defined.

(** C10: the content of the first model call starts with the title and the
    description of the pull request, each replaced by its placeholder,
    [No title provided] or [No description provided], when the attribute is
    missing or empty; so neither field of the base content is ever empty. *)
Theorem missing_title_and_body_get_placeholders :
  forall (args : Args) (w : World) (repo : Repository) (pr : PullRequest)
         (gateway : LLM) (diff_content : string),
    setup_ok args w repo pr gateway ->
    diff_content_of args repo pr = Ok diff_content ->
    exists shown_t shown_d per_file,
      llm_calls (snd (run args w))
      = ("PR Title: " ++ shown_t ++ NL ++
         "PR Description:" ++ NL ++ shown_d ++ NL ++ NL ++
         "Diffs:" ++ NL ++ diff_content, mode args) :: per_file /\
      base_content pr
      = "PR Title: " ++ shown_t ++ NL ++
        "PR Description:" ++ NL ++ shown_d ++ NL ++ NL /\
      (title pr = None \/ title pr = Some "" ->
       shown_t = "No title provided") /\
      (forall t, title pr = Some t -> t <> "" -> shown_t = t) /\
      (body pr = None \/ body pr = Some "" ->
       shown_d = "No description provided") /\
      (forall d, body pr = Some d -> d <> "" -> shown_d = d) /\
      shown_t <> "" /\ shown_d <> "".
Proof.
  intros args w repo pr gateway diff_content Hsetup Hd.
  destruct (run_calls _ _ _ _ _ _ Hsetup Hd) as (per_file & Hcalls & _).
  exists (pr_title pr), (pr_description pr), per_file.
  split; [|split].
  - rewrite Hcalls, build_content_eq. unfold base_content.
    repeat rewrite append_assoc. reflexivity.
  - reflexivity.
  - unfold pr_title, pr_description, PyStr.or_default.
    repeat split.
    + intros [-> | ->]; reflexivity.
    + intros t -> Ht. destruct t; [contradiction | reflexivity].
    + intros [-> | ->]; reflexivity.
    + intros d -> Hd'. destruct d; [contradiction | reflexivity].
    + destruct (title pr) as [[|c t]|]; discriminate.
    + destruct (body pr) as [[|c t]|]; discriminate.
Qed.

Lemma missing_title_and_body_get_placeholders_example :
  exists per_file,
    llm_calls (snd (run Sample.args (Sample.world "open")))
    = ("PR Title: No title provided" ++ NL ++
       "PR Description:" ++ NL ++ "No description provided" ++ NL ++ NL ++
       "Diffs:" ++ NL ++ PyStr.join NL (patch_blocks Sample.files),
       comments) :: per_file.
Proof.
  destruct (missing_title_and_body_get_placeholders
              Sample.args (Sample.world "open") (Sample.repo "open")
              (Sample.pr "open") Sample.gateway
              (PyStr.join NL (patch_blocks Sample.files))
              (sample_setup_ok "open") eq_refl)
    as (shown_t & shown_d & per_file & Hcalls & _ & Ht & _ & Hd & _).
  exists per_file.
  rewrite Hcalls, (Ht (or_introl eq_refl)), (Hd (or_intror eq_refl)).
  reflexivity.
Defined.

(** C8: without the variable [GITHUB_TOKEN] the run raises
    [ValueError("GITHUB_TOKEN environment variable is required")] with
    nothing in its trace, so before any call to GitHub or to the model, and
    the process ends with a status that is not 0. *)
Theorem missing_token_aborts :
  forall (args : Args) (w : World),
    getenv w "GITHUB_TOKEN" = None ->
    run args w
    = (Raise (ValueError "GITHUB_TOKEN environment variable is required"),
       []) /\
    exit_status (fst (run args w)) <> 0%Z.
Proof.
  intros args w Henv. unfold run, main. rewrite Henv.
  split; [reflexivity | discriminate].
Qed.

Lemma missing_token_aborts_example :
  run Sample.args Sample.world_without_token
  = (Raise (ValueError "GITHUB_TOKEN environment variable is required"), []).
Proof.
  exact (proj1 (missing_token_aborts Sample.args Sample.world_without_token
                  eq_refl)).
Defined.

(** ** Further properties of the run *)

(** X1: the recogniser of lines 52-55 against the header form: a line gives a
    start line exactly when it begins with [@@ -a,b +c,d @@] for numerals
    [a], [b], [c], [d], and the start line is the value of [c]. *)
Theorem hunk_header_recognised :
  forall (line : string) (n : Z),
    hunk_new_start line = Some n <->
    exists c, HunkHeader line c /\ n = PyStr.int c.
Proof.
  intros line n. split.
  - apply hunk_new_start_sound.
  - intros (c & Hc & ->). now apply hunk_new_start_complete.
Qed.


(** X3: an empty [GITHUB_TOKEN] ends the run as a missing one does. *)
Theorem empty_token_aborts :
  forall (args : Args) (w : World),
    getenv w "GITHUB_TOKEN" = Some "" ->
    run args w
    = (Raise (ValueError "GITHUB_TOKEN environment variable is required"),
       []).
Proof.
  intros args w Henv. unfold run, main. now rewrite Henv.
Qed.

Lemma empty_token_aborts_example :
  run Sample.args Sample.world_with_empty_token
  = (Raise (ValueError "GITHUB_TOKEN environment variable is required"), []).
Proof.
  exact (empty_token_aborts Sample.args Sample.world_with_empty_token
           eq_refl).
Defined.

(** X4: in general mode and in issues mode a run whose diffs are built and
    whose model call answers makes that one call, prints the answer after
    [General PR Review:] or [Code Issues:], and ends normally. *)
Theorem single_review_is_printed :
  forall (args : Args) (w : World) (repo : Repository) (pr : PullRequest)
         (gateway : LLM) (diff_content : string) (t1 : trace)
         (review_text : string),
    setup_ok args w repo pr gateway ->
    mode args <> comments ->
    build_diff_content args repo pr (setup_trace args)
    = (Ok diff_content, t1) ->
    generate_review gateway t1 (build_content args pr diff_content)
      (mode args) = Ok review_text ->
    run args w
    = (Ok tt,
       (t1 ++
        [E_generate_review (build_content args pr diff_content) (mode args)
           (Ok review_text);
         E_print ((match mode args with
                   | general => "General PR Review:"
                   | _ => "Code Issues:"
                   end) ++ NL ++ review_text)])%list).
Proof.
  intros args w repo pr gateway diff_content t1 review_text
         Hsetup Hm Hbuild Hgen.
  rewrite (run_after_setup _ _ _ _ _ Hsetup).
  unfold review, bind. rewrite Hbuild.
  unfold call_generate_review. rewrite Hgen.
  unfold process, print.
  destruct (mode args); [| |contradiction]; now regroup.
Qed.

Lemma single_review_is_printed_example :
  run Sample.args_general (Sample.world "open")
  = (Ok tt,
     [E_get_repo "octo/demo"; E_get_pull 7; E_llm_init grok false true;
      E_get_files;
      E_get_contents "a.py" "c0ffee"; E_get_contents "b.py" "c0ffee";
      E_get_contents "c.py" "c0ffee";
      E_generate_review
        (build_content Sample.args_general (Sample.pr "open")
           (PyStr.join (NL ++ NL)
              [full_context_block "a.py" "# a.py" Sample.patch_a;
               full_context_block "b.py" "# b.py" Sample.patch_b;
               full_context_block "c.py" "# c.py" Sample.patch_c]))
        general (Ok "2 issues.");
      E_print ("General PR Review:" ++ NL ++ "2 issues.")]).
Proof.
  apply (single_review_is_printed
           Sample.args_general
           (Sample.world "open") (Sample.repo "open") (Sample.pr "open")
           Sample.gateway
           (PyStr.join (NL ++ NL)
              [full_context_block "a.py" "# a.py" Sample.patch_a;
               full_context_block "b.py" "# b.py" Sample.patch_b;
               full_context_block "c.py" "# c.py" Sample.patch_c])
           [E_get_repo "octo/demo"; E_get_pull 7; E_llm_init grok false true;
            E_get_files;
            E_get_contents "a.py" "c0ffee"; E_get_contents "b.py" "c0ffee";
            E_get_contents "c.py" "c0ffee"]
           "2 issues.").
  - exists "ghp_0123". repeat split.
  - discriminate.
  - reflexivity.
  - reflexivity.
Defined.

(** X5: an exception of the model call for the whole pull request ends the
    run: nothing is printed and the status is 1. *)
Theorem review_failure_is_fatal :
  forall (args : Args) (w : World) (repo : Repository) (pr : PullRequest)
         (gateway : LLM) (diff_content : string) (t1 : trace)
         (e : exception),
    setup_ok args w repo pr gateway ->
    build_diff_content args repo pr (setup_trace args)
    = (Ok diff_content, t1) ->
    generate_review gateway t1 (build_content args pr diff_content)
      (mode args) = Raise e ->
    run args w
    = (Raise e,
       (t1 ++
        [E_generate_review (build_content args pr diff_content) (mode args)
           (Raise e)])%list) /\
    exit_status (fst (run args w)) = 1%Z.
Proof.
  intros args w repo pr gateway diff_content t1 e Hsetup Hbuild Hgen.
  assert (Hrun : run args w
                 = (Raise e,
                    (t1 ++
                     [E_generate_review (build_content args pr diff_content)
                        (mode args) (Raise e)])%list)).
  { rewrite (run_after_setup _ _ _ _ _ Hsetup).
    unfold review, bind. rewrite Hbuild.
    unfold call_generate_review. now rewrite Hgen. }
  split; [exact Hrun | now rewrite Hrun].
Qed.

Lemma review_failure_is_fatal_example :
  exit_status (fst (run Sample.args Sample.world_with_failing_gateway)) = 1%Z.
Proof.
  refine (proj2 (review_failure_is_fatal
                   Sample.args Sample.world_with_failing_gateway
                   (Sample.repo "open") (Sample.pr "open")
                   Sample.failing_gateway
                   (PyStr.join NL (patch_blocks Sample.files))
                   [E_get_repo "octo/demo"; E_get_pull 7;
                    E_llm_init chatgpt false false; E_get_files]
                   Sample.rate_limited _ eq_refl eq_refl)).
  exists "ghp_0123". repeat split.
Defined.

(** ** Further properties of the locator *)

Lemma append_empty_r (a : string) : a ++ "" = a.
Proof. induction a as [|x a IH]; simpl; [reflexivity | now rewrite IH]. Qed.

Lemma int_from_nonneg s : forall acc, (0 <= acc)%Z -> (0 <= PyStr.int_from acc s)%Z.
Proof.
  induction s as [|c s IH]; intros acc H; cbn [PyStr.int_from]; [exact H|].
  apply IH. unfold PyStr.digit_value. lia.
Qed.

Lemma int_nonneg s : (0 <= PyStr.int s)%Z.
Proof. apply int_from_nonneg. lia. Qed.

Lemma first_added_from_cases new_start rest : forall j,
  (first_added_from new_start j rest = None /\
   forall l, In l rest -> is_added_line l = false) \/
  exists mid added post,
    rest = (mid ++ added :: post)%list /\
    (forall l, In l mid -> is_added_line l = false) /\
    is_added_line added = true.
Proof.
  induction rest as [|l rest IH]; intros j.
  - left. split; [reflexivity | intros l []].
  - destruct (is_added_line l) eqn:Hl.
    + right. exists [], l, rest. repeat split; [intros l' []|exact Hl].
    + destruct (IH (j + 1)%Z) as [[Hnone Hall] | (mid & added & post & -> & Hmid & Hadd)].
      * left. simpl. rewrite Hl. split; [exact Hnone|].
        intros l' [<-|Hin]; [exact Hl | now apply Hall].
      * right. exists (l :: mid), added, post.
        repeat split; [|exact Hadd].
        intros l' [<-|Hin]; [exact Hl | now apply Hmid].
Qed.

(** The result of the scan is always one of the two rules. *)
Lemma scan_lines_cases lines :
  (scan_lines lines = 1%Z /\
   forall pre hdr rest, lines = (pre ++ hdr :: rest)%list ->
     is_hunk_header hdr -> forall l, In l rest -> is_added_line l = false) \/
  exists pre hdr c mid added post,
    lines = (pre ++ hdr :: mid ++ added :: post)%list /\
    (forall l, In l pre -> ~ is_hunk_header l) /\
    HunkHeader hdr c /\
    (forall l, In l mid -> is_added_line l = false) /\
    is_added_line added = true /\
    scan_lines lines = (PyStr.int c + Z.of_nat (S (List.length mid)) - 1)%Z.
Proof.
  induction lines as [|line rest IH].
  - left. split; [reflexivity|].
    intros pre hdr rest E. now destruct pre.
  - destruct (hunk_new_start line) as [n|] eqn:Hn.
    + apply hunk_new_start_sound in Hn as Hc. destruct Hc as (c & Hc & ->).
      destruct (first_added_from_cases (PyStr.int c) rest 1%Z)
        as [[Hnone Hall] | (mid & added & post & -> & Hmid & Hadd)].
      * left.
        assert (Hdef : forall pre hdr rest',
                   (line :: rest) = (pre ++ hdr :: rest')%list ->
                   is_hunk_header hdr ->
                   forall l, In l rest' -> is_added_line l = false).
        { intros pre hdr rest' E _ l Hl.
          destruct pre as [|x pre]; injection E as -> E.
          - subst rest'. now apply Hall.
          - apply Hall. rewrite E. apply in_or_app. right. now right. }
        split; [now apply scan_lines_default | exact Hdef].
      * right. exists [], line, c, mid, added, post.
        repeat split; try assumption; [intros l []|].
        cbn [scan_lines]. rewrite Hn.
        rewrite first_added_from_found by assumption. f_equal. lia.
    + assert (Hline : ~ is_hunk_header line).
      { intros (c & Hc). apply hunk_new_start_complete in Hc. congruence. }
      destruct IH as [[H1 Hall] | (pre & hdr & c & mid & added & post &
                                   -> & Hpre & Hhdr & Hmid & Hadd & Hscan)].
      * left. cbn [scan_lines]. rewrite Hn. split; [exact H1|].
        intros pre hdr rest' E Hh l Hl.
        destruct pre as [|x pre]; injection E as -> E.
        -- contradiction.
        -- now apply (Hall pre hdr rest' E Hh).
      * right. exists (line :: pre), hdr, c, mid, added, post.
        repeat split; try assumption.
        -- intros l [<-|Hin]; [exact Hline | now apply Hpre].
        -- cbn [app scan_lines]. rewrite Hn. exact Hscan.
Qed.

(** X6: the value of [get_file_line_from_diff] is always given by one of two
    rules, and the patch decides which: 1 when no header is followed by an
    added line, and otherwise [c + j - 1] for the first header and the first
    added line after it. *)
Theorem get_file_line_is_default_or_first_added :
  forall diff : string,
    (get_file_line_from_diff diff = 1%Z /\
     forall pre hdr rest,
       PyStr.splitlines diff = (pre ++ hdr :: rest)%list ->
       is_hunk_header hdr ->
       forall l, In l rest -> is_added_line l = false) \/
    exists pre hdr c mid added post,
      PyStr.splitlines diff = (pre ++ hdr :: mid ++ added :: post)%list /\
      (forall l, In l pre -> ~ is_hunk_header l) /\
      HunkHeader hdr c /\
      (forall l, In l mid -> is_added_line l = false) /\
      is_added_line added = true /\
      get_file_line_from_diff diff
      = (PyStr.int c + Z.of_nat (S (List.length mid)) - 1)%Z.
Proof.
  intros diff. unfold get_file_line_from_diff.
  apply scan_lines_cases.
Qed.

(** X7: the value is never negative, and it is 0, which is no line of a
    file, exactly when the first header has the new start 0 and the line
    right after it is an added line. *)
Theorem get_file_line_zero_only_after_start_zero :
  forall diff : string,
    (0 <= get_file_line_from_diff diff)%Z /\
    (get_file_line_from_diff diff = 0%Z <->
     exists pre hdr c added post,
       PyStr.splitlines diff = (pre ++ hdr :: added :: post)%list /\
       (forall l, In l pre -> ~ is_hunk_header l) /\
       HunkHeader hdr c /\ PyStr.int c = 0%Z /\
       is_added_line added = true).
Proof.
  intros diff. unfold get_file_line_from_diff.
  destruct (scan_lines_cases (PyStr.splitlines diff))
    as [[H1 _] | (pre & hdr & c & mid & added & post &
                  Hsplit & Hpre & Hhdr & Hmid & Hadd & Hscan)].
  - rewrite H1. split; [lia|]. split; [discriminate|].
    intros (pre & hdr & c & added & post & Hsplit & Hpre & Hhdr & Hc & Hadd).
    rewrite Hsplit, scan_lines_skip_non_headers in H1 by assumption.
    cbn [scan_lines] in H1.
    rewrite (hunk_new_start_complete _ _ Hhdr) in H1.
    cbn [first_added_from] in H1. rewrite Hadd in H1. lia.
  - pose proof (int_nonneg c) as Hc. rewrite Hscan.
    split; [lia|]. split.
    + intros H0. assert (Hmid0 : mid = []) by (destruct mid; [reflexivity | cbn [List.length] in H0; lia]).
      subst mid. exists pre, hdr, c, added, post.
      repeat split; try assumption. cbn [List.length] in H0. lia.
    + intros (pre' & hdr' & c' & added' & post' &
              Hsplit' & Hpre' & Hhdr' & Hc' & Hadd').
      rewrite Hsplit', scan_lines_skip_non_headers in Hscan by assumption.
      cbn [scan_lines] in Hscan.
      rewrite (hunk_new_start_complete _ _ Hhdr') in Hscan.
      cbn [first_added_from] in Hscan. rewrite Hadd' in Hscan. lia.
Qed.

(** *** Lines and the text they come from *)

Lemma first_added_from_app_inert new_start junk rest : forall j,
  (forall l, In l junk -> is_added_line l = false) ->
  first_added_from new_start j (rest ++ junk) = first_added_from new_start j rest.
Proof.
  intros j Hjunk. revert j.
  induction rest as [|l rest IH]; intros j; cbn [app first_added_from].
  - now apply first_added_from_none.
  - destruct (is_added_line l); [reflexivity | apply IH].
Qed.

(** Lines that are not added lines, put after the patch, change nothing. *)
Lemma scan_lines_app_inert junk lines :
  (forall l, In l junk -> is_added_line l = false) ->
  scan_lines (lines ++ junk) = scan_lines lines.
Proof.
  intros Hjunk.
  induction lines as [|line rest IH]; cbn [app].
  - apply scan_lines_default.
    intros pre hdr rest E _ l Hl. apply Hjunk.
    rewrite E. apply in_or_app. right. now right.
  - cbn [scan_lines]. destruct (hunk_new_start line); [|exact IH].
    rewrite first_added_from_app_inert by assumption.
    now rewrite IH.
Qed.

Lemma drop_last_empty_cases lines :
  drop_last_empty lines = lines \/
  lines = (drop_last_empty lines ++ [""])%list.
Proof.
  induction lines as [|l rest IH]; [now left|].
  destruct rest as [|l2 rest].
  - cbn [drop_last_empty]. destruct l; [now right | now left].
  - change (drop_last_empty (l :: l2 :: rest))
      with (l :: drop_last_empty (l2 :: rest)).
    destruct IH as [-> | IH]; [now left|].
    right. cbn [app]. now rewrite <- IH.
Qed.

Lemma scan_lines_drop_last_empty lines :
  scan_lines (drop_last_empty lines) = scan_lines lines.
Proof.
  destruct (drop_last_empty_cases lines) as [-> | E]; [reflexivity|].
  rewrite E at 2. symmetry. apply scan_lines_app_inert.
  intros l [<-|[]]. reflexivity.
Qed.

Lemma splitlines_from_line l : forall cur rest,
  no_boundary l = true ->
  PyStr.splitlines_from cur (l ++ rest)
  = PyStr.splitlines_from (cur ++ l) rest.
Proof.
  induction l as [|c l IH]; intros cur rest H.
  - now rewrite append_empty_r.
  - cbn [no_boundary] in H. apply andb_true_iff in H as [Hc Hl].
    apply negb_true_iff in Hc.
    cbn [append PyStr.splitlines_from]. rewrite Hc.
    rewrite IH by assumption. now rewrite append_assoc.
Qed.

Lemma splitlines_from_end cur :
  PyStr.splitlines_from cur "" = drop_last_empty [cur].
Proof. now destruct cur. Qed.

Lemma splitlines_from_sep sep cur text :
  sep = NL \/ sep = CRLF ->
  PyStr.splitlines_from cur (sep ++ text)
  = cur :: PyStr.splitlines_from "" text.
Proof.
  intros [-> | ->]; destruct text; reflexivity.
Qed.

(** The lines of a text made by joining lines with LF or with CR LF. *)
Lemma splitlines_from_join sep rest : forall l cur,
  sep = NL \/ sep = CRLF ->
  (forall x, In x (l :: rest) -> no_boundary x = true) ->
  PyStr.splitlines_from cur (PyStr.join sep (l :: rest))
  = drop_last_empty ((cur ++ l) :: rest).
Proof.
  induction rest as [|l2 rest IH]; intros l cur Hsep Hall.
  - cbn [PyStr.join]. rewrite <- (append_empty_r l) at 1.
    rewrite splitlines_from_line by (apply Hall; now left).
    apply splitlines_from_end.
  - change (PyStr.join sep (l :: l2 :: rest))
      with (l ++ sep ++ PyStr.join sep (l2 :: rest)).
    rewrite splitlines_from_line by (apply Hall; now left).
    rewrite splitlines_from_sep by assumption.
    rewrite IH; [reflexivity | assumption|].
    intros x Hx. apply Hall. now right.
Qed.

Lemma splitlines_join sep lines :
  sep = NL \/ sep = CRLF ->
  (forall x, In x lines -> no_boundary x = true) ->
  PyStr.splitlines (PyStr.join sep lines) = drop_last_empty lines.
Proof.
  intros Hsep Hall. destruct lines as [|l rest]; [reflexivity|].
  unfold PyStr.splitlines. now rewrite splitlines_from_join.
Qed.

(** X8: for a patch whose lines are joined by LF or by CR LF, the value is
    the scan of lines 51-59 over those lines: the two line endings give the
    same line number, and an empty last line counts for nothing. *)
Theorem get_file_line_of_joined_lines :
  forall (lines : list string) (sep : string),
    sep = NL \/ sep = CRLF ->
    (forall l, In l lines -> no_boundary l = true) ->
    get_file_line_from_diff (PyStr.join sep lines) = scan_lines lines.
Proof.
  intros lines sep Hsep Hall. unfold get_file_line_from_diff.
  rewrite splitlines_join by assumption.
  apply scan_lines_drop_last_empty.
Qed.

Lemma get_file_line_of_joined_lines_example :
  get_file_line_from_diff
    (PyStr.join CRLF ["--- a/f"; "+++ b/f"; "@@ -1,1 +5,2 @@"; " a"; "+b"; ""])
  = 6%Z.
Proof.
  apply (get_file_line_of_joined_lines
           ["--- a/f"; "+++ b/f"; "@@ -1,1 +5,2 @@"; " a"; "+b"; ""] CRLF).
  - now right.
  - intros l [<-|[<-|[<-|[<-|[<-|[<-|[]]]]]]]; reflexivity.
Defined.

Lemma splitlines_from_newline n : forall s cur,
  String.length s <= n ->
  PyStr.splitlines_from cur (s ++ NL) = PyStr.splitlines_from cur s \/
  PyStr.splitlines_from cur (s ++ NL)
  = (PyStr.splitlines_from cur s ++ [""])%list.
Proof.
  induction n as [|n IH]; intros s cur Hlen.
  - destruct s; [|cbn in Hlen; lia].
    destruct cur; [now right | now left].
  - destruct s as [|c s]; [destruct cur; [now right | now left]|].
    cbn [String.length] in Hlen. apply le_S_n in Hlen.
    cbn [append PyStr.splitlines_from].
    destruct (PyStr.is_linebreak c) eqn:Hc.
    + destruct s as [|c' s].
      * cbn [append]. unfold NL.
        destruct (Ascii.eqb c PyStr.CR && Ascii.eqb PyStr.LF PyStr.LF);
          [now left | now right].
      * cbn [append].
        destruct (Ascii.eqb c PyStr.CR && Ascii.eqb c' PyStr.LF).
        -- cbn [String.length] in Hlen.
           destruct (IH s "" ltac:(lia)) as [-> | ->]; [now left | now right].
        -- change (String c' (s ++ NL)) with (String c' s ++ NL).
           destruct (IH (String c' s) "" Hlen) as [-> | ->];
             [now left | now right].
    + apply IH. exact Hlen.
Qed.

(** X9: a newline put at the end of the patch does not change the value. *)
Theorem trailing_newline_is_ignored :
  forall diff : string,
    get_file_line_from_diff (diff ++ NL) = get_file_line_from_diff diff.
Proof.
  intros diff. unfold get_file_line_from_diff, PyStr.splitlines.
  destruct (splitlines_from_newline (String.length diff) diff ""
              (le_n _)) as [-> | ->]; [reflexivity|].
  apply scan_lines_app_inert. intros l [<-|[]]. reflexivity.
Qed.

(** ** Further properties of the run: the trace in detail *)

Section RunDetail.

Variables (args : Args) (repo : Repository) (pr : PullRequest)
          (gateway : LLM).

Lemma build_diff_content_events t :
  build_diff_content args repo pr t
  = (diff_content_of args repo pr, (t ++ diff_events args repo pr)%list).
Proof.
  destruct (build_diff_content_trace args repo pr) as (es & _ & H).
  unfold diff_events. rewrite (H []). cbn [snd app]. apply H.
Qed.

Lemma diff_events_fetch :
  Forall (fun ev => is_fetch ev = true) (diff_events args repo pr).
Proof.
  destruct (build_diff_content_trace args repo pr) as (es & Hes & H).
  unfold diff_events. rewrite (H []). exact Hes.
Qed.

Lemma review_detail t :
  exists rest r,
    review args repo pr gateway t
    = (r, ((t ++ diff_events args repo pr) ++ rest)%list) /\
    tail_trace args repo pr gateway (t ++ diff_events args repo pr)%list
      rest r.
Proof.
  unfold review, bind at 1. rewrite build_diff_content_events.
  destruct (diff_content_of args repo pr) as [dc|e] eqn:Hd.
  - unfold bind, call_generate_review.
    destruct (generate_review gateway (t ++ diff_events args repo pr)%list
                (build_content args pr dc) (mode args))
      as [review_text|e] eqn:G.
    + destruct (process_shape args repo pr gateway review_text
                  ((t ++ diff_events args repo pr) ++
                   [E_generate_review (build_content args pr dc)
                      (mode args) (Ok review_text)])%list)
        as (es & r & -> & Hp).
      eexists _, r. split; [regroup; reflexivity|].
      eapply TT_reviewed; eassumption.
    + eexists _, _. split; [reflexivity|].
      eapply TT_review_raises; eassumption.
  - exists [], (Raise e). rewrite app_nil_r. split; [reflexivity|].
    now apply TT_diff_raises.
Qed.

End RunDetail.

(** The trace of a run that got through the set-up: the set-up calls, the
    events of lines 67-75, and a tail. *)
Lemma run_detail args w repo pr gateway :
  setup_ok args w repo pr gateway ->
  exists rest r,
    run args w
    = (r, ((setup_trace args ++ diff_events args repo pr) ++ rest)%list) /\
    tail_trace args repo pr gateway
      (setup_trace args ++ diff_events args repo pr)%list rest r.
Proof.
  intros H. rewrite (run_after_setup _ _ _ _ _ H). apply review_detail.
Qed.

(** A run either gets through the set-up or stops in it. *)
Lemma run_setup_cases args w :
  (exists repo pr gateway, setup_ok args w repo pr gateway) \/
  exists e n, run args w = (Raise e, firstn n (setup_trace args)).
Proof.
  unfold run, main.
  destruct (getenv w "GITHUB_TOKEN") as [token|] eqn:Henv.
  2:{ right. eexists _, 0. reflexivity. }
  destruct (PyStr.truthy token) eqn:Htok.
  2:{ right. eexists _, 0. reflexivity. }
  unfold bind, call. cbn [app].
  destruct (get_repo (mk_Github w token) (repository args))
    as [repo|e] eqn:Hrepo.
  2:{ right. exists e, 1. reflexivity. }
  destruct (get_pull repo (pr_number args)) as [pr|e] eqn:Hpull.
  2:{ right. exists e, 2. reflexivity. }
  destruct (llm_map w (llm args) (debug args) (deep args))
    as [gateway|e] eqn:Hllm.
  2:{ right. exists e, 3. reflexivity. }
  left. exists repo, pr, gateway, token. auto.
Qed.

(** *** Splitting a trace at an event *)

Section Splits.

Context {A : Type}.
Variable p : A -> bool.

(** The first element with [p] is where it is. *)
Lemma first_split_unique (a : list A) : forall x b a' x' b',
  (a ++ x :: b = a' ++ x' :: b')%list ->
  Forall (fun e => p e = false) a -> p x = true ->
  Forall (fun e => p e = false) a' -> p x' = true ->
  a = a' /\ x = x' /\ b = b'.
Proof.
  induction a as [|y a IH]; intros x b a' x' b' E Ha Hx Ha' Hx'.
  - destruct a' as [|y' a']; cbn [app] in E.
    + injection E as -> ->. auto.
    + injection E as -> _. inversion Ha'; subst. congruence.
  - destruct a' as [|y' a']; cbn [app] in E.
    + injection E as -> _. inversion Ha; subst. congruence.
    + injection E as -> E. inversion Ha; inversion Ha'; subst.
      destruct (IH _ _ _ _ _ E) as (-> & -> & ->); auto.
Qed.

(** An element with [p] is not in a part without any. *)
Lemma split_after_quiet (pre : list A) : forall l before x after,
  (pre ++ l = before ++ x :: after)%list ->
  Forall (fun e => p e = false) pre -> p x = true ->
  exists b', before = (pre ++ b')%list /\ l = (b' ++ x :: after)%list.
Proof.
  induction pre as [|y pre IH]; intros l before x after E Hpre Hx.
  - exists before. auto.
  - inversion Hpre as [|? ? Hy Hpre']; subst.
    destruct before as [|z before]; cbn [app] in E.
    + injection E as -> _. congruence.
    + injection E as <- E.
      destruct (IH _ _ _ _ E Hpre' Hx) as (b' & -> & ->).
      now exists b'.
Qed.

End Splits.

Lemma last_event_app a : forall prev b,
  last_event prev (a ++ b)%list = last_event (last_event prev a) b.
Proof.
  induction a as [|x a IH]; intros prev b; cbn [app last_event];
    [reflexivity | apply IH].
Qed.

Lemma fetch_no_print es :
  Forall (fun ev => is_fetch ev = true) es ->
  Forall (fun ev => is_print ev = false) es.
Proof.
  induction 1 as [|e es He _ IH]; constructor; [|exact IH].
  destruct e; simpl in *; try discriminate; reflexivity.
Qed.

Lemma process_trace_first args repo pr gateway review_text es r :
  process_trace args repo pr gateway review_text es r ->
  exists es', es = E_print (heading (mode args) ++ NL ++ review_text) :: es'.
Proof.
  intros H. destruct H as [Hm | Hm | Hm Hs | e Hm Hs Hc | hc es r Hm Hs Hc Hl];
    rewrite Hm; eexists; reflexivity.
Qed.

(** X10: nothing is printed before the model has answered the call for the
    whole pull request: the first [print] of a run comes right after that
    call, the first model call of the run, and shows its answer under the
    heading of the mode. *)
Theorem first_print_is_the_review :
  forall (args : Args) (w : World) (repo : Repository) (pr : PullRequest)
         (gateway : LLM) (before : trace) (text : string) (after : trace),
    setup_ok args w repo pr gateway ->
    snd (run args w) = (before ++ E_print text :: after)%list ->
    (forall e, In e before -> is_print e = false) ->
    exists earlier content review_text,
      before
      = (earlier ++
         [E_generate_review content (mode args) (Ok review_text)])%list /\
      llm_calls earlier = [] /\
      text = heading (mode args) ++ NL ++ review_text.
Proof.
  intros args w repo pr gateway before text after Hsetup Htrace Hquiet.
  destruct (run_detail _ _ _ _ _ Hsetup) as (rest & r & Hrun & Htail).
  rewrite Hrun in Htrace. cbn [snd] in Htrace.
  pose proof (fetch_no_print _ (diff_events_fetch args repo pr)) as Hfetch.
  assert (Hpre : Forall (fun e => is_print e = false)
                   (setup_trace args ++ diff_events args repo pr)%list).
  { apply Forall_app. split; [repeat constructor | exact Hfetch]. }
  apply Forall_forall in Hquiet.
  destruct Htail as [e Hd | dc e Hd Hg | dc rt es r Hd Hg Hp].
  - rewrite app_nil_r in Htrace.
    assert (Hin : In (E_print text)
                    (setup_trace args ++ diff_events args repo pr)%list).
    { rewrite Htrace. apply in_or_app. right. now left. }
    rewrite Forall_forall in Hpre. apply Hpre in Hin. discriminate.
  - assert (Hall : Forall (fun e => is_print e = false)
                     ((setup_trace args ++ diff_events args repo pr) ++
                      [E_generate_review (build_content args pr dc)
                         (mode args) (Raise e)])%list).
    { apply Forall_app. split; [exact Hpre | now repeat constructor]. }
    rewrite Htrace in Hall. rewrite Forall_forall in Hall.
    specialize (Hall (E_print text)
                  ltac:(apply in_or_app; right; now left)).
    discriminate.
  - destruct (process_trace_first _ _ _ _ _ _ _ Hp) as (es' & ->).
    replace ((setup_trace args ++ diff_events args repo pr) ++
             E_generate_review (build_content args pr dc) (mode args) (Ok rt)
             :: E_print (heading (mode args) ++ NL ++ rt) :: es')%list
      with (((setup_trace args ++ diff_events args repo pr) ++
             [E_generate_review (build_content args pr dc) (mode args)
                (Ok rt)]) ++
            E_print (heading (mode args) ++ NL ++ rt) :: es')%list
      in Htrace by now rewrite <- app_assoc.
    apply (first_split_unique is_print) in Htrace
      as (<- & Heq & _); try reflexivity; try assumption.
    + injection Heq as <-.
      exists (setup_trace args ++ diff_events args repo pr)%list,
             (build_content args pr dc), rt.
      repeat split.
      rewrite llm_calls_app.
      now rewrite (llm_calls_fetch _ (diff_events_fetch args repo pr)).
    + apply Forall_app. split; [exact Hpre | now repeat constructor].
Qed.

Lemma first_print_is_the_review_example :
  exists earlier content review_text,
    firstn 5 (snd (run Sample.args (Sample.world "open")))
    = (earlier ++ [E_generate_review content comments (Ok review_text)])%list /\
    llm_calls earlier = [] /\
    "Code Issues:" ++ NL ++ "2 issues."
    = heading comments ++ NL ++ review_text.
Proof.
  apply (first_print_is_the_review
           Sample.args (Sample.world "open") (Sample.repo "open")
           (Sample.pr "open") Sample.gateway
           (firstn 5 (snd (run Sample.args (Sample.world "open"))))
           ("Code Issues:" ++ NL ++ "2 issues.")
           (skipn 6 (snd (run Sample.args (Sample.world "open"))))
           (sample_setup_ok "open")).
  - vm_compute. reflexivity.
  - intros e Hin. vm_compute in Hin.
    repeat (destruct Hin as [<-|Hin]; [reflexivity|]). contradiction.
Defined.



(** *** Where a run stops *)

Lemma stops_at_quiet e es :
  Forall (fun ev => is_fetch ev = true) es ->
  forall prev, stops_at e prev -> stops_at e (last_event prev es).
Proof.
  induction 1 as [|x es Hx _ IH]; intros prev Hprev; cbn [last_event].
  - exact Hprev.
  - apply IH. destruct x; simpl in *; try discriminate; exact I.
Qed.

Section Stops.

Variables (args : Args) (repo : Repository) (pr : PullRequest)
          (gateway : LLM).

Lemma comment_trace_stops head_commit file diff chunk es e :
  comment_trace args gateway head_commit file diff chunk es (Raise e) ->
  forall prev, stops_at e (last_event prev es).
Proof. intros H prev. inversion H; subst. reflexivity. Qed.

Lemma file_trace_stops head_commit file es e :
  file_trace args repo pr gateway head_commit file es (Raise e) ->
  forall prev, stops_at e (last_event prev es).
Proof.
  intros H prev. inversion H; subst.
  - exact I.
  - cbn [last_event]. eapply comment_trace_stops. eassumption.
  - eapply comment_trace_stops. eassumption.
Qed.

Lemma loop_trace_stops head_commit files es r :
  loop_trace args repo pr gateway head_commit files es r ->
  forall e, r = Raise e -> forall prev, stops_at e (last_event prev es).
Proof.
  induction 1 as [| file files es1 es2 r H1 H2 IH | file files es e' H1];
    intros e Hr prev.
  - discriminate.
  - rewrite last_event_app. now apply IH.
  - injection Hr as ->. eapply file_trace_stops. eassumption.
Qed.

Lemma process_trace_stops review_text es e :
  process_trace args repo pr gateway review_text es (Raise e) ->
  forall prev, stops_at e (last_event prev es).
Proof.
  intros H prev. inversion H; subst.
  - exact I.
  - cbn [last_event]. eapply loop_trace_stops; [eassumption | reflexivity].
Qed.

Lemma tail_trace_stops t1 rest e :
  tail_trace args repo pr gateway t1 rest (Raise e) ->
  forall prev, stops_at e prev -> stops_at e (last_event prev rest).
Proof.
  intros H prev Hprev. inversion H; subst.
  - exact Hprev.
  - reflexivity.
  - cbn [last_event]. eapply process_trace_stops. eassumption.
Qed.

End Stops.

(** X12: a run that ends with an exception stops at the call that raised
    it: its last event is never a [print] and never the creation of a
    comment (a posting error is not what ends a run), and when it is a model
    call, that call raised the exception of the run. *)
Theorem run_stops_at_the_raising_call :
  forall (args : Args) (w : World) (e : exception),
    fst (run args w) = Raise e ->
    stops_at e (last_event None (snd (run args w))).
Proof.
  intros args w e Hr.
  destruct (run_setup_cases args w)
    as [(repo & pr & gw & Hsetup) | (e' & n & Hrun)].
  - destruct (run_detail _ _ _ _ _ Hsetup) as (rest & r & Hrun & Htail).
    rewrite Hrun in Hr |- *. cbn [fst snd] in *. subst r.
    rewrite !last_event_app.
    eapply tail_trace_stops; [eassumption|].
    apply stops_at_quiet; [apply diff_events_fetch | exact I].
  - rewrite Hrun. cbn [snd].
    destruct n as [|[|[|[|n]]]]; exact I.
Qed.

Lemma run_stops_at_the_raising_call_example :
  stops_at Sample.rate_limited
    (last_event None
       (snd (run Sample.args Sample.world_with_failing_gateway))).
Proof.
  apply (run_stops_at_the_raising_call
           Sample.args Sample.world_with_failing_gateway Sample.rate_limited).
  reflexivity.
Defined.

(** *** What follows the creation of a comment, and where comments go *)

Lemma posting_announced_extends e t t' :
  posting_announced e t -> posting_announced e (t ++ t')%list.
Proof.
  destruct e as [| | | | | | |body commit path line side [[]|ex]|]; simpl;
    try (intros; exact I).
  intros (after' & ->). now exists (after' ++ t')%list.
Qed.

Lemma posting_announced_quiet e t :
  is_comment_creation e = false -> posting_announced e t.
Proof. destruct e; simpl; try discriminate; intros; exact I. Qed.

Lemma commit_reads_app a b :
  commit_reads (a ++ b)%list = commit_reads a + commit_reads b.
Proof.
  induction a as [|e a IH]; [reflexivity|].
  destruct e; cbn [app commit_reads]; now rewrite ?IH.
Qed.

Lemma comment_targets_app a b :
  comment_targets (a ++ b)%list
  = (comment_targets a ++ comment_targets b)%list.
Proof.
  induction a as [|e a IH]; [reflexivity|].
  destruct e; cbn [app comment_targets]; now rewrite ?IH.
Qed.

Lemma comment_targets_quiet es :
  Forall (fun ev => is_comment_creation ev = false) es ->
  comment_targets es = [].
Proof.
  induction 1 as [|e es He _ IH]; [reflexivity|].
  destruct e; simpl in *; try discriminate; exact IH.
Qed.

Lemma commit_reads_fetch es :
  Forall (fun ev => is_fetch ev = true) es -> commit_reads es = 0.
Proof.
  induction 1 as [|e es He _ IH]; [reflexivity|].
  destruct e; simpl in *; try discriminate; exact IH.
Qed.

Lemma commit_reads_loop head_commit es :
  Forall (loop_event_ok head_commit) es -> commit_reads es = 0.
Proof.
  induction 1 as [|e es He _ IH]; [reflexivity|].
  destruct e; simpl in *; try contradiction; exact IH.
Qed.

Lemma Subseq_app {A} (a b c d : list A) :
  Subseq a b -> Subseq c d -> Subseq (a ++ c)%list (b ++ d)%list.
Proof.
  intros Hab Hcd. induction Hab as [l | x l1 l2 _ IH | x l1 l2 _ IH].
  - cbn [app]. induction l as [|x l IH]; [exact Hcd | now apply Subseq_skip].
  - now apply Subseq_skip.
  - now apply Subseq_take.
Qed.

Lemma Subseq_length {A} (a b : list A) :
  Subseq a b -> List.length a <= List.length b.
Proof. induction 1; cbn [List.length]; lia. Qed.

Section LoopEvents.

Variables (args : Args) (repo : Repository) (pr : PullRequest)
          (gateway : LLM) (head_commit : Commit).

Lemma comment_trace_events file diff chunk es r :
  comment_trace args gateway head_commit file diff chunk es r ->
  Forall (loop_event_ok head_commit) es /\
  followed posting_announced es /\
  Subseq (comment_targets es) [target_of (file, diff)].
Proof.
  intros H. destruct H; (split; [|split]).
  - now repeat constructor.
  - simpl. auto.
  - constructor.
  - now repeat constructor.
  - simpl. auto.
  - constructor.
  - now repeat constructor.
  - simpl. repeat split. eexists. reflexivity.
  - apply Subseq_take. constructor.
  - now repeat constructor.
  - simpl. auto.
  - apply Subseq_take. constructor.
Qed.

Lemma file_trace_events file es r rest :
  file_trace args repo pr gateway head_commit file es r ->
  Forall (loop_event_ok head_commit) es /\
  followed posting_announced es /\
  exists kept,
    Subseq (comment_targets es) (map target_of kept) /\
    patched (file :: rest) = (kept ++ patched rest)%list.
Proof.
  intros H.
  destruct H as [Hskip | diff e Hp Ht Hf Hc
                 | diff file_content es r Hp Ht Hf Hc Hct
                 | diff es r Hp Ht Hf Hct].
  - split; [constructor | split; [exact I|]].
    exists []. split; [constructor|].
    cbn [patched app]. unfold PyStr.truthy_opt in Hskip.
    destruct (patch file) as [d|]; [|reflexivity]. now rewrite Hskip.
  - split; [now repeat constructor | split; [simpl; auto|]].
    exists [(file, diff)]. split; [constructor|].
    cbn [patched app]. now rewrite Hp, Ht.
  - destruct (comment_trace_events _ _ _ _ _ Hct) as (H1 & H2 & H3).
    split; [now constructor | split; [simpl; auto|]].
    exists [(file, diff)]. split; [exact H3|].
    cbn [patched app]. now rewrite Hp, Ht.
  - destruct (comment_trace_events _ _ _ _ _ Hct) as (H1 & H2 & H3).
    split; [exact H1 | split; [exact H2|]].
    exists [(file, diff)]. split; [exact H3|].
    cbn [patched app]. now rewrite Hp, Ht.
Qed.

Lemma loop_trace_events files es r :
  loop_trace args repo pr gateway head_commit files es r ->
  Forall (loop_event_ok head_commit) es /\
  followed posting_announced es /\
  Subseq (comment_targets es) (map target_of (patched files)).
Proof.
  induction 1 as [| file files es1 es2 r H1 H2 IH | file files es e H1].
  - split; [constructor | split; [exact I | constructor]].
  - destruct (file_trace_events _ _ _ files H1)
      as (F1 & P1 & kept & S1 & ->).
    destruct IH as (F2 & P2 & S2).
    split; [|split].
    + apply Forall_app. now split.
    + apply followed_app;
        [exact posting_announced_extends | exact P1 | exact P2].
    + rewrite comment_targets_app, map_app. now apply Subseq_app.
  - destruct (file_trace_events _ _ _ files H1)
      as (F1 & P1 & kept & S1 & ->).
    split; [exact F1 | split; [exact P1|]].
    rewrite map_app, <- (app_nil_r (comment_targets es)).
    apply Subseq_app; [exact S1 | constructor].
Qed.

End LoopEvents.

(** The tail of a run either creates no comment, or is four events and then
    the loop over the changed files. *)
Lemma tail_trace_loop args repo pr gateway t1 rest r :
  tail_trace args repo pr gateway t1 rest r ->
  (Forall (fun ev => is_comment_creation ev = false) rest /\
   commit_reads rest <= 1) \/
  exists pre head_commit es,
    rest = (pre ++ es)%list /\
    Forall (fun ev => is_comment_creation ev = false) pre /\
    commit_reads pre = 1 /\
    In (E_get_commit (sha (head pr))) pre /\
    get_commit repo (sha (head pr)) = Ok head_commit /\
    loop_trace args repo pr gateway head_commit (get_files pr) es r.
Proof.
  intros H.
  destruct H as [e Hd | dc e Hd Hg | dc rt es r Hd Hg Hp].
  - left. split; [constructor | cbn; lia].
  - left. split; [now repeat constructor | cbn; lia].
  - destruct Hp as [Hm | Hm | Hm Hs | e Hm Hs Hc | hc es r Hm Hs Hc Hl].
    + left. split; [now repeat constructor | cbn; lia].
    + left. split; [now repeat constructor | cbn; lia].
    + left. split; [now repeat constructor | cbn; lia].
    + left. split; [now repeat constructor | cbn; lia].
    + right.
      exists [E_generate_review (build_content args pr dc) (mode args) (Ok rt);
              E_print ("Code Issues:" ++ NL ++ rt);
              E_get_commit (sha (head pr)); E_get_files], hc, es.
      repeat split; try assumption; try (now repeat constructor).
Qed.

Lemma run_followed_announced args w repo pr gateway :
  setup_ok args w repo pr gateway ->
  followed posting_announced (snd (run args w)).
Proof.
  intros Hsetup.
  destruct (run_detail _ _ _ _ _ Hsetup) as (rest & r & -> & Htail).
  cbn [snd].
  assert (Hq : forall es, Forall (fun ev => is_comment_creation ev = false) es ->
                          followed posting_announced es).
  { intros es. apply quiet_followed. exact posting_announced_quiet. }
  apply followed_app; [exact posting_announced_extends | |].
  - apply Hq. apply Forall_app. split; [now repeat constructor|].
    apply fetch_no_creation, diff_events_fetch.
  - destruct (tail_trace_loop _ _ _ _ _ _ _ Htail)
      as [[Hquiet _] | (pre & hc & es & -> & Hpre & _ & _ & _ & Hloop)].
    + now apply Hq.
    + apply followed_app; [exact posting_announced_extends | now apply Hq|].
      now apply loop_trace_events in Hloop.
Qed.

(** X13: a creation of a comment that returns is followed at once by the
    [print] of [Posted comment on <path> at line <line>: <body>], with the
    path, the line and the body of that creation. *)
Theorem posted_comment_is_announced :
  forall (args : Args) (w : World) (repo : Repository) (pr : PullRequest)
         (gateway : LLM) (before : trace) (body commit path : string)
         (line : Z) (side : string) (after : trace),
    setup_ok args w repo pr gateway ->
    snd (run args w)
    = (before ++
       E_create_review_comment body commit path line side (Ok tt)
       :: after)%list ->
    exists after',
      after
      = E_print ("Posted comment on " ++ path ++ " at line " ++
                 PyStr.str line ++ ": " ++ body) :: after'.
Proof.
  intros args w repo pr gateway before body commit path line side after
         Hsetup Htrace.
  pose proof (run_followed_announced _ _ _ _ _ Hsetup) as H.
  rewrite Htrace in H. apply followed_split in H. exact H.
Qed.

Lemma posted_comment_is_announced_example :
  exists after',
    skipn 14 (snd (run Sample.args (Sample.world "open")))
    = E_print "Posted comment on c.py at line 10: AI Issue: q shadows a builtin."
      :: after'.
Proof.
  apply (posted_comment_is_announced
           Sample.args (Sample.world "open") (Sample.repo "open")
           (Sample.pr "open") Sample.gateway
           (firstn 13 (snd (run Sample.args (Sample.world "open"))))
           "AI Issue: q shadows a builtin." "c0ffee" "c.py" 10 "RIGHT"
           (skipn 14 (snd (run Sample.args (Sample.world "open"))))
           (sample_setup_ok "open")).
  vm_compute. reflexivity.
Defined.

Lemma setup_and_diff_quiet args repo pr :
  Forall (fun ev => is_comment_creation ev = false)
    (setup_trace args ++ diff_events args repo pr)%list /\
  commit_reads (setup_trace args ++ diff_events args repo pr)%list = 0.
Proof.
  split.
  - apply Forall_app. split; [now repeat constructor|].
    apply fetch_no_creation, diff_events_fetch.
  - rewrite commit_reads_app.
    now rewrite (commit_reads_fetch _ (diff_events_fetch args repo pr)).
Qed.

(** X14: a run reads the head commit at most once, and every comment it
    tries to create is attached to the commit that this one read returned,
    the read having come before. *)
Theorem head_commit_is_read_once :
  forall (args : Args) (w : World) (repo : Repository) (pr : PullRequest)
         (gateway : LLM),
    setup_ok args w repo pr gateway ->
    commit_reads (snd (run args w)) <= 1 /\
    forall (before : trace) (body commit path : string) (line : Z)
           (side : string) (answer : result unit) (after : trace),
      snd (run args w)
      = (before ++
         E_create_review_comment body commit path line side answer
         :: after)%list ->
      exists head_commit,
        get_commit repo (sha (head pr)) = Ok head_commit /\
        commit = sha head_commit /\
        In (E_get_commit (sha (head pr))) before.
Proof.
  intros args w repo pr gateway Hsetup.
  destruct (run_detail _ _ _ _ _ Hsetup) as (rest & r & -> & Htail).
  cbn [snd].
  destruct (setup_and_diff_quiet args repo pr) as [Hq0 Hc0].
  destruct (tail_trace_loop _ _ _ _ _ _ _ Htail)
    as [[Hquiet Hreads]
       | (pre & hc & es & -> & Hpre & Hreads & Hin & Hcommit & Hloop)].
  - split; [rewrite commit_reads_app; lia|].
    intros before body commit path line side answer after Htrace.
    assert (Hall : Forall (fun ev => is_comment_creation ev = false)
                     ((setup_trace args ++ diff_events args repo pr) ++ rest)%list)
      by (apply Forall_app; now split).
    rewrite Htrace in Hall. rewrite Forall_forall in Hall.
    specialize (Hall _ ltac:(apply in_or_app; right; now left)).
    discriminate.
  - apply loop_trace_events in Hloop as (Hok & _ & _).
    split.
    + rewrite commit_reads_app, Hc0, commit_reads_app, Hreads.
      rewrite (commit_reads_loop _ _ Hok). lia.
    + intros before body commit path line side answer after Htrace.
      rewrite app_assoc in Htrace.
      apply (split_after_quiet is_comment_creation) in Htrace
        as (b' & -> & Hes); [| apply Forall_app; now split | reflexivity].
      exists hc. split; [exact Hcommit | split].
      * rewrite Hes in Hok. rewrite Forall_forall in Hok.
        exact (Hok _ ltac:(apply in_or_app; right; now left)).
      * apply in_or_app. left. apply in_or_app. now right.
Qed.

Lemma run_comment_targets args w repo pr gateway :
  setup_ok args w repo pr gateway ->
  Subseq (comment_targets (snd (run args w)))
    (map target_of (patched (get_files pr))).
Proof.
  intros Hsetup.
  destruct (run_detail _ _ _ _ _ Hsetup) as (rest & r & -> & Htail).
  cbn [snd].
  destruct (setup_and_diff_quiet args repo pr) as [Hq0 _].
  rewrite comment_targets_app, (comment_targets_quiet _ Hq0). cbn [app].
  destruct (tail_trace_loop _ _ _ _ _ _ _ Htail)
    as [[Hquiet _] | (pre & hc & es & -> & Hpre & _ & _ & _ & Hloop)].
  - rewrite (comment_targets_quiet _ Hquiet). constructor.
  - rewrite comment_targets_app, (comment_targets_quiet _ Hpre). cbn [app].
    now apply loop_trace_events in Hloop.
Qed.

(** X15: the comments a run tries to create go to changed files with a
    non-empty patch, each at the line the locator gives for that patch, in
    the order of the files and at most one for a file of the list. *)
Theorem comments_follow_the_files :
  forall (args : Args) (w : World) (repo : Repository) (pr : PullRequest)
         (gateway : LLM),
    setup_ok args w repo pr gateway ->
    Subseq (comment_targets (snd (run args w)))
      (map target_of (patched (get_files pr))) /\
    List.length (comment_targets (snd (run args w)))
    <= List.length (patched (get_files pr)).
Proof.
  intros args w repo pr gateway Hsetup.
  pose proof (run_comment_targets _ _ _ _ _ Hsetup) as H.
  split; [exact H|].
  apply Subseq_length in H. now rewrite length_map in H.
Qed.

Lemma head_commit_is_read_once_example :
  commit_reads (snd (run Sample.args (Sample.world "open"))) <= 1 /\
  exists head_commit,
    get_commit (Sample.repo "open") (sha (head (Sample.pr "open")))
    = Ok head_commit /\
    "c0ffee" = sha head_commit.
Proof.
  destruct (head_commit_is_read_once
              Sample.args (Sample.world "open") (Sample.repo "open")
              (Sample.pr "open") Sample.gateway (sample_setup_ok "open"))
    as [Hreads Hcommit].
  split; [exact Hreads|].
  destruct (Hcommit
              (firstn 13 (snd (run Sample.args (Sample.world "open"))))
              "AI Issue: q shadows a builtin." "c0ffee" "c.py" 10%Z "RIGHT"
              (Ok tt)
              (skipn 14 (snd (run Sample.args (Sample.world "open"))))
              ltac:(vm_compute; reflexivity))
    as (hc & H1 & H2 & _).
  exists hc. now split.
Defined.

Lemma comments_follow_the_files_example :
  Subseq [("a.py", 2%Z); ("c.py", 10%Z)]
         [("a.py", 2%Z); ("b.py", 5%Z); ("c.py", 10%Z)].
Proof.
  exact (proj1 (comments_follow_the_files
                  Sample.args (Sample.world "open") (Sample.repo "open")
                  (Sample.pr "open") Sample.gateway (sample_setup_ok "open"))).
Defined.

(** *** The contents that are fetched *)

Section Contents.

Variables (args : Args) (repo : Repository) (pr : PullRequest)
          (gateway : LLM).

Lemma collect_all_content_fetches files :
  (forall fd, In fd (patched files) -> In fd (patched (get_files pr))) ->
  full_context args = true ->
  forall all_content t,
    exists es,
      snd (collect_all_content repo pr files all_content t) = (t ++ es)%list /\
      Forall (contents_fetch_ok args pr) es.
Proof.
  intros Hsub Hf.
  induction files as [|file rest IH]; intros all_content t; simpl.
  - exists []. now rewrite app_nil_r.
  - destruct (patch file) as [diff|] eqn:Hp.
    2:{ apply IH. intros fd Hin. apply Hsub. simpl. now rewrite Hp. }
    destruct (PyStr.truthy diff) eqn:Ht.
    2:{ apply IH. intros fd Hin. apply Hsub. simpl. now rewrite Hp, Ht. }
    assert (Hev : contents_fetch_ok args pr
                    (E_get_contents (filename file) (sha (head pr)))).
    { simpl. repeat split; [exact Hf|]. exists file, diff.
      split; [|reflexivity]. apply Hsub. simpl. rewrite Hp, Ht. now left. }
    unfold bind, call_get_contents, call.
    destruct (get_contents repo (filename file) (sha (head pr))) as [fc|e].
    + destruct (IH ltac:(intros fd Hin; apply Hsub; simpl;
                         rewrite Hp, Ht; now right)
                  (all_content ++ [full_context_block (filename file) fc diff])%list
                  (t ++ [E_get_contents (filename file) (sha (head pr))])%list)
        as (es & -> & Hes).
      exists (E_get_contents (filename file) (sha (head pr)) :: es).
      split; [now regroup | constructor; assumption].
    + exists [E_get_contents (filename file) (sha (head pr))].
      split; [reflexivity | constructor; [exact Hev | constructor]].
Qed.

Lemma diff_events_contents :
  Forall (contents_fetch_ok args pr) (diff_events args repo pr).
Proof.
  unfold diff_events, build_diff_content.
  destruct (full_context args) eqn:Hf.
  - unfold bind at 1. unfold call_get_files, call. cbn [app].
    destruct (collect_all_content_fetches (get_files pr) (fun _ H => H) Hf
                [] [E_get_files]) as (es & Hsnd & Hes).
    unfold bind, ret.
    destruct (collect_all_content repo pr (get_files pr) [] [E_get_files])
      as [[l|e] t'] eqn:E; cbn [snd] in Hsnd |- *; subst t';
      constructor; try exact I; exact Hes.
  - now repeat constructor.
Qed.

Lemma comment_trace_contents head_commit file diff chunk es r :
  comment_trace args gateway head_commit file diff chunk es r ->
  Forall (contents_fetch_ok args pr) es.
Proof. intros H. destruct H; now repeat constructor. Qed.

Lemma file_trace_contents head_commit file es r :
  In file (get_files pr) ->
  file_trace args repo pr gateway head_commit file es r ->
  Forall (contents_fetch_ok args pr) es.
Proof.
  intros Hin H.
  destruct H as [Hskip | diff e Hp Ht Hf Hc
                 | diff file_content es r Hp Ht Hf Hc Hct
                 | diff es r Hp Ht Hf Hct].
  - constructor.
  - constructor; [|constructor]. simpl. repeat split; [exact Hf|].
    exists file, diff. split; [now apply patched_In | reflexivity].
  - constructor; [|eapply comment_trace_contents; eassumption].
    simpl. repeat split; [exact Hf|].
    exists file, diff. split; [now apply patched_In | reflexivity].
  - eapply comment_trace_contents; eassumption.
Qed.

Lemma loop_trace_contents head_commit files es r :
  (forall file, In file files -> In file (get_files pr)) ->
  loop_trace args repo pr gateway head_commit files es r ->
  Forall (contents_fetch_ok args pr) es.
Proof.
  intros Hsub H.
  induction H as [| file files es1 es2 r H1 H2 IH | file files es e H1].
  - constructor.
  - apply Forall_app. split.
    + eapply file_trace_contents; [|eassumption]. apply Hsub. now left.
    + apply IH. intros f Hf. apply Hsub. now right.
  - eapply file_trace_contents; [|eassumption]. apply Hsub. now left.
Qed.

Lemma tail_trace_contents t1 rest r :
  tail_trace args repo pr gateway t1 rest r ->
  Forall (contents_fetch_ok args pr) rest.
Proof.
  intros H.
  destruct H as [e Hd | dc e Hd Hg | dc rt es r Hd Hg Hp];
    [constructor | now repeat constructor |].
  constructor; [exact I|].
  destruct Hp as [Hm | Hm | Hm Hs | e Hm Hs Hc | hc es r Hm Hs Hc Hl];
    try (now repeat constructor).
  repeat (constructor; [exact I|]).
  eapply loop_trace_contents; [|eassumption]. auto.
Qed.

End Contents.

Lemma run_contents_fetches args w repo pr gateway :
  setup_ok args w repo pr gateway ->
  Forall (contents_fetch_ok args pr) (snd (run args w)).
Proof.
  intros Hsetup.
  destruct (run_detail _ _ _ _ _ Hsetup) as (rest & r & -> & Htail).
  cbn [snd]. repeat (apply Forall_app; split).
  - now repeat constructor.
  - apply diff_events_contents.
  - eapply tail_trace_contents; eassumption.
Qed.

(** X16: the content of a file is fetched only with [--full-context], only
    at the head commit of the pull request, and only for a changed file with
    a non-empty patch; a diff-only run never calls [get_contents]. *)
Theorem contents_fetched_only_for_full_context :
  forall (args : Args) (w : World) (repo : Repository) (pr : PullRequest)
         (gateway : LLM) (path ref : string),
    setup_ok args w repo pr gateway ->
    In (E_get_contents path ref) (snd (run args w)) ->
    full_context args = true /\
    ref = sha (head pr) /\
    exists file diff,
      In file (get_files pr) /\ patch file = Some diff /\ diff <> "" /\
      path = filename file.
Proof.
  intros args w repo pr gateway path ref Hsetup Hin.
  pose proof (run_contents_fetches _ _ _ _ _ Hsetup) as Hall.
  rewrite Forall_forall in Hall. specialize (Hall _ Hin).
  destruct Hall as (Hf & Href & file & diff & Hpatched & ->).
  apply patched_elim in Hpatched as (H1 & H2 & H3).
  repeat split; try assumption.
  exists file, diff. repeat split; auto using truthy_not_empty.
Qed.

Lemma contents_fetched_only_for_full_context_example :
  full_context Sample.args_general = true /\
  "c0ffee" = sha (head (Sample.pr "open")) /\
  exists file diff,
    In file (get_files (Sample.pr "open")) /\ patch file = Some diff /\
    diff <> "" /\ "b.py" = filename file.
Proof.
  apply (contents_fetched_only_for_full_context
           Sample.args_general (Sample.world "open") (Sample.repo "open")
           (Sample.pr "open") Sample.gateway "b.py" "c0ffee").
  - exists "ghp_0123". repeat split.
  - vm_compute. tauto.
Defined.

(** *** The diffs of the content *)

Lemma prefix_app (p a b : string) :
  String.prefix p a = true -> String.prefix p (a ++ b) = true.
Proof.
  revert a. induction p as [|c p IH]; intros a H.
  - now destruct (a ++ b).
  - destruct a as [|d a]; [discriminate|]. simpl in H |- *.
    destruct (ascii_dec c d); [now apply IH | discriminate].
Qed.

Lemma prefix_self (p : string) : String.prefix p p = true.
Proof.
  induction p as [|c p IH]; [reflexivity|]. simpl.
  now destruct (ascii_dec c c).
Qed.

Lemma contains_self s : PyStr.contains s s = true.
Proof.
  destruct s; [reflexivity|].
  cbn [PyStr.contains]. unfold PyStr.startswith. now rewrite prefix_self.
Qed.

Lemma contains_app_l a b sub :
  PyStr.contains a sub = true -> PyStr.contains (a ++ b) sub = true.
Proof.
  induction a as [|c a IH]; intros H; simpl in H.
  - rewrite orb_false_r in H. unfold PyStr.startswith in H.
    destruct sub; [|discriminate].
    destruct b; reflexivity.
  - apply orb_true_iff in H as [H | H]; cbn [append PyStr.contains];
      apply orb_true_iff.
    + left. now apply (prefix_app sub (String c a) b).
    + right. now apply IH.
Qed.

Lemma contains_app_r a b sub :
  PyStr.contains b sub = true -> PyStr.contains (a ++ b) sub = true.
Proof.
  intros H. induction a as [|c a IH]; [exact H|].
  cbn [append PyStr.contains]. apply orb_true_iff. now right.
Qed.

Lemma patch_blocks_patched files :
  patch_blocks files = map (fun fd => snd fd ++ NL ++ SEPARATOR) (patched files).
Proof.
  induction files as [|file rest IH]; [reflexivity|]. simpl.
  destruct (patch file) as [diff|]; [|exact IH].
  destruct (PyStr.truthy diff); [|exact IH].
  cbn [map snd]. now rewrite IH.
Qed.

Section DiffContent.

Variables (args : Args) (repo : Repository) (pr : PullRequest).

Hypothesis Hfull : full_context args = true.

Lemma collect_all_content_result files : forall all_content t l,
  fst (collect_all_content repo pr files all_content t) = Ok l ->
  l = (all_content ++ map (block_of args repo pr) (patched files))%list.
Proof.
  induction files as [|file rest IH]; intros all_content t l H; simpl in H.
  - injection H as <-. cbn [patched map]. now rewrite app_nil_r.
  - cbn [patched].
    destruct (patch file) as [diff|]; [|now apply (IH _ t)].
    destruct (PyStr.truthy diff); [|now apply (IH _ t)].
    unfold bind, call_get_contents, call in H.
    destruct (get_contents repo (filename file) (sha (head pr)))
      as [fc|e] eqn:Hc; [|discriminate].
    apply IH in H. rewrite H, <- app_assoc. cbn [map app].
    unfold block_of, file_content_of. cbn [fst snd].
    now rewrite Hfull, Hc.
Qed.

(** The first kept file whose content cannot be fetched ends the loop of
    lines 69-72. *)
Lemma collect_all_content_raises files : forall fetched file diff rest e,
  patched files = (fetched ++ (file, diff) :: rest)%list ->
  (forall fd, In fd fetched ->
     exists fc,
       get_contents repo (filename (fst fd)) (sha (head pr)) = Ok fc) ->
  get_contents repo (filename file) (sha (head pr)) = Raise e ->
  forall all_content t,
    fst (collect_all_content repo pr files all_content t) = Raise e.
Proof.
  induction files as [|f files IH];
    intros fetched file diff rest e Hp Hok Hraise all_content t.
  - now destruct fetched.
  - cbn [patched] in Hp. simpl.
    destruct (patch f) as [d|]; [|now apply (IH fetched file diff rest)].
    destruct (PyStr.truthy d); [|now apply (IH fetched file diff rest)].
    unfold bind, call_get_contents, call.
    destruct fetched as [|fd fetched]; cbn [app] in Hp.
    + injection Hp as -> -> _. now rewrite Hraise.
    + injection Hp as <- Hp.
      destruct (Hok (f, d) (or_introl eq_refl)) as [fc Hfc].
      cbn [fst] in Hfc. rewrite Hfc.
      apply (IH fetched file diff rest); try assumption.
      intros fd Hin. apply Hok. now right.
Qed.

End DiffContent.

Lemma collect_all_content_nothing repo pr files :
  patched files = [] ->
  forall all_content t,
    collect_all_content repo pr files all_content t = (Ok all_content, t).
Proof.
  induction files as [|file rest IH]; intros Hp all_content t; simpl.
  - reflexivity.
  - cbn [patched] in Hp.
    destruct (patch file) as [diff|]; [|now apply IH].
    destruct (PyStr.truthy diff); [discriminate | now apply IH].
Qed.

Lemma diff_content_blocks args repo pr diff_content :
  diff_content_of args repo pr = Ok diff_content ->
  diff_content
  = PyStr.join (block_separator args)
      (map (block_of args repo pr) (patched (get_files pr))).
Proof.
  unfold diff_content_of, build_diff_content, block_separator.
  destruct (full_context args) eqn:Hf.
  - unfold bind, call_get_files, call, ret. cbn [app].
    destruct (collect_all_content repo pr (get_files pr) [] [E_get_files])
      as [[l|e] t'] eqn:E; cbn [fst]; [|discriminate].
    intros H. injection H as <-.
    assert (Hl : fst (collect_all_content repo pr (get_files pr) []
                        [E_get_files]) = Ok l) by now rewrite E.
    apply (collect_all_content_result args repo pr Hf) in Hl.
    now rewrite Hl.
  - unfold bind, call_get_files, call, ret. cbn [fst].
    intros H. injection H as <-. rewrite patch_blocks_patched.
    f_equal. apply map_ext. intros fd. unfold block_of. now rewrite Hf.
Qed.

Lemma block_of_holds_patch args repo pr fd :
  PyStr.contains (block_of args repo pr fd) (snd fd ++ NL ++ SEPARATOR)
  = true.
Proof.
  unfold block_of, full_context_block.
  destruct (full_context args); [|apply contains_self].
  repeat (apply contains_app_r; try apply contains_self).
Qed.

(** X17: the diffs sent for the whole pull request are the blocks of the
    changed files with a non-empty patch, in their order, joined by a
    newline (by an empty line with [--full-context]); so the content of the
    first model call holds every such patch, each followed by the line of 16
    dashes. *)
Theorem content_holds_every_patch :
  forall (args : Args) (repo : Repository) (pr : PullRequest)
         (diff_content : string),
    diff_content_of args repo pr = Ok diff_content ->
    diff_content
    = PyStr.join (block_separator args)
        (map (block_of args repo pr) (patched (get_files pr))) /\
    forall file diff,
      In (file, diff) (patched (get_files pr)) ->
      PyStr.contains (build_content args pr diff_content)
        (diff ++ NL ++ SEPARATOR) = true.
Proof.
  intros args repo pr diff_content Hd.
  pose proof (diff_content_blocks _ _ _ _ Hd) as Hblocks.
  split; [exact Hblocks|].
  intros file diff Hin. rewrite build_content_eq.
  do 3 apply contains_app_r. rewrite Hblocks.
  assert (Hb : In (block_of args repo pr (file, diff))
                 (map (block_of args repo pr) (patched (get_files pr))))
    by now apply in_map.
  pose proof (block_of_holds_patch args repo pr (file, diff)) as Hc.
  cbn [snd] in Hc.
  revert Hb Hc.
  generalize (block_of args repo pr (file, diff)).
  generalize (map (block_of args repo pr) (patched (get_files pr))).
  intros blocks b Hb Hc.
  induction blocks as [|x rest IH]; [contradiction|].
  destruct rest as [|y rest].
  - destruct Hb as [<-|[]]. exact Hc.
  - change (PyStr.join (block_separator args) (x :: y :: rest))
      with (x ++ block_separator args ++
            PyStr.join (block_separator args) (y :: rest)).
    destruct Hb as [<-|Hb].
    + now apply contains_app_l.
    + apply contains_app_r, contains_app_r. now apply IH.
Qed.

Lemma content_holds_every_patch_example :
  PyStr.contains
    (build_content Sample2.args_full (Sample.pr "open")
       (PyStr.join (NL ++ NL)
          [full_context_block "a.py" "# a.py" Sample.patch_a;
           full_context_block "b.py" "# b.py" Sample.patch_b;
           full_context_block "c.py" "# c.py" Sample.patch_c]))
    (Sample.patch_b ++ NL ++ SEPARATOR) = true.
Proof.
  apply (proj2 (content_holds_every_patch
                  Sample2.args_full (Sample.repo "open") (Sample.pr "open")
                  _ eq_refl)
           {| filename := "b.py"; patch := Some Sample.patch_b |}).
  right. now left.
Defined.

(** *** Files without a patch *)

Section KeepPatched.

Variables (args : Args) (repo : Repository) (pr : PullRequest)
          (gateway : LLM).

Lemma patched_keep files : patched (map fst (patched files)) = patched files.
Proof.
  induction files as [|file rest IH]; [reflexivity|]. cbn [patched].
  destruct (patch file) as [diff|] eqn:Hp; [|exact IH].
  destruct (PyStr.truthy diff) eqn:Ht; [|exact IH].
  cbn [map fst patched]. now rewrite Hp, Ht, IH.
Qed.

Lemma collect_all_content_keep files : forall all_content t,
  collect_all_content repo pr (map fst (patched files)) all_content t
  = collect_all_content repo pr files all_content t.
Proof.
  induction files as [|file rest IH]; intros all_content t; [reflexivity|].
  cbn [patched collect_all_content].
  destruct (patch file) as [diff|] eqn:Hp; [|apply IH].
  destruct (PyStr.truthy diff) eqn:Ht; [|apply IH].
  cbn [map fst collect_all_content]. rewrite Hp, Ht.
  unfold bind.
  destruct (call_get_contents repo (filename file) (sha (head pr)) t)
    as [[fc|e] t']; [apply IH | reflexivity].
Qed.

Lemma collect_all_content_same files : forall all_content t,
  collect_all_content (keep_patched_repo repo) (keep_patched pr) files
    all_content t
  = collect_all_content repo pr files all_content t.
Proof.
  induction files as [|file rest IH]; intros all_content t; [reflexivity|].
  cbn [collect_all_content].
  destruct (patch file) as [diff|]; [|apply IH].
  destruct (PyStr.truthy diff); [|apply IH].
  unfold bind, call_get_contents, call.
  cbn [get_contents keep_patched_repo head keep_patched].
  destruct (get_contents repo (filename file) (sha (head pr)));
    [apply IH | reflexivity].
Qed.

Lemma patch_blocks_keep files :
  patch_blocks (map fst (patched files)) = patch_blocks files.
Proof. now rewrite !patch_blocks_patched, patched_keep. Qed.

Lemma for_each_keep head_commit files : forall t,
  for_each (map fst (patched files))
    (review_file args repo pr gateway head_commit) t
  = for_each files (review_file args repo pr gateway head_commit) t.
Proof.
  induction files as [|file rest IH]; intros t; [reflexivity|].
  cbn [patched for_each].
  destruct (patch file) as [diff|] eqn:Hp.
  2:{ assert (Hskip : review_file args repo pr gateway head_commit file t
                      = (Ok tt, t))
        by (unfold review_file; now rewrite Hp).
      unfold bind. rewrite Hskip. apply IH. }
  destruct (PyStr.truthy diff) eqn:Ht.
  2:{ assert (Hskip : review_file args repo pr gateway head_commit file t
                      = (Ok tt, t))
        by (unfold review_file; now rewrite Hp, Ht).
      unfold bind. rewrite Hskip. apply IH. }
  cbn [map fst for_each]. unfold bind.
  destruct (review_file args repo pr gateway head_commit file t)
    as [[[]|e] t']; [apply IH | reflexivity].
Qed.

Lemma build_diff_content_keep t :
  build_diff_content args (keep_patched_repo repo) (keep_patched pr) t
  = build_diff_content args repo pr t.
Proof.
  unfold build_diff_content.
  destruct (full_context args);
    unfold bind, call_get_files, call, ret; cbn [get_files keep_patched].
  - now rewrite collect_all_content_same, collect_all_content_keep.
  - now rewrite patch_blocks_keep.
Qed.

Lemma process_keep review_text t :
  process args (keep_patched_repo repo) (keep_patched pr) gateway
    review_text t
  = process args repo pr gateway review_text t.
Proof.
  unfold process. destruct (mode args); try reflexivity.
  unfold bind, print, call_get_files, call.
  cbn [state head get_files keep_patched get_commit keep_patched_repo].
  destruct (String.eqb (state pr) "open"); [|reflexivity].
  destruct (get_commit repo (sha (head pr))) as [hc|e]; [|reflexivity].
  change (review_file args (keep_patched_repo repo) (keep_patched pr))
    with (review_file args repo pr).
  apply for_each_keep.
Qed.

Lemma review_keep t :
  review args (keep_patched_repo repo) (keep_patched pr) gateway t
  = review args repo pr gateway t.
Proof.
  unfold review, bind. rewrite build_diff_content_keep.
  destruct (build_diff_content args repo pr t) as [[dc|e] t1];
    [|reflexivity].
  change (build_content args (keep_patched pr) dc)
    with (build_content args pr dc).
  destruct (call_generate_review gateway (build_content args pr dc)
              (mode args) t1) as [[rt|e] t2]; [|reflexivity].
  apply process_keep.
Qed.

End KeepPatched.

(** X18: the changed files without a patch, or with an empty one, count for
    nothing: a run gives the same result and the same trace as it would if
    the pull request listed only the files with a non-empty patch. *)
Theorem files_without_patch_are_ignored :
  forall (args : Args) (w : World),
    run args (keep_patched_world w) = run args w.
Proof.
  intros args w. unfold run, main.
  cbn [getenv keep_patched_world].
  destruct (getenv w "GITHUB_TOKEN") as [token|]; [|reflexivity].
  destruct (PyStr.truthy token); [|reflexivity].
  unfold bind at 1 4. unfold call at 1 4.
  cbn [mk_Github keep_patched_world get_repo].
  destruct (get_repo (mk_Github w token) (repository args)) as [repo|e];
    [|reflexivity].
  unfold bind at 1 3. unfold call at 1 3.
  cbn [get_pull keep_patched_repo].
  destruct (get_pull repo (pr_number args)) as [pr|e]; [|reflexivity].
  unfold bind, call.
  replace (llm_map (keep_patched_world w) (llm args) (debug args) (deep args))
    with (llm_map w (llm args) (debug args) (deep args))
    by (unfold llm_map; now destruct (llm args)).
  destruct (llm_map w (llm args) (debug args) (deep args)) as [gateway|e];
    [|reflexivity].
  apply review_keep.
Qed.

Lemma diff_content_of_nothing args repo pr :
  patched (get_files pr) = [] -> diff_content_of args repo pr = Ok "".
Proof.
  intros Hp. unfold diff_content_of, build_diff_content.
  destruct (full_context args);
    unfold bind, call_get_files, call, ret; cbn [app].
  - now rewrite (collect_all_content_nothing _ _ _ Hp).
  - now rewrite patch_blocks_patched, Hp.
Qed.

(** X19: when no changed file has a non-empty patch (pictures only, say),
    the run still asks the model once, with a content that ends after
    [Diffs:], and neither fetches a content nor tries to create a
    comment. *)
Theorem pull_request_without_patches :
  forall (args : Args) (w : World) (repo : Repository) (pr : PullRequest)
         (gateway : LLM),
    setup_ok args w repo pr gateway ->
    patched (get_files pr) = [] ->
    llm_calls (snd (run args w))
    = [(base_content pr ++ "Diffs:" ++ NL, mode args)] /\
    comment_targets (snd (run args w)) = [] /\
    forall path ref, ~ In (E_get_contents path ref) (snd (run args w)).
Proof.
  intros args w repo pr gateway Hsetup Hp.
  split; [|split].
  - destruct (run_calls _ _ _ _ _ _ Hsetup (diff_content_of_nothing _ _ _ Hp))
      as (per_file & Hcalls & (n & Hn) & _).
    rewrite Hcalls, Hn, Hp, build_content_eq. cbn [map].
    rewrite firstn_nil. now rewrite !append_empty_r.
  - pose proof (run_comment_targets _ _ _ _ _ Hsetup) as H.
    rewrite Hp in H. cbn [map] in H.
    inversion H. reflexivity.
  - intros path ref Hin.
    pose proof (run_contents_fetches _ _ _ _ _ Hsetup) as Hall.
    rewrite Forall_forall in Hall. specialize (Hall _ Hin).
    destruct Hall as (_ & _ & file & diff & Hfd & _).
    now rewrite Hp in Hfd.
Qed.

Lemma pull_request_without_patches_example :
  llm_calls
    (snd (run Sample.args (Sample2.world_of (Ok Sample2.repo_of_pictures))))
  = [("PR Title: New logo" ++ NL ++ "PR Description:" ++ NL ++
      "No description provided" ++ NL ++ NL ++ "Diffs:" ++ NL, comments)].
Proof.
  apply (proj1 (pull_request_without_patches
                  Sample.args (Sample2.world_of (Ok Sample2.repo_of_pictures))
                  Sample2.repo_of_pictures Sample2.pictures Sample.gateway
                  ltac:(exists "ghp_0123"; repeat split) eq_refl)).
Defined.

(** X20: with [--full-context], when the content of a changed file with a
    non-empty patch cannot be fetched, and the contents of the kept files
    before it can, the run ends with the exception of that fetch: the model
    is never called and nothing is printed. *)
Theorem missing_content_is_fatal :
  forall (args : Args) (w : World) (repo : Repository) (pr : PullRequest)
         (gateway : LLM) (fetched : list (File * string)) (file : File)
         (diff : string) (rest : list (File * string)) (e : exception),
    setup_ok args w repo pr gateway ->
    full_context args = true ->
    patched (get_files pr) = (fetched ++ (file, diff) :: rest)%list ->
    (forall fd, In fd fetched ->
       exists file_content,
         get_contents repo (filename (fst fd)) (sha (head pr))
         = Ok file_content) ->
    get_contents repo (filename file) (sha (head pr)) = Raise e ->
    fst (run args w) = Raise e /\
    exit_status (fst (run args w)) = 1%Z /\
    llm_calls (snd (run args w)) = [] /\
    forall ev, In ev (snd (run args w)) -> is_print ev = false.
Proof.
  intros args w repo pr gateway fetched file diff rest e
         Hsetup Hf Hp Hok Hraise.
  assert (Hd : diff_content_of args repo pr = Raise e).
  { unfold diff_content_of, build_diff_content. rewrite Hf.
    unfold bind, call_get_files, call. cbn [app].
    pose proof (collect_all_content_raises repo pr (get_files pr)
                  fetched file diff rest e Hp Hok Hraise []
                  [E_get_files]) as H.
    destruct (collect_all_content repo pr (get_files pr) [] [E_get_files])
      as [[l|e'] t']; cbn [fst] in H |- *; congruence. }
  destruct (run_detail _ _ _ _ _ Hsetup) as (tail & r & Hrun & Htail).
  destruct Htail as [e' Hd' | dc e' Hd' Hg | dc rt es r Hd' Hg Hproc];
    rewrite Hd in Hd'; try discriminate.
  injection Hd' as <-. rewrite Hrun. cbn [fst snd]. rewrite app_nil_r.
  repeat split.
  - rewrite llm_calls_app.
    now rewrite (llm_calls_fetch _ (diff_events_fetch args repo pr)).
  - apply Forall_forall. apply Forall_app.
    split; [now repeat constructor|].
    apply fetch_no_print, diff_events_fetch.
Qed.

Lemma missing_content_is_fatal_example :
  fst (run Sample2.args_full (Sample2.world_of (Ok Sample2.repo_without_b)))
  = Raise Sample2.not_found.
Proof.
  apply (proj1 (missing_content_is_fatal
                  Sample2.args_full
                  (Sample2.world_of (Ok Sample2.repo_without_b))
                  Sample2.repo_without_b (Sample.pr "open") Sample.gateway
                  [({| filename := "a.py"; patch := Some Sample.patch_a |},
                    Sample.patch_a)]
                  {| filename := "b.py"; patch := Some Sample.patch_b |}
                  Sample.patch_b
                  [({| filename := "c.py"; patch := Some Sample.patch_c |},
                    Sample.patch_c)]
                  Sample2.not_found
                  ltac:(exists "ghp_0123"; repeat split)
                  eq_refl eq_refl
                  ltac:(intros fd [<-|[]]; eexists; reflexivity)
                  eq_refl)).
Defined.

(** *** Feedback is always posted *)

Lemma feedback_is_posted_extends e t t' :
  feedback_is_posted e t -> feedback_is_posted e (t ++ t')%list.
Proof.
  destruct e as [| | | | | |content m [fr|ex]| |]; simpl;
    try (intros; exact I).
  intros H Hw. destruct (H Hw) as (commit & path & line & answer & after' & ->).
  exists commit, path, line, answer, (after' ++ t')%list. reflexivity.
Qed.

Section Feedback.

Variables (args : Args) (repo : Repository) (pr : PullRequest)
          (gateway : LLM) (head_commit : Commit).

Lemma comment_trace_feedback file diff chunk es r :
  comment_trace args gateway head_commit file diff chunk es r ->
  followed feedback_is_posted es.
Proof.
  intros H. destruct H; simpl; repeat split; try congruence;
    intros _; do 5 eexists; reflexivity.
Qed.

Lemma file_trace_feedback file es r :
  file_trace args repo pr gateway head_commit file es r ->
  followed feedback_is_posted es.
Proof.
  intros H.
  destruct H as [Hskip | diff e Hp Ht Hf Hc
                 | diff file_content es r Hp Ht Hf Hc Hct
                 | diff es r Hp Ht Hf Hct].
  - exact I.
  - simpl. auto.
  - simpl. split; [exact I|]. eapply comment_trace_feedback; eassumption.
  - eapply comment_trace_feedback; eassumption.
Qed.

Lemma loop_trace_feedback files es r :
  loop_trace args repo pr gateway head_commit files es r ->
  followed feedback_is_posted es.
Proof.
  induction 1 as [| file files es1 es2 r H1 H2 IH | file files es e H1].
  - exact I.
  - apply followed_app; [exact feedback_is_posted_extends | | exact IH].
    eapply file_trace_feedback; eassumption.
  - eapply file_trace_feedback; eassumption.
Qed.

End Feedback.

Lemma llm_calls_quiet_prefix (pre es before : trace) x after :
  (pre ++ es = before ++ x :: after)%list ->
  List.length (llm_calls pre) <= 1 ->
  llm_calls before <> [] ->
  (exists c m a, x = E_generate_review c m a) ->
  llm_calls pre <> [] ->
  exists b', before = (pre ++ b')%list /\ es = (b' ++ x :: after)%list.
Proof.
  intros E Hlen Hbefore (c & m & a & ->) Hpre.
  apply app_eq_app in E as [l [[-> E] | [-> E]]].
  - destruct l as [|y l]; cbn [app] in E.
    + exists []. rewrite !app_nil_r. split; [reflexivity | now symmetry].
    + injection E as <- ->.
      rewrite llm_calls_app in Hlen. cbn [llm_calls] in Hlen.
      rewrite length_app in Hlen. cbn [List.length] in Hlen.
      destruct (llm_calls before); [contradiction | cbn in Hlen; lia].
  - exists l. auto.
Qed.

(** X21: every model call after the first, that is every call for a file,
    whose answer is not empty and does not hold [no feedback] once lowered,
    is followed at once by the attempt to create the comment
    [AI Issue: <answer>] on the right side. *)
Theorem feedback_is_always_posted :
  forall (args : Args) (w : World) (repo : Repository) (pr : PullRequest)
         (gateway : LLM) (before : trace) (content : string) (m : Mode)
         (file_review : string) (after : trace),
    setup_ok args w repo pr gateway ->
    snd (run args w)
    = (before ++
       E_generate_review content m (Ok file_review) :: after)%list ->
    llm_calls before <> [] ->
    file_review <> "" ->
    PyStr.contains (PyStr.lower file_review) "no feedback" = false ->
    exists commit path line answer after',
      after
      = E_create_review_comment ("AI Issue: " ++ file_review) commit path
          line "RIGHT" answer :: after'.
Proof.
  intros args w repo pr gateway before content m file_review after
         Hsetup Htrace Hbefore Hne Hlow.
  assert (Hw : wants_comment file_review = true).
  { unfold wants_comment. rewrite Hlow.
    destruct file_review; [contradiction | reflexivity]. }
  destruct (run_detail _ _ _ _ _ Hsetup) as (rest & r & Hrun & Htail).
  rewrite Hrun in Htrace. cbn [snd] in Htrace.
  set (pre := (setup_trace args ++ diff_events args repo pr)%list) in *.
  assert (Hcalls0 : llm_calls pre = []).
  { unfold pre. rewrite llm_calls_app.
    now rewrite (llm_calls_fetch _ (diff_events_fetch args repo pr)). }
  assert (Hfew : forall es,
             List.length (llm_calls es) <= 1 ->
             (pre ++ es)%list
             = (before ++
                E_generate_review content m (Ok file_review) :: after)%list ->
             False).
  { intros es Hlen E.
    assert (Hl : List.length (llm_calls (pre ++ es)%list) <= 1)
      by now rewrite llm_calls_app, Hcalls0.
    rewrite E, llm_calls_app in Hl. cbn [llm_calls] in Hl.
    rewrite length_app in Hl. cbn [List.length] in Hl.
    destruct (llm_calls before); [contradiction | cbn in Hl; lia]. }
  destruct Htail as [e Hd | dc e Hd Hg | dc rt es r Hd Hg Hp].
  - exfalso. apply (Hfew [] (Nat.le_0_l _) Htrace).
  - exfalso. refine (Hfew _ _ Htrace). cbn. lia.
  - destruct Hp as [Hm | Hm | Hm Hs | e Hm Hs Hc | hc es r Hm Hs Hc Hl];
      try (exfalso; refine (Hfew _ _ Htrace); cbn; lia).
    set (first_call :=
           E_generate_review (build_content args pr dc) (mode args) (Ok rt))
      in *.
    change (pre ++ first_call :: E_print ("Code Issues:" ++ NL ++ rt)
              :: E_get_commit (sha (head pr)) :: E_get_files :: es)%list
      with (pre ++
            [first_call; E_print ("Code Issues:" ++ NL ++ rt);
             E_get_commit (sha (head pr)); E_get_files] ++ es)%list
      in Htrace.
    rewrite app_assoc in Htrace.
    apply llm_calls_quiet_prefix in Htrace as (b' & _ & Hes);
      try assumption; try (do 3 eexists; reflexivity).
    + apply loop_trace_feedback in Hl. rewrite Hes in Hl.
      apply followed_split in Hl. exact (Hl Hw).
    + rewrite llm_calls_app, Hcalls0. cbn. lia.
    + rewrite llm_calls_app, Hcalls0. discriminate.
Qed.

Lemma feedback_is_always_posted_example :
  exists commit path line answer after',
    skipn 9 (snd (run Sample.args (Sample.world "open")))
    = E_create_review_comment "AI Issue: y is never read." commit path line
        "RIGHT" answer :: after'.
Proof.
  apply (feedback_is_always_posted
           Sample.args (Sample.world "open") (Sample.repo "open")
           (Sample.pr "open") Sample.gateway
           (firstn 8 (snd (run Sample.args (Sample.world "open"))))
           Sample.patch_a comments "y is never read."
           (skipn 9 (snd (run Sample.args (Sample.world "open"))))
           (sample_setup_ok "open")).
  - vm_compute. reflexivity.
  - vm_compute. discriminate.
  - discriminate.
  - reflexivity.
Defined.
